(** * TickTick client: the V1 + V2 wrapper and its command line

    A shallow embedding of [scripts/ticktick_api.py] and of the task filter
    of [scripts/ticktick_cli.py].  Python values are a small JSON-like
    inductive type, dictionaries are finite maps, and the effects of the
    program (HTTP requests, the error stream, [sys.exit], uncaught
    exceptions, the clock and the random source) are threaded through a
    reader/state/error monad [Py]. *)

From Stdlib Require Import Strings.Ascii Strings.Byte.
From stdpp Require Import gmap strings list fin_maps pretty.

Set Default Proof Using "Type".
#[local] Set Warnings "-register-all".
#[local] Open Scope string_scope.
#[local] Open Scope Z_scope.
#[local] Open Scope list_scope.

(** ** Python values *)

(** What [json.loads] produces and what the program passes around.  JSON
    numbers are integers here: the program never computes with a number,
    it only compares the [status] of a task with 0 and 2. *)
Inductive value :=
  | VNone
  | VBool (b : bool)
  | VInt (z : Z)
  | VStr (s : string)
  | VList (l : list value)
  | VDict (d : gmap string value).

#[global] Instance value_inhabited : Inhabited value := populate VNone.

(** [bool(v)]: the test of [if v:] and [if not v:]. *)
Definition truthy (v : value) : bool :=
  match v with
  | VNone => false
  | VBool b => b
  | VInt z => negb (z =? 0)
  | VStr s => negb (String.eqb s "")
  | VList l => match l with [] => false | _ => true end
  | VDict d => negb (Nat.eqb (size d) 0)
  end.

(** An optional string argument ([str = None]) as a value. *)
Definition of_opt (o : option string) : value :=
  match o with Some s => VStr s | None => VNone end.

(** [v == n] for an integer literal [n]: [bool] is a subclass of [int]
    in Python, so [False == 0] and [True == 1]. *)
Definition py_eq_int (v : value) (n : Z) : bool :=
  match v with
  | VInt z => z =? n
  | VBool b => Z.b2z b =? n
  | _ => false
  end.

(** [v == s] for a string [s]. *)
Definition py_eq_str (v : value) (s : string) : bool :=
  match v with
  | VStr s' => String.eqb s' s
  | _ => false
  end.

(** ** Strings: hexadecimal, percent-encoding, splitting *)

Definition hex_digit (upper : bool) (n : N) : ascii :=
  let digits := if upper then "0123456789ABCDEF" else "0123456789abcdef" in
  match String.get (N.to_nat n) digits with
  | Some c => c
  | None => "0"%char
  end.

(** The [w] low hexadecimal digits of [n], most significant first. *)
Fixpoint hex_fixed (upper : bool) (w : nat) (n : N) : string :=
  match w with
  | O => ""
  | S w' => hex_fixed upper w' (n / 16) +:+ String (hex_digit upper (n mod 16)%N) ""
  end.

(** [format(n, 'x')] for [n >= 0]: as many digits as [n] has, at least one. *)
Definition format_x (n : N) : string :=
  hex_fixed false (S (N.to_nat (N.log2 n / 4))) n.

Fixpoint zeros (k : nat) : string :=
  match k with
  | O => ""
  | S k' => String "0" (zeros k')
  end.

(** [format(z, '08x')]: sign-aware zero padding to a minimum width of 8;
    a wider number is not truncated. *)
Definition format_08x (z : Z) : string :=
  if z <? 0 then
    let digits := format_x (Z.to_N (- z)) in
    String "-" (zeros (7 - String.length digits) +:+ digits)
  else
    let digits := format_x (Z.to_N z) in
    zeros (8 - String.length digits) +:+ digits.

(** [binascii.hexlify]: two lowercase digits per byte. *)
Fixpoint hexlify (bs : list Byte.byte) : string :=
  match bs with
  | [] => ""
  | b :: bs' => hex_fixed false 2 (Byte.to_N b) +:+ hexlify bs'
  end.

(** The bytes [urllib.parse.quote] never escapes. *)
Definition always_safe (c : ascii) : bool :=
  let n := N_of_ascii c in
  ((65 <=? n) && (n <=? 90) || (97 <=? n) && (n <=? 122)
   || (48 <=? n) && (n <=? 57)
   || (n =? 95) || (n =? 46) || (n =? 45) || (n =? 126))%N.

(** [urllib.parse.quote(s, safe="")] on the UTF-8 bytes of [s]. *)
Fixpoint quote (s : string) : string :=
  match s with
  | "" => ""
  | String c s' =>
      if always_safe c then String c (quote s')
      else String "%" (hex_fixed true 2 (N_of_ascii c) +:+ quote s')
  end.

(** [s[n:]]. *)
Fixpoint drop_str (n : nat) (s : string) : string :=
  match n, s with
  | O, _ => s
  | S n', String _ s' => drop_str n' s'
  | S _, "" => ""
  end.

(** The first occurrence of [sep] in [s]: the text before and after it. *)
Fixpoint split_once (sep s : string) : option (string * string) :=
  if String.prefix sep s then Some ("", drop_str (String.length sep) s)
  else match s with
       | "" => None
       | String c s' =>
           match split_once sep s' with
           | Some (before, after) => Some (String c before, after)
           | None => None
           end
       end.

(** [sep in s] for a non-empty [sep]. *)
Definition contains (sep s : string) : bool :=
  match split_once sep s with Some _ => true | None => false end.

(** [s.split(sep)[0]]. *)
Definition split_0 (sep s : string) : string :=
  match split_once sep s with Some (before, _) => before | None => s end.

(** [s.split(sep)[1]], for [s] that contains [sep]. *)
Definition split_1 (sep s : string) : string :=
  match split_once sep s with
  | Some (_, after) => split_0 sep after
  | None => ""
  end.

(** The code points of a UTF-8 string, each as a string of its own: a
    continuation byte (10xxxxxx) stays with the byte before it. *)
Fixpoint utf8_chars_aux (s : string) : string * list string :=
  match s with
  | "" => ("", [])
  | String c s' =>
      let '(pending, chars) := utf8_chars_aux s' in
      let n := N_of_ascii c in
      if ((128 <=? n) && (n <? 192))%N then (String c pending, chars)
      else ("", String c pending :: chars)
  end.

Definition utf8_chars (s : string) : list string :=
  let '(pending, chars) := utf8_chars_aux s in
  match pending with "" => chars | _ => pending :: chars end.

(** [urllib.parse.quote_plus(s)]: as [quote], but a space becomes [+]. *)
Fixpoint quote_plus (s : string) : string :=
  match s with
  | "" => ""
  | String c s' =>
      if always_safe c then String c (quote_plus s')
      else if Ascii.eqb c " " then String "+" (quote_plus s')
      else String "%" (hex_fixed true 2 (N_of_ascii c) +:+ quote_plus s')
  end.

(** [urllib.parse.urlencode(params)] for string keys and values, in the
    order of the dict. *)
Fixpoint urlencode (params : list (string * string)) : string :=
  match params with
  | [] => ""
  | [(k, v)] => quote_plus k +:+ "=" +:+ quote_plus v
  | (k, v) :: params' => quote_plus k +:+ "=" +:+ quote_plus v +:+ "&" +:+ urlencode params'
  end.

(** [s.replace("\\n", "\n")] of the command line: a backslash followed by
    the letter n becomes a line feed, scanning from the left. *)
Fixpoint unescape_newlines (s : string) : string :=
  match s with
  | "" => ""
  | String c s' =>
      match s' with
      | String c' s'' =>
          if Ascii.eqb c "\" && Ascii.eqb c' "n"
          then String "010" (unescape_newlines s'')
          else String c (unescape_newlines s')
      | "" => String c ""
      end
  end.

(** ** The process and its environment *)

(** The credentials a request carries: the bearer token of V1, or the
    device identifier and the session cookie (when there is a session
    token) of V2.  The constant browser-fingerprint headers are left out. *)
Inductive auth :=
  | Bearer (token : string)
  | Device (device_id : string) (cookie : value).

(** A [urllib.request.Request]: [body] is the document that [json.dumps]
    serialises, [None] when no body is sent. *)
Record request := Request {
  req_method : string;
  req_url : string;
  req_auth : auth;
  req_body : option value;
}.

(** The text of a response: empty, a JSON document ([json.loads] gives
    [v]), or text that [json.loads] rejects. *)
Inductive payload :=
  | NoText
  | JsonText (v : value)
  | BadText.

(** What [urlopen] does: it raises [HTTPError] (a status outside 2xx),
    it returns a response with its [Set-Cookie] headers, or it raises
    another [URLError] (no connection). *)
Inductive response :=
  | HTTPError (code : Z) (body : string)
  | Response (set_cookie : list string) (text : payload)
  | URLError.

(** Everything outside the process.  The server may answer a request
    according to all the requests made before it. *)
Record world := World {
  server : list request → request → response;
  entropy : nat → Byte.byte;       (* the bytes [secrets] will produce *)
  clock : Z;                        (* [int(time.time())] *)
  str_lower : string → string;      (* [str.lower] *)
}.

(** The observable state of the process. *)
Record state := State {
  trace : list request;    (* requests sent, oldest first *)
  stderr : list string;    (* the [error] field of each payload printed *)
  stdout : list value;     (* documents printed by [_json_output] *)
  rng : nat;               (* random bytes consumed *)
}.

Definition initial : state := State [] [] [] 0%nat.

(** How a computation ends: a value, [sys.exit(status)], or an exception
    nobody catches (named by its class). *)
Inductive outcome (A : Type) :=
  | Ret (a : A)
  | Exit (status : Z)
  | Crash (exn : string).
Arguments Ret {A} a.
Arguments Exit {A} status.
Arguments Crash {A} exn.

Definition Py (A : Type) : Type := world → state → outcome A * state.

#[global] Instance Py_ret : MRet Py := λ A a _ st, (Ret a, st).

#[global] Instance Py_bind : MBind Py := λ A B f m w st,
  match m w st with
  | (Ret a, st') => f a w st'
  | (Exit c, st') => (Exit c, st')
  | (Crash e, st') => (Crash e, st')
  end.

Definition raise {A} (exn : string) : Py A := λ _ st, (Crash exn, st).

Definition sys_exit {A} (status : Z) : Py A := λ _ st, (Exit status, st).

(** [try: body except SystemExit: handler]. *)
Definition except_SystemExit {A} (body handler : Py A) : Py A := λ w st,
  match body w st with
  | (Exit _, st') => handler w st'
  | r => r
  end.

Definition eprint (msg : string) : Py unit := λ _ st,
  (Ret (), State (trace st) (stderr st ++ [msg]) (stdout st) (rng st)).

(** [urlopen(req)] with [HTTPError] turned into a value, for the
    [try ... except urllib.error.HTTPError] around every call. *)
Definition urlopen (req : request) : Py (Z * string + list string * payload) := λ w st,
  let st' := State (trace st ++ [req]) (stderr st) (stdout st) (rng st) in
  match server w (trace st) req with
  | HTTPError code body => (Ret (inl (code, body)), st')
  | Response cookies text => (Ret (inr (cookies, text)), st')
  | URLError => (Crash "URLError", st')
  end.

(** [secrets.token_hex(n)]. *)
Definition token_hex (n : nat) : Py string := λ w st,
  (Ret (hexlify (entropy w <$> seq (rng st) n)),
   State (trace st) (stderr st) (stdout st) (rng st + n)%nat).

(** [int(time.time())]. *)
Definition time_time : Py Z := λ w st, (Ret (clock w), st).

Definition lower (s : string) : Py string := λ w st, (Ret (str_lower w s), st).

(** [json.loads(text)]. *)
Definition json_loads (text : payload) : Py value :=
  match text with
  | JsonText v => mret v
  | NoText | BadText => raise "ValueError"
  end.

(** [v.get(key, default)]: only a dict has [get]. *)
Definition py_get (v : value) (key : string) (dflt : value) : Py value :=
  match v with
  | VDict d => mret (default dflt (d !! key))
  | _ => raise "AttributeError"
  end.

(** [v[key]] for a string key. *)
Definition py_item (v : value) (key : string) : Py value :=
  match v with
  | VDict d => match d !! key with Some x => mret x | None => raise "KeyError" end
  | _ => raise "TypeError"
  end.

(** The elements a [for] loop, a comprehension or [list.extend] draws
    from [v].  A dict yields its keys (here in the order of the finite
    map, which does not record Python's insertion order). *)
Definition py_iter (v : value) : Py (list value) :=
  match v with
  | VList l => mret l
  | VStr s => mret (VStr <$> utf8_chars s)
  | VDict d => mret (VStr <$> (map_to_list d).*1)
  | VNone | VBool _ | VInt _ => raise "TypeError"
  end.

(** [[x for x in xs if test(x)]]. *)
Fixpoint py_filter (test : value → Py bool) (xs : list value) : Py (list value) :=
  match xs with
  | [] => mret []
  | x :: xs' =>
      keep ← test x;
      rest ← py_filter test xs';
      mret (if keep : bool then x :: rest else rest)
  end.

(** [urllib.parse.quote(v, safe="")]: anything but a [str] is refused. *)
Definition py_quote (v : value) : Py string :=
  match v with
  | VStr s => mret (quote s)
  | _ => raise "TypeError"
  end.

(** ** Shared tools *)

Definition PRIORITY_MAP : gmap string Z :=
  <["none" := 0]> (<["low" := 1]> (<["medium" := 3]> (<["high" := 5]> ∅))).

Definition PRIORITY_REVERSE : gmap Z string :=
  <[0 := "none"]> (<[1 := "low"]> (<[3 := "medium"]> (<[5 := "high"]> ∅))).

Definition _json_output (data : value) : Py unit := λ _ st,
  (Ret (), State (trace st) (stderr st) (stdout st ++ [data]) (rng st)).

Definition _error_exit {A} (msg : string) : Py A :=
  _ ← eprint msg;
  sys_exit 1.

(** ** V1: the official REST API *)

Module TickTickV1.

Definition BASE_URL : string := "https://api.ticktick.com/open/v1".

Record t := Build { access_token : string }.

Definition __init__ (access_token : option string) : Py t :=
  if negb (truthy (of_opt access_token)) then
    _error_exit "TICKTICK_ACCESS_TOKEN 未設定"
  else mret (Build (default "" access_token)).

Definition _request (self : t) (method path : string) (data : value) : Py value :=
  let url := BASE_URL +:+ path in
  let body := if truthy data then Some data else None in
  let req := Request method url (Bearer (access_token self)) body in
  r ← urlopen req;
  match r with
  | inr (_, NoText) => mret (VDict ∅)
  | inr (_, text) => json_loads text
  | inl (code, body_text) =>
      _error_exit ("V1 API 錯誤 HTTP " +:+ pretty code +:+ ": " +:+ body_text)
  end.

Definition get_task (self : t) (project_id task_id : value) : Py value :=
  pid ← py_quote project_id;
  tid ← py_quote task_id;
  _request self "GET" ("/project/" +:+ pid +:+ "/task/" +:+ tid) VNone.

Definition create_task (self : t) (task_data : value) : Py value :=
  _request self "POST" "/task" task_data.

Definition update_task (self : t) (task_id task_data : value) : Py value :=
  tid ← py_quote task_id;
  _request self "POST" ("/task/" +:+ tid) task_data.

Definition list_projects (self : t) : Py value :=
  _request self "GET" "/project" VNone.

Definition get_project_data (self : t) (project_id : value) : Py value :=
  pid ← py_quote project_id;
  _request self "GET" ("/project/" +:+ pid +:+ "/data") VNone.

Definition complete_task (self : t) (project_id task_id : value) : Py value :=
  pid ← py_quote project_id;
  tid ← py_quote task_id;
  _request self "POST" ("/project/" +:+ pid +:+ "/task/" +:+ tid +:+ "/complete") VNone.

Definition delete_task (self : t) (project_id task_id : value) : Py value :=
  pid ← py_quote project_id;
  tid ← py_quote task_id;
  _request self "DELETE" ("/project/" +:+ pid +:+ "/task/" +:+ tid) VNone.

Definition get_project (self : t) (project_id : value) : Py value :=
  pid ← py_quote project_id;
  _request self "GET" ("/project/" +:+ pid) VNone.

Definition create_project (self : t) (project_data : value) : Py value :=
  _request self "POST" "/project" project_data.

Definition update_project (self : t) (project_id project_data : value) : Py value :=
  pid ← py_quote project_id;
  _request self "POST" ("/project/" +:+ pid) project_data.

Definition delete_project (self : t) (project_id : value) : Py value :=
  pid ← py_quote project_id;
  _request self "DELETE" ("/project/" +:+ pid) VNone.

End TickTickV1.

(** ** V2: the internal API behind a session *)

Module TickTickV2.

Definition BASE_URL : string := "https://api.ticktick.com/api/v2".

Record t := Build {
  session_token : value;
  csrf_token : value;
  inbox_id : value;
  _device_id : string;
}.

(** The part of [_headers] that varies: the device identifier inside
    [x-device], and the [Cookie] that carries the session token once
    there is one. *)
Definition _headers (self : t) : auth :=
  Device (_device_id self)
         (if truthy (session_token self) then session_token self else VNone).

(** [_request] without a query string: the operations below pass none. *)
Definition _request (self : t) (method path : string) (data : value) : Py value :=
  let url := BASE_URL +:+ path in
  let body := if truthy data then Some data else None in
  let req := Request method url (_headers self) body in
  r ← urlopen req;
  match r with
  | inr (_, NoText) => mret (VDict ∅)
  | inr (_, text) => json_loads text
  | inl (code, body_text) =>
      _error_exit ("V2 API 錯誤 HTTP " +:+ pretty code +:+ ": " +:+ body_text)
  end.

Definition endpoints : list string := ["/user/signon"; "/user/signin"].

Definition login_request (self : t) (payload : value) (endpoint : string) : request :=
  Request "POST" (BASE_URL +:+ endpoint +:+ "?" +:+ "wc=true&remember=true")
          (_headers self) (Some payload).

(** The [Set-Cookie] scan of a successful response. *)
Definition scan_csrf (self : t) (cookies : list string) : t :=
  fold_left (λ self header,
    if contains "_csrf_token=" header then
      Build (session_token self)
            (VStr (split_0 ";" (split_1 "_csrf_token=" header)))
            (inbox_id self) (_device_id self)
    else self) cookies self.

(** What [str(last_error)] prints. *)
Definition show_error (last_error : option string) : string :=
  default "None" last_error.

(** The [for endpoint in endpoints] loop of [_login], with the object
    and [last_error] as they stand when the loop reaches [todo]. *)
Fixpoint _login_loop (self : t) (payload : value) (todo : list string)
    (last_error : option string) : Py t :=
  match todo with
  | [] =>
      _error_exit ("V2 登入失敗（已嘗試所有端點）: " +:+ show_error last_error)
  | endpoint :: todo' =>
      r ← urlopen (login_request self payload endpoint);
      match r with
      | inr (cookies, text) =>
          let self := scan_csrf self cookies in
          result ← json_loads text;
          token ← py_get result "token" VNone;
          inbox ← py_get result "inboxId" (VStr "");
          let self := Build token (csrf_token self) inbox (_device_id self) in
          if truthy token then mret self
          else _login_loop self payload todo' last_error
      | inl (code, body_text) =>
          _login_loop self payload todo'
            (Some ("HTTP " +:+ pretty code +:+ ": " +:+ body_text))
      end
  end.

Definition _login (self : t) (username password : string) : Py t :=
  let payload :=
    VDict (<["username" := VStr username]> (<["password" := VStr password]> ∅)) in
  _login_loop self payload endpoints None.

Definition __init__ (username password : option string) : Py t :=
  if negb (truthy (of_opt username)) || negb (truthy (of_opt password)) then
    _error_exit "TICKTICK_USERNAME 或 TICKTICK_PASSWORD 未設定"
  else
    suffix ← token_hex 10;
    let self := Build VNone VNone VNone ("65a0" +:+ suffix) in
    _login self (default "" username) (default "" password).

Definition sync (self : t) : Py value :=
  _request self "GET" "/batch/check/0" VNone.

(** The identifier [upload_attachment] makes for the file it sends. *)
Definition attachment_id : Py string :=
  now ← time_time;
  let timestamp_hex := format_08x now in
  random_hex ← token_hex 8;
  mret (timestamp_hex +:+ random_hex).

(** [payload[key] = v] when [v] is truthy. *)
Definition put_if (key : string) (v : value) (payload : gmap string value) :
    gmap string value :=
  if truthy v then <[key := v]> payload else payload.

Definition batch_tag (self : t) (add update delete : value) : Py value :=
  let payload := put_if "delete" delete (put_if "update" update (put_if "add" add ∅)) in
  _request self "POST" "/batch/tag" (VDict payload).

Definition list_tags (self : t) : Py value :=
  data ← sync self;
  py_get data "tags" (VList []).

(** [_request] with its query string: [params] in the order of the dict,
    none when the dict is empty or absent. *)
Definition _request_query (self : t) (method path : string) (data : value)
    (params : list (string * string)) : Py value :=
  let url := BASE_URL +:+ path in
  let url := match params with
             | [] => url
             | _ => url +:+ "?" +:+ urlencode params
             end in
  let body := if truthy data then Some data else None in
  let req := Request method url (_headers self) body in
  r ← urlopen req;
  match r with
  | inr (_, NoText) => mret (VDict ∅)
  | inr (_, text) => json_loads text
  | inl (code, body_text) =>
      _error_exit ("V2 API 錯誤 HTTP " +:+ pretty code +:+ ": " +:+ body_text)
  end.

Definition get_completed_tasks (self : t) (project_id : option string) (limit : Z) :
    Py value :=
  let params := [("from", ""); ("to", ""); ("limit", pretty limit)] in
  if truthy (of_opt project_id) then
    pid ← py_quote (of_opt project_id);
    _request_query self "GET" ("/project/" +:+ pid +:+ "/completed") VNone params
  else
    _request_query self "GET" "/project/all/completed" VNone params.

Definition batch_task (self : t) (add update delete : value) : Py value :=
  let payload := put_if "delete" delete (put_if "update" update (put_if "add" add ∅)) in
  _request self "POST" "/batch/task" (VDict payload).

Definition get_user_settings (self : t) : Py value :=
  _request_query self "GET" "/user/preferences/settings" VNone [("includeWeb", "true")].

Definition get_user_profile (self : t) : Py value :=
  _request self "GET" "/user/profile" VNone.

End TickTickV2.

(** ** The unified client *)

Module TickTickClient.

Record t := Build {
  v1 : option TickTickV1.t;
  v2 : option TickTickV2.t;
}.

Definition __init__ (access_token username password : option string) : Py t :=
  v1 ← (if truthy (of_opt access_token)
        then c ← TickTickV1.__init__ access_token; mret (Some c)
        else mret None);
  v2 ← (if truthy (of_opt username) && truthy (of_opt password)
        then c ← TickTickV2.__init__ username password; mret (Some c)
        else mret None);
  match v1, v2 with
  | None, None =>
      _error_exit "至少需要 V1 (TICKTICK_ACCESS_TOKEN) 或 V2 (USERNAME+PASSWORD) 認證"
  | _, _ => mret (Build v1 v2)
  end.

Definition list_projects (self : t) : Py value :=
  match v1 self with
  | Some c1 => TickTickV1.list_projects c1
  | None =>
      match v2 self with
      | Some c2 =>
          data ← TickTickV2.sync c2;
          py_get data "projectProfiles" (VList [])
      | None => raise "AttributeError"
      end
  end.

(** The V1 fallback of [list_tasks]: the body of [for p in projects],
    with [all_tasks] as accumulated so far. *)
Fixpoint collect_tasks (c1 : TickTickV1.t) (projects all_tasks : list value) :
    Py (list value) :=
  match projects with
  | [] => mret all_tasks
  | p :: projects' =>
      all_tasks ← except_SystemExit
        (id ← py_item p "id";
         pd ← TickTickV1.get_project_data c1 id;
         tasks ← py_get pd "tasks" (VList []);
         more ← py_iter tasks;
         mret (all_tasks ++ more))
        (mret all_tasks);
      collect_tasks c1 projects' all_tasks
  end.

Definition list_tasks (self : t) (project_id : option string) : Py value :=
  let scoped := truthy (of_opt project_id) in
  match (if scoped then v1 self else None) with
  | Some c1 =>
      data ← TickTickV1.get_project_data c1 (of_opt project_id);
      py_get data "tasks" (VList [])
  | None =>
      match v2 self with
      | Some c2 =>
          data ← TickTickV2.sync c2;
          bean ← py_get data "syncTaskBean" (VDict ∅);
          tasks ← py_get bean "update" (VList []);
          if scoped then
            ts ← py_iter tasks;
            kept ← py_filter (λ t,
                      pid ← py_get t "projectId" VNone;
                      mret (py_eq_str pid (default "" project_id))) ts;
            mret (VList kept)
          else mret tasks
      | None =>
          match v1 self with
          | Some c1 =>
              projects ← TickTickV1.list_projects c1;
              ps ← py_iter projects;
              all_tasks ← collect_tasks c1 ps [];
              mret (VList all_tasks)
          | None => raise "AttributeError"
          end
      end
  end.

Definition get_task (self : t) (project_id task_id : value) : Py value :=
  match v1 self with
  | Some c1 => TickTickV1.get_task c1 project_id task_id
  | None => _error_exit "get_task 需要 V1 認證"
  end.

(** [existing.update(kwargs)]: the fields of [kwargs] replace those of
    [existing]; only a dict has [update]. *)
Definition py_update (existing : value) (kwargs : gmap string value) : Py value :=
  match existing with
  | VDict d => mret (VDict (kwargs ∪ d))
  | _ => raise "AttributeError"
  end.

Definition update_task (self : t) (task_id : string)
    (kwargs : gmap string value) : Py value :=
  match v1 self with
  | None => _error_exit "update_task 需要 V1 認證"
  | Some c1 =>
      let project_id := default VNone (kwargs !! "projectId") in
      if negb (truthy project_id) then _error_exit "update_task 需要 projectId"
      else
        existing ← TickTickV1.get_task c1 project_id (VStr task_id);
        existing ← py_update existing kwargs;
        TickTickV1.update_task c1 (VStr task_id) existing
  end.

(** The record [create_tag] builds before it sends it. *)
Definition new_tag (name : string) (color parent : option string) :
    Py (gmap string value) :=
  lname ← lower name;
  let tag : gmap string value :=
    <["label" := VStr name]> (<["name" := VStr lname]>
      (<["sortType" := VStr "project"]> ∅)) in
  let tag := if truthy (of_opt color)
             then <["color" := of_opt color]> tag else tag in
  if truthy (of_opt parent) then
    lparent ← lower (default "" parent);
    mret (<["parent" := VStr lparent]> tag)
  else mret tag.

Definition create_tag (self : t) (name : string) (color parent : option string) :
    Py value :=
  match v2 self with
  | None => _error_exit "tag-create 需要 V2 認證 (USERNAME+PASSWORD)"
  | Some c2 =>
      tag ← new_tag name color parent;
      TickTickV2.batch_tag c2 (VList [VDict tag]) VNone VNone
  end.

Definition sync (self : t) : Py value :=
  match v2 self with
  | None => _error_exit "sync 需要 V2 認證 (USERNAME+PASSWORD)"
  | Some c2 => TickTickV2.sync c2
  end.

Definition get_project (self : t) (project_id : value) : Py value :=
  match v1 self with
  | Some c1 => TickTickV1.get_project c1 project_id
  | None => _error_exit "get_project 需要 V1 認證"
  end.

Definition get_project_data (self : t) (project_id : value) : Py value :=
  match v1 self with
  | Some c1 => TickTickV1.get_project_data c1 project_id
  | None => _error_exit "get_project_data 需要 V1 認證"
  end.

Definition create_project (self : t) (kwargs : gmap string value) : Py value :=
  match v1 self with
  | Some c1 => TickTickV1.create_project c1 (VDict kwargs)
  | None => _error_exit "create_project 需要 V1 認證"
  end.

Definition update_project (self : t) (project_id : value)
    (kwargs : gmap string value) : Py value :=
  match v1 self with
  | Some c1 => TickTickV1.update_project c1 project_id (VDict kwargs)
  | None => _error_exit "update_project 需要 V1 認證"
  end.

Definition delete_project (self : t) (project_id : value) : Py value :=
  match v1 self with
  | Some c1 => TickTickV1.delete_project c1 project_id
  | None => _error_exit "delete_project 需要 V1 認證"
  end.

Definition create_task (self : t) (kwargs : gmap string value) : Py value :=
  match v1 self with
  | Some c1 => TickTickV1.create_task c1 (VDict kwargs)
  | None => _error_exit "create_task 需要 V1 認證"
  end.

Definition complete_task (self : t) (project_id task_id : value) : Py value :=
  match v1 self with
  | Some c1 => TickTickV1.complete_task c1 project_id task_id
  | None => _error_exit "complete_task 需要 V1 認證"
  end.

Definition delete_task (self : t) (project_id task_id : value) : Py value :=
  match v1 self with
  | Some c1 => TickTickV1.delete_task c1 project_id task_id
  | None => _error_exit "delete_task 需要 V1 認證"
  end.

(** [v.lower()]: only a [str] has it. *)
Definition py_lower (v : value) : Py string :=
  match v with
  | VStr s => lower s
  | _ => raise "AttributeError"
  end.

(** The test of the comprehension of [search_tasks]: [or] stops at the
    first field that contains [q]. *)
Definition search_test (q : string) (t : value) : Py bool :=
  title ← py_get t "title" (VStr "");
  title ← py_lower title;
  if contains q title then mret true
  else
    content ← py_get t "content" (VStr "");
    content ← py_lower content;
    if contains q content then mret true
    else
      desc ← py_get t "desc" (VStr "");
      desc ← py_lower desc;
      mret (contains q desc).

Definition search_tasks (self : t) (query : string) : Py value :=
  match v2 self with
  | None => _error_exit "search 需要 V2 認證 (USERNAME+PASSWORD)"
  | Some c2 =>
      data ← TickTickV2.sync c2;
      bean ← py_get data "syncTaskBean" (VDict ∅);
      tasks ← py_get bean "update" (VList []);
      q ← lower query;
      ts ← py_iter tasks;
      kept ← py_filter (search_test q) ts;
      mret (VList kept)
  end.

Definition get_completed_tasks (self : t) (project_id : option string) (limit : Z) :
    Py value :=
  match v2 self with
  | None => _error_exit "completed 需要 V2 認證 (USERNAME+PASSWORD)"
  | Some c2 => TickTickV2.get_completed_tasks c2 project_id limit
  end.

Definition list_tags (self : t) : Py value :=
  match v2 self with
  | None => _error_exit "tags 需要 V2 認證 (USERNAME+PASSWORD)"
  | Some c2 => TickTickV2.list_tags c2
  end.

End TickTickClient.

(** ** The command line *)

(** The three variables [create_client_from_env] reads. *)
Record environ := Environ {
  TICKTICK_ACCESS_TOKEN : option string;
  TICKTICK_USERNAME : option string;
  TICKTICK_PASSWORD : option string;
}.

Definition create_client_from_env (env : environ) : Py TickTickClient.t :=
  TickTickClient.__init__ (TICKTICK_ACCESS_TOKEN env) (TICKTICK_USERNAME env)
                          (TICKTICK_PASSWORD env).

(** [[t for t in tasks if t.get("status", 0) == n]]. *)
Definition with_status (n : Z) (tasks : value) : Py value :=
  ts ← py_iter tasks;
  kept ← py_filter (λ t,
            status ← py_get t "status" (VInt 0);
            mret (py_eq_int status n)) ts;
  mret (VList kept).

(** The optional status filter of [cmd_tasks]. *)
Definition status_filter (status : option string) (tasks : value) : Py value :=
  if bool_decide (status = Some "pending") then with_status 0 tasks
  else if bool_decide (status = Some "completed") then with_status 2 tasks
  else mret tasks.

Definition cmd_tasks (env : environ) (project status : option string) : Py unit :=
  client ← create_client_from_env env;
  tasks ← TickTickClient.list_tasks client project;
  tasks ← status_filter status tasks;
  _json_output tasks.

(** [len(v)]. *)
Definition py_len (v : value) : Py Z :=
  match v with
  | VList l => mret (Z.of_nat (length l))
  | VDict d => mret (Z.of_nat (size d))
  | VStr s => mret (Z.of_nat (length (utf8_chars s)))
  | VNone | VBool _ | VInt _ => raise "TypeError"
  end.

(** [kwargs[key] = f(arg)] when the option [arg] was given and is not
    empty: the shape of every [if args.x:] below. *)
Definition put_arg (key : string) (arg : option string) (f : string → value)
    (kwargs : gmap string value) : gmap string value :=
  if truthy (of_opt arg) then <[key := f (default "" arg)]> kwargs else kwargs.

(** The same for an option that may be repeated ([action="append"]). *)
Definition put_args (key : string) (arg : option (list string))
    (f : list string → value) (kwargs : gmap string value) : gmap string value :=
  match arg with
  | Some (x :: xs) => <[key := f (x :: xs)]> kwargs
  | Some [] | None => kwargs
  end.

(** [PRIORITY_MAP.get(p, 0)]. *)
Definition priority_of (p : string) : value :=
  VInt (default 0 (PRIORITY_MAP !! p)).

Definition cmd_projects (env : environ) : Py unit :=
  client ← create_client_from_env env;
  projects ← TickTickClient.list_projects client;
  _json_output projects.

Definition cmd_project_get (env : environ) (project_id : string) : Py unit :=
  client ← create_client_from_env env;
  data ← TickTickClient.get_project_data client (VStr project_id);
  _json_output data.

Definition cmd_project_delete (env : environ) (project_id : string) : Py unit :=
  client ← create_client_from_env env;
  result ← TickTickClient.delete_project client (VStr project_id);
  _json_output (VDict (<["success" := VBool true]> {["deleted" := VStr project_id]})).

Definition cmd_task_get (env : environ) (project_id task_id : string) : Py unit :=
  client ← create_client_from_env env;
  task ← TickTickClient.get_task client (VStr project_id) (VStr task_id);
  _json_output task.

(** The options of [task-create]. *)
Record task_create_args := TaskCreateArgs {
  tc_title : string;
  tc_project : string;
  tc_content : option string;
  tc_desc : option string;
  tc_priority : option string;
  tc_due : option string;
  tc_start : option string;
  tc_all_day : bool;
  tc_timezone : option string;
  tc_kind : option string;
  tc_reminder : option (list string);
  tc_repeat : option string;
  tc_subtask : option (list string);
}.

(** The [kwargs] that [cmd_task_create] collects. *)
Definition task_create_kwargs (args : task_create_args) : gmap string value :=
  let kwargs : gmap string value :=
    <["title" := VStr (tc_title args)]> (<["projectId" := VStr (tc_project args)]> ∅) in
  let kwargs := put_arg "content" (tc_content args) (λ s, VStr (unescape_newlines s)) kwargs in
  let kwargs := put_arg "desc" (tc_desc args) (λ s, VStr (unescape_newlines s)) kwargs in
  let kwargs := put_arg "priority" (tc_priority args) priority_of kwargs in
  let kwargs := put_arg "dueDate" (tc_due args) VStr kwargs in
  let kwargs := put_arg "startDate" (tc_start args) VStr kwargs in
  let kwargs := if tc_all_day args then <["isAllDay" := VBool true]> kwargs else kwargs in
  let kwargs := put_arg "timeZone" (tc_timezone args) VStr kwargs in
  let kwargs := put_arg "kind" (tc_kind args) VStr kwargs in
  let kwargs := put_args "reminders" (tc_reminder args) (λ l, VList (VStr <$> l)) kwargs in
  let kwargs := put_arg "repeatFlag" (tc_repeat args) VStr kwargs in
  put_args "items" (tc_subtask args)
    (λ l, VList ((λ t, VDict (<["title" := VStr t]> {["status" := VInt 0]})) <$> l)) kwargs.

Definition cmd_task_create (env : environ) (args : task_create_args) : Py unit :=
  client ← create_client_from_env env;
  result ← TickTickClient.create_task client (task_create_kwargs args);
  _json_output result.

(** The options of [task-update]. *)
Record task_update_args := TaskUpdateArgs {
  tu_task_id : string;
  tu_project : string;
  tu_title : option string;
  tu_content : option string;
  tu_priority : option string;
  tu_due : option string;
  tu_start : option string;
}.

(** The [kwargs] that [cmd_task_update] collects. *)
Definition task_update_kwargs (args : task_update_args) : gmap string value :=
  let kwargs : gmap string value :=
    <["id" := VStr (tu_task_id args)]> (<["projectId" := VStr (tu_project args)]> ∅) in
  let kwargs := put_arg "title" (tu_title args) VStr kwargs in
  let kwargs := put_arg "content" (tu_content args) (λ s, VStr (unescape_newlines s)) kwargs in
  let kwargs := put_arg "priority" (tu_priority args) priority_of kwargs in
  let kwargs := put_arg "dueDate" (tu_due args) VStr kwargs in
  put_arg "startDate" (tu_start args) VStr kwargs.

Definition cmd_task_update (env : environ) (args : task_update_args) : Py unit :=
  client ← create_client_from_env env;
  result ← TickTickClient.update_task client (tu_task_id args) (task_update_kwargs args);
  _json_output result.

Definition cmd_task_complete (env : environ) (project_id task_id : string) : Py unit :=
  client ← create_client_from_env env;
  result ← TickTickClient.complete_task client (VStr project_id) (VStr task_id);
  _json_output (VDict (<["success" := VBool true]> {["completed" := VStr task_id]})).

Definition cmd_task_delete (env : environ) (project_id task_id : string) : Py unit :=
  client ← create_client_from_env env;
  result ← TickTickClient.delete_task client (VStr project_id) (VStr task_id);
  _json_output (VDict (<["success" := VBool true]> {["deleted" := VStr task_id]})).

Definition cmd_search (env : environ) (query : string) : Py unit :=
  client ← create_client_from_env env;
  tasks ← TickTickClient.search_tasks client query;
  _json_output tasks.

Definition cmd_completed (env : environ) (project : option string) (limit : Z) : Py unit :=
  client ← create_client_from_env env;
  tasks ← TickTickClient.get_completed_tasks client project limit;
  _json_output tasks.

Definition cmd_tags (env : environ) : Py unit :=
  client ← create_client_from_env env;
  tags ← TickTickClient.list_tags client;
  _json_output tags.

Definition cmd_tag_create (env : environ) (name : string) (color parent : option string) :
    Py unit :=
  client ← create_client_from_env env;
  result ← TickTickClient.create_tag client name color parent;
  _json_output result.

(** The summary [cmd_sync] computes, before it looks at [--full]. *)
Definition sync_summary (data : value) : Py value :=
  inbox ← py_get data "inboxId" VNone;
  profiles ← py_get data "projectProfiles" (VList []);
  projects ← py_len profiles;
  groups ← py_get data "projectGroups" (VList []);
  folders ← py_len groups;
  tag_list ← py_get data "tags" (VList []);
  tags ← py_len tag_list;
  bean ← py_get data "syncTaskBean" (VDict ∅);
  updates ← py_get bean "update" (VList []);
  tasks ← py_len updates;
  mret (VDict (<["inboxId" := inbox]> (<["projects" := VInt projects]>
         (<["project_folders" := VInt folders]> (<["tags" := VInt tags]>
           {["tasks" := VInt tasks]}))))).

Definition cmd_sync (env : environ) (full : bool) : Py unit :=
  client ← create_client_from_env env;
  data ← TickTickClient.sync client;
  summary ← sync_summary data;
  if full then _json_output data else _json_output summary.

(** * Vocabulary of the statements, and sample servers *)

(** ** Running computations *)

(** The state after one more request. *)
Definition sent (req : request) (st : state) : state :=
  State (trace st ++ [req]) (stderr st) (stdout st) (rng st).

(** The state after one more diagnostic. *)
Definition complained (msg : string) (st : state) : state :=
  State (trace st) (stderr st ++ [msg]) (stdout st) (rng st).

(** The request one V1 call sends, and the diagnostic of an HTTP error. *)
Definition v1_request (self : TickTickV1.t) (method path : string) (data : value) :
    request :=
  Request method (TickTickV1.BASE_URL +:+ path) (Bearer (TickTickV1.access_token self))
          (if truthy data then Some data else None).

Definition v1_error (code : Z) (body : string) : string :=
  "V1 API 錯誤 HTTP " +:+ pretty code +:+ ": " +:+ body.

(** The same for V2. *)
Definition v2_request (self : TickTickV2.t) (method path : string) (data : value) :
    request :=
  Request method (TickTickV2.BASE_URL +:+ path) (TickTickV2._headers self)
          (if truthy data then Some data else None).

Definition v2_error (code : Z) (body : string) : string :=
  "V2 API 錯誤 HTTP " +:+ pretty code +:+ ": " +:+ body.

(** ** The priority table *)

Definition PRIORITY_NAMES : list string := ["none"; "low"; "medium"; "high"].
Definition PRIORITY_ORDINALS : list Z := [0; 1; 3; 5].

(** ** Construction *)

(** An environment variable that is not set, or set to nothing. *)
Definition missing (o : option string) : Prop := o = None ∨ o = Some "".

Definition NO_CREDENTIALS : string :=
  "至少需要 V1 (TICKTICK_ACCESS_TOKEN) 或 V2 (USERNAME+PASSWORD) 認證".

(** ** Partial update of a task *)

Definition NEEDS_V1 : string := "update_task 需要 V1 認證".
Definition NEEDS_PROJECT : string := "update_task 需要 projectId".

(** The two requests of a successful update. *)
Definition fetch_request (task_id : string) (c1 : TickTickV1.t) (pid : string) : request :=
  Request "GET"
    (TickTickV1.BASE_URL +:+ "/project/" +:+ quote pid +:+ "/task/" +:+ quote task_id)
    (Bearer (TickTickV1.access_token c1)) None.

Definition submit_request (task_id : string) (c1 : TickTickV1.t)
    (record : gmap string value) : request :=
  Request "POST" (TickTickV1.BASE_URL +:+ "/task/" +:+ quote task_id)
    (Bearer (TickTickV1.access_token c1)) (Some (VDict record)).

(** A task with an attachment, and a server that answers every fetch
    with it and every submission with what was submitted. *)
Definition stored_task : gmap string value :=
  <["id" := VStr "t1"]> (<["projectId" := VStr "p1"]> (<["title" := VStr "draft"]>
    (<["attachments" := VList [VStr "scan.pdf"]]> ∅))).

Definition one_task_world : world :=
  World (λ _ req,
           if String.eqb (req_method req) "GET"
           then Response [] (JsonText (VDict stored_task))
           else Response [] (JsonText (default VNone (req_body req))))
        (λ _, Byte.x00) 0 (λ s, s).

Definition v1_only : TickTickClient.t :=
  TickTickClient.Build (Some (TickTickV1.Build "secret")) None.

Definition retitle : gmap string value :=
  <["projectId" := VStr "p1"]> {["title" := VStr "final"]}.

(** ** Which interface serves a listing *)

(** A request of the official interface carries the bearer token; a
    request of the internal interface carries the device fingerprint
    instead. *)
Definition is_v1 (req : request) : bool :=
  match req_auth req with Bearer _ => true | Device _ _ => false end.

(** A computation that leaves the state of the process alone. *)
Definition quiet {A} (m : Py A) : Prop := ∀ w st, (m w st).2 = st.

(** A computation whose requests all satisfy [p]. *)
Definition only_sends (p : request → bool) {A} (m : Py A) : Prop :=
  ∀ w st, ∃ reqs,
    trace (m w st).2 = trace st ++ reqs ∧ Forall (λ req, p req = true) reqs.

(** The requests of the listings. *)
Definition list_request (c1 : TickTickV1.t) : request :=
  v1_request c1 "GET" "/project" VNone.

Definition data_request (c1 : TickTickV1.t) (id : string) : request :=
  v1_request c1 "GET" ("/project/" +:+ quote id +:+ "/data") VNone.

Definition sync_request (c2 : TickTickV2.t) : request :=
  v2_request c2 "GET" "/batch/check/0" VNone.

(** A client with both backends, and a server whose snapshot holds one
    task. *)
Definition a_session : TickTickV2.t :=
  TickTickV2.Build (VStr "session") VNone (VStr "inbox1") "65a0ffffffffffffffffffff".

Definition both : TickTickClient.t :=
  TickTickClient.Build (Some (TickTickV1.Build "secret")) (Some a_session).

Definition snapshot : value :=
  VDict {["syncTaskBean" := VDict {["update" := VList [VDict stored_task]]}]}.

Definition snapshot_world : world :=
  World (λ _ req, Response [] (JsonText snapshot)) (λ _, Byte.x00) 0 (λ s, s).

(** ** Listing all tasks through V1 alone *)

Definition project_id_of (p : gmap string value) : string :=
  match p !! "id" with Some (VStr id) => id | _ => "" end.

(** A per-project fetch fails when the server answers with an HTTP error. *)
Definition fetch_fails (r : response) : bool :=
  match r with HTTPError _ _ => true | _ => false end.

(** The task list a successful fetch delivers. *)
Definition fetched_tasks (r : response) : list value :=
  match r with
  | Response _ (JsonText (VDict pd)) =>
      match pd !! "tasks" with Some (VList ts) => ts | _ => [] end
  | _ => []
  end.

(** The diagnostic a failed fetch leaves on the error stream. *)
Definition fetch_diagnostic (r : response) : option string :=
  match r with HTTPError code body => Some (v1_error code body) | _ => None end.

(** The answers a project fetch can get: an HTTP error, or a document (or
    an empty body) whose [tasks], when present, is a list. *)
Definition fetch_answer (r : response) : Prop :=
  match r with
  | HTTPError _ _ => True
  | Response _ NoText => True
  | Response _ (JsonText (VDict pd)) =>
      match pd !! "tasks" with Some (VList _) | None => True | Some _ => False end
  | _ => False
  end.

(** Every project has an identifier, and its fetch is answered by
    [answer], whatever was requested before. *)
Definition enumerable (w : world) (c1 : TickTickV1.t)
    (answer : gmap string value → response) (p : gmap string value) : Prop :=
  (∃ id, p !! "id" = Some (VStr id))
  ∧ fetch_answer (answer p)
  ∧ ∀ history, server w history (data_request c1 (project_id_of p)) = answer p.

(** The projects whose fetch succeeded. *)
Definition succeeded (answer : gmap string value → response)
    (projects : list (gmap string value)) : list (gmap string value) :=
  List.filter (λ p, negb (fetch_fails (answer p))) projects.

(** Two projects: the first has two tasks, the fetch of the second fails. *)
Definition P1 : gmap string value := <["id" := VStr "p1"]> {["name" := VStr "Home"]}.
Definition P2 : gmap string value := <["id" := VStr "p2"]> {["name" := VStr "Work"]}.
Definition T1 : value := VDict {["title" := VStr "water the plants"]}.
Definition T2 : value := VDict (<["title" := VStr "pay the rent"]> {["status" := VInt 2]}).

Definition secret : TickTickV1.t := TickTickV1.Build "secret".

Definition two_projects_answer (p : gmap string value) : response :=
  if String.eqb (project_id_of p) "p1"
  then Response [] (JsonText (VDict {["tasks" := VList [T1; T2]]}))
  else HTTPError 500 "unavailable".

Definition two_projects_world : world :=
  World (λ _ req,
           if String.eqb (req_url req) (req_url (list_request secret))
           then Response [] (JsonText (VList [VDict P1; VDict P2]))
           else if String.eqb (req_url req) (req_url (data_request secret "p1"))
           then two_projects_answer P1
           else two_projects_answer P2)
        (λ _, Byte.x00) 0 (λ s, s).

(** ** Login *)

Definition login_payload (username password : string) : value :=
  VDict (<["username" := VStr username]> (<["password" := VStr password]> ∅)).

(** The error [_login] records for a failing endpoint. *)
Definition login_error (code : Z) (body : string) : string :=
  "HTTP " +:+ pretty code +:+ ": " +:+ body.

(** The single message of a failed login. *)
Definition LOGIN_FAILED (last_error : string) : string :=
  "V2 登入失敗（已嘗試所有端點）: " +:+ last_error.

(** The session after the answer [result] with the session token [token]. *)
Definition logged_in (self : TickTickV2.t) (cookies : list string)
    (result : gmap string value) (token : value) : TickTickV2.t :=
  TickTickV2.Build token (TickTickV2.csrf_token (TickTickV2.scan_csrf self cookies))
                   (default (VStr "") (result !! "inboxId")) (TickTickV2._device_id self).

(** The object [__init__] hands to [_login]. *)
Definition fresh_session : TickTickV2.t :=
  TickTickV2.Build VNone VNone VNone "65a000000000000000000000".

Definition granted : gmap string value :=
  <["token" := VStr "s3ss10n"]> {["inboxId" := VStr "inbox1"]}.

Definition is_signon (req : request) : bool :=
  String.eqb (req_url req)
    "https://api.ticktick.com/api/v2/user/signon?wc=true&remember=true".

(** Three servers: both endpoints work; only the second works; none works. *)
Definition signon_world : world :=
  World (λ _ _, Response ["_csrf_token=c5rf; Path=/"] (JsonText (VDict granted)))
        (λ _, Byte.x00) 0 (λ s, s).

Definition signin_world : world :=
  World (λ _ req, if is_signon req then HTTPError 404 "no such endpoint"
                  else Response [] (JsonText (VDict granted)))
        (λ _, Byte.x00) 0 (λ s, s).

Definition locked_world : world :=
  World (λ _ req, if is_signon req then HTTPError 404 "no such endpoint"
                  else HTTPError 401 "wrong password")
        (λ _, Byte.x00) 0 (λ s, s).

(** A server whose second endpoint answers 200 with an empty document. *)
Definition tokenless_world : world :=
  World (λ _ req, if is_signon req then HTTPError 404 "no such endpoint"
                  else Response [] (JsonText (VDict ∅)))
        (λ _, Byte.x00) 0 (λ s, s).

(** ** The identifier of an uploaded attachment *)

(** The value of a lowercase hexadecimal digit. *)
Definition hex_digit_value (c : ascii) : option N :=
  let n := N_of_ascii c in
  if ((48 <=? n) && (n <=? 57))%N then Some (n - 48)%N
  else if ((97 <=? n) && (n <=? 102))%N then Some (n - 87)%N
  else None.

(** Reading a string of lowercase hexadecimal digits, most significant
    digit first, after the digits that gave [acc]. *)
Fixpoint hex_value_from (acc : N) (s : string) : option N :=
  match s with
  | "" => Some acc
  | String c s' =>
      match hex_digit_value c with
      | Some d => hex_value_from (16 * acc + d) s'
      | None => None
      end
  end.

Definition hex_value (s : string) : option N := hex_value_from 0 s.

(** A string made of the characters [0-9a-f] only. *)
Definition lower_hex (s : string) : Prop := is_Some (hex_value s).

(** A clock that reads 7 February 2106, 06:28:16 UTC: [2^32] seconds. *)
Definition year_2106_world : world :=
  World (λ _ _, URLError) (λ _, Byte.x00) (2 ^ 32) (λ s, s).

(** Midnight UTC on 4 November 2026, and random bytes 0, 1, 2, ... *)
Definition counting_world : world :=
  World (λ _ _, URLError) (λ n, default Byte.x00 (Byte.of_nat n)) 1793750400 (λ s, s).

(** ** Creating a tag *)

(** The request that adds one tag. *)
Definition tag_request (c2 : TickTickV2.t) (tag : gmap string value) : request :=
  Request "POST" (TickTickV2.BASE_URL +:+ "/batch/tag") (TickTickV2._headers c2)
          (Some (VDict {["add" := VList [VDict tag]]})).

(** The parent recorded for a tag: none when no parent, or an empty one,
    is given. *)
Definition tag_parent (w : world) (parent : option string) : option value :=
  match parent with
  | Some p => if String.eqb p "" then None else Some (VStr (str_lower w p))
  | None => None
  end.

(** [str.lower] on the letters A to Z. *)
Fixpoint ascii_lower (s : string) : string :=
  match s with
  | "" => ""
  | String c s' =>
      let n := N_of_ascii c in
      String (if ((65 <=? n) && (n <=? 90))%N then ascii_of_N (n + 32) else c)
             (ascii_lower s')
  end.

Definition tagging_world : world :=
  World (λ _ _, Response [] NoText) (λ _, Byte.x00) 0 ascii_lower.

(** ** The status filter of the task listing *)

(** A task record without a [status] field. *)
Definition status_absent (t : gmap string value) : bool :=
  match t !! "status" with None => true | Some _ => false end.

(** A task record whose [status] field equals [n], with the equality of
    Python: an integer equals [n] when it is [n], and the booleans count
    as 0 and 1. *)
Definition status_is (n : Z) (t : gmap string value) : bool :=
  match t !! "status" with Some v => py_eq_int v n | None => false end.

Definition pending (ts : list (gmap string value)) : list (gmap string value) :=
  List.filter (λ t, status_absent t || status_is 0 t) ts.

Definition completed (ts : list (gmap string value)) : list (gmap string value) :=
  List.filter (status_is 2) ts.

(** Three tasks: no status, open, completed. *)
Definition T3 : gmap string value := {["title" := VStr "water the plants"]}.
Definition T4 : gmap string value := <["title" := VStr "call home"]> {["status" := VInt 0]}.
Definition T5 : gmap string value := <["title" := VStr "pay the rent"]> {["status" := VInt 2]}.

(** ** Percent-encoding of identifiers *)

(** The value of a hexadecimal digit, in either case. *)
Definition any_hex_digit_value (c : ascii) : option N :=
  let n := N_of_ascii c in
  if ((48 <=? n) && (n <=? 57))%N then Some (n - 48)%N
  else if ((65 <=? n) && (n <=? 70))%N then Some (n - 55)%N
  else if ((97 <=? n) && (n <=? 102))%N then Some (n - 87)%N
  else None.

(** [urllib.parse.unquote] on bytes: [%XY] becomes the byte XY, anything
    else stays. *)
Fixpoint unquote (s : string) : string :=
  match s with
  | "" => ""
  | String c rest =>
      match rest with
      | String h (String l s') =>
          match Ascii.eqb c "%", any_hex_digit_value h, any_hex_digit_value l with
          | true, Some a, Some b => String (ascii_of_N (16 * a + b)) (unquote s')
          | _, _, _ => String c (unquote rest)
          end
      | _ => String c (unquote rest)
      end
  end.

(** Every character of [s] passes [test]. *)
Fixpoint str_forall (test : ascii → bool) (s : string) : bool :=
  match s with
  | "" => true
  | String c s' => test c && str_forall test s'
  end.

(** What a quoted identifier is made of: unreserved characters and [%]. *)
Definition path_safe (c : ascii) : bool := always_safe c || Ascii.eqb c "%".

Definition not_slash (c : ascii) : bool := negb (Ascii.eqb c "/").

(** ** What construction sends and yields *)

(** The address of a login endpoint. *)
Definition login_url (endpoint : string) : string :=
  TickTickV2.BASE_URL +:+ endpoint +:+ "?wc=true&remember=true".

(** A login request from the device [device_id]: a POST of the
    credentials, with no session cookie. *)
Definition anonymous_login (device_id : string) (payload : value) (endpoint : string) :
    request :=
  Request "POST" (login_url endpoint) (Device device_id VNone) (Some payload).

(** How a login that started at [st] with the endpoints [todo] can end:
    it has requested a prefix of [todo], in order and without a cookie,
    has drawn no random byte and printed nothing on the output; and if it
    returned an object, that object has a session token and the device
    identifier of the start, at least one request was sent and the error
    stream is untouched. *)
Definition login_outcome (device_id : string) (payload : value) (todo : list string)
    (st : state) (r : outcome TickTickV2.t * state) : Prop :=
  ∃ n,
    (n ≤ length todo)%nat
    ∧ trace r.2 = trace st ++ (anonymous_login device_id payload <$> take n todo)
    ∧ rng r.2 = rng st
    ∧ stdout r.2 = stdout st
    ∧ ∀ self', r.1 = Ret self' →
        truthy (TickTickV2.session_token self') = true
        ∧ TickTickV2._device_id self' = device_id
        ∧ (1 ≤ n)%nat
        ∧ stderr r.2 = stderr st.

(** The device identifier [secrets.token_hex(10)] gives at [st]. *)
Definition device_id_at (w : world) (st : state) : string :=
  "65a0" +:+ hexlify (entropy w <$> seq (rng st) 10).

(** A server whose endpoints both answer 200 with an empty document. *)
Definition empty_answers_world : world :=
  World (λ _ _, Response [] (JsonText (VDict ∅))) (λ _, Byte.x00) 0 (λ s, s).

(** ** Which backend an operation needs *)

Definition is_internal (req : request) : bool := negb (is_v1 req).

(** The operations of the client that go to V1 or fail, by the name
    their diagnostic gives them. *)
Definition v1_operations (self : TickTickClient.t) (project_id task_id : value)
    (id : string) (kwargs : gmap string value) : list (string * Py value) :=
  [("get_project", TickTickClient.get_project self project_id);
   ("get_project_data", TickTickClient.get_project_data self project_id);
   ("create_project", TickTickClient.create_project self kwargs);
   ("update_project", TickTickClient.update_project self project_id kwargs);
   ("delete_project", TickTickClient.delete_project self project_id);
   ("get_task", TickTickClient.get_task self project_id task_id);
   ("create_task", TickTickClient.create_task self kwargs);
   ("update_task", TickTickClient.update_task self id kwargs);
   ("complete_task", TickTickClient.complete_task self project_id task_id);
   ("delete_task", TickTickClient.delete_task self project_id task_id)].

(** The operations that go to V2 or fail. *)
Definition v2_operations (self : TickTickClient.t) (query name : string)
    (scope color parent : option string) (limit : Z) : list (string * Py value) :=
  [("search", TickTickClient.search_tasks self query);
   ("completed", TickTickClient.get_completed_tasks self scope limit);
   ("tags", TickTickClient.list_tags self);
   ("tag-create", TickTickClient.create_tag self name color parent);
   ("sync", TickTickClient.sync self)].

(** ** Listings and search from the sync snapshot *)

(** The tasks of the project [pid]. *)
Definition in_project (pid : string) (t : gmap string value) : bool :=
  py_eq_str (default VNone (t !! "projectId")) pid.

(** The text of a field: the empty string when the field is absent. *)
Definition text_of (key : string) (t : gmap string value) : string :=
  match t !! key with Some (VStr s) => s | _ => "" end.

(** A field that is absent or holds a string. *)
Definition textual (key : string) (t : gmap string value) : bool :=
  match t !! key with None | Some (VStr _) => true | Some _ => false end.

Definition searchable (t : gmap string value) : bool :=
  textual "title" t && textual "content" t && textual "desc" t.

(** The lowercased query [q] occurs in the lowercased title, content or
    description. *)
Definition matches (w : world) (q : string) (t : gmap string value) : bool :=
  contains q (str_lower w (text_of "title" t))
  || contains q (str_lower w (text_of "content" t))
  || contains q (str_lower w (text_of "desc" t)).

(** A snapshot with no section at all, and one noted task in a project. *)
Definition empty_snapshot_world : world :=
  World (λ _ _, Response [] NoText) (λ _, Byte.x00) 0 ascii_lower.

Definition noted_task : gmap string value :=
  <["title" := VStr "Call Home"]> (<["content" := VNone]> {["projectId" := VStr "p1"]}).

Definition plain_task : gmap string value :=
  <["title" := VStr "Pay the RENT"]> {["projectId" := VStr "p2"]}.

Definition tasks_world (ts : list (gmap string value)) : world :=
  World (λ _ _, Response []
           (JsonText (VDict {["syncTaskBean" := VDict {["update" := VList (VDict <$> ts)]}]})))
        (λ _, Byte.x00) 0 ascii_lower.

Definition v2_only : TickTickClient.t := TickTickClient.Build None (Some a_session).

(** A task found by its title alone. *)
Definition title_matches (w : world) (q : string) (t : gmap string value) : bool :=
  textual "title" t && contains q (str_lower w (text_of "title" t)).

Definition untitled_task : gmap string value :=
  <["title" := VNone]> {["projectId" := VStr "p1"]}.

(** The sections of the snapshot [tasks_world] serves. *)
Definition tasks_bean (ts : list (gmap string value)) : gmap string value :=
  {["update" := VList (VDict <$> ts)]}.

Definition tasks_data (ts : list (gmap string value)) : gmap string value :=
  {["syncTaskBean" := VDict (tasks_bean ts)]}.

Definition after_sync : state := sent (sync_request a_session) initial.

(** ** Updating a task from the command line *)

(** The field an option of [task-update] leaves in the record: the value
    made from the option when it is given and not empty, the old field
    otherwise. *)
Definition updated_field (arg : option string) (f : string → value)
    (old : option value) : option value :=
  if truthy (of_opt arg) then Some (f (default "" arg)) else old.

(** The fields [task-update] can set. *)
Definition UPDATE_FIELDS : list string :=
  ["id"; "projectId"; "title"; "content"; "priority"; "dueDate"; "startDate"].

Definition secret_env : environ := Environ (Some "secret") None None.

Definition retitle_args : task_update_args :=
  TaskUpdateArgs "t1" "p1" (Some "final") (Some "") None None None.

Definition unscoped_args : task_update_args :=
  TaskUpdateArgs "t1" "" (Some "final") None None None None.

(** A server whose every answer is 404, and one that answers with an
    empty body. *)
Definition missing_world : world :=
  World (λ _ _, HTTPError 404 "task not found") (λ _, Byte.x00) 0 (λ s, s).

Definition silent_world : world :=
  World (λ _ _, Response [] NoText) (λ _, Byte.x00) 0 (λ s, s).

Definition listing_world : world :=
  World (λ _ _, Response [] (JsonText (VList [VStr "no record"]))) (λ _, Byte.x00) 0 (λ s, s).

(** ** Completing and deleting from the command line *)

Definition complete_request (c1 : TickTickV1.t) (project_id task_id : string) : request :=
  v1_request c1 "POST"
    ("/project/" +:+ quote project_id +:+ "/task/" +:+ quote task_id +:+ "/complete") VNone.

Definition delete_request (c1 : TickTickV1.t) (project_id task_id : string) : request :=
  v1_request c1 "DELETE" ("/project/" +:+ quote project_id +:+ "/task/" +:+ quote task_id)
    VNone.

(** The document a command prints after [what] was done to [id]. *)
Definition success_report (what id : string) : value :=
  VDict (<["success" := VBool true]> {[what := VStr id]}).

(** The state after one more document on the output. *)
Definition printed (doc : value) (st : state) : state :=
  State (trace st) (stderr st) (stdout st ++ [doc]) (rng st).

(** A response the client can read: an empty body or a JSON document. *)
Definition readable (text : payload) : bool :=
  match text with NoText | JsonText _ => true | BadText => false end.

(** ** Batches *)

Definition batch_request (c2 : TickTickV2.t) (path : string) (body : option value) :
    request :=
  Request "POST" (TickTickV2.BASE_URL +:+ path) (TickTickV2._headers c2) body.

(** A group of a batch as it appears in the payload. *)
Definition group (v : value) : option value := if truthy v then Some v else None.

(** ** When the listing through V1 stops *)

(** A project record without an identifier, between two that have one. *)
Definition nameless : gmap string value := {["name" := VStr "Inbox"]}.

Definition nameless_world : world :=
  World (λ _ req,
           if String.eqb (req_url req) (req_url (list_request secret))
           then Response [] (JsonText (VList [VDict P1; VDict nameless; VDict P2]))
           else two_projects_answer P1)
        (λ _, Byte.x00) 0 (λ s, s).

(** ** Creating a task from the command line *)

Definition create_request (c1 : TickTickV1.t) (kwargs : gmap string value) : request :=
  Request "POST" (TickTickV1.BASE_URL +:+ "/task") (Bearer (TickTickV1.access_token c1))
          (Some (VDict kwargs)).

(** The checklist item made of a [--subtask]. *)
Definition subtask_item (title : string) : value :=
  VDict (<["title" := VStr title]> {["status" := VInt 0]}).

Definition chores_args : task_create_args :=
  TaskCreateArgs "Chores" "p1" None None (Some "high") None None false None None
                 None None (Some ["sweep"; "dust"]).

(** ** The CSRF token of a login *)

Definition CSRF : string := "_csrf_token=".

Definition not_semicolon (c : ascii) : bool := negb (Ascii.eqb c ";").

(** A [Set-Cookie] header that sets the CSRF cookie to [token]: the
    value runs to the end of the header or to the first semicolon. *)
Definition csrf_cookie (token attributes : string) : string :=
  CSRF +:+ token +:+ attributes.

Definition cookie_attributes (attributes : string) : bool :=
  match attributes with
  | "" => true
  | String c _ => Ascii.eqb c ";"
  end.

(** ** Line feeds on the command line *)

(** A text with no backslash. *)
Definition no_backslash (s : string) : bool :=
  str_forall (λ c, negb (Ascii.eqb c "\")) s.

(** How a line feed is typed on the command line: a backslash and the
    letter n. *)
Fixpoint escape_newlines (s : string) : string :=
  match s with
  | "" => ""
  | String c s' =>
      if Ascii.eqb c "010" then String "\" (String "n" (escape_newlines s'))
      else String c (escape_newlines s')
  end.

(** ** The listing and the summary of the command line *)

(** The number of entries of a section of the snapshot: none when the
    section is absent. *)
Definition section_size (key : string) (data : gmap string value) : Z :=
  match data !! key with Some (VList l) => Z.of_nat (length l) | _ => 0 end.

(** A section that is absent or a list. *)
Definition listed (key : string) (data : gmap string value) : bool :=
  match data !! key with None | Some (VList _) => true | Some _ => false end.

(** The summary [sync] prints without [--full]. *)
Definition summary_of (data : gmap string value) : value :=
  VDict (<["inboxId" := default VNone (data !! "inboxId")]>
           (<["projects" := VInt (section_size "projectProfiles" data)]>
              (<["project_folders" := VInt (section_size "projectGroups" data)]>
                 (<["tags" := VInt (section_size "tags" data)]>
                    {["tasks" := VInt (section_size "update"
                                         (match data !! "syncTaskBean" with
                                          | Some (VDict bean) => bean
                                          | _ => ∅
                                          end))]})))).

Definition done_task : gmap string value :=
  <["title" := VStr "Pay the rent"]> (<["status" := VInt 2]> {["projectId" := VStr "p1"]}).

Definition session_env : environ := Environ None (Some "me@example.com") (Some "hunter2").

(** A server that lets everybody in and serves a snapshot with two
    projects, a null list of tags and two tasks. *)
Definition account_data : gmap string value :=
  <["token" := VStr "s3ss10n"]>
    (<["inboxId" := VStr "inbox1"]>
       (<["projectProfiles" := VList [VDict P1; VDict P2]]>
          {["syncTaskBean" := VDict (tasks_bean [noted_task; done_task; plain_task])]})).

Definition account_world : world :=
  World (λ _ _, Response [] (JsonText (VDict account_data))) (λ _, Byte.x00) 0 ascii_lower.

(** The session that server grants, and the state once it is granted. *)
Definition account_session : TickTickV2.t :=
  TickTickV2.Build (VStr "s3ss10n") VNone (VStr "inbox1") "65a000000000000000000000".

Definition account_client : TickTickClient.t :=
  TickTickClient.Build None (Some account_session).

Definition signed_in (w : world) : state :=
  snd (create_client_from_env session_env w initial).

Definition broken_account_world : world :=
  World (λ _ _, Response [] (JsonText (VDict (<["tags" := VNone]> account_data))))
        (λ _, Byte.x00) 0 ascii_lower.

(** * Properties *)

(** ** Running computations *)

Lemma run_bind {A B} (m : Py A) (f : A → Py B) w st :
  (m ≫= f) w st =
  match m w st with
  | (Ret a, st') => f a w st'
  | (Exit c, st') => (Exit c, st')
  | (Crash e, st') => (Crash e, st')
  end.
Proof. reflexivity. Qed.

Lemma run_ret {A} (a : A) w st : (mret a : Py A) w st = (Ret a, st).
Proof. reflexivity. Qed.

Lemma run_error_exit {A} (msg : string) w st :
  (_error_exit msg : Py A) w st =
  (Exit 1, State (trace st) (stderr st ++ [msg]) (stdout st) (rng st)).
Proof. reflexivity. Qed.

(** Runs the pure steps of a computation: binds, returns, and the
    operations on values. *)
Ltac py_run :=
  cbv [mbind Py_bind mret Py_ret raise py_iter py_get py_item py_quote json_loads].

Lemma run_urlopen req w st :
  urlopen req w st =
  match server w (trace st) req with
  | HTTPError code body => (Ret (inl (code, body)), sent req st)
  | Response cookies text => (Ret (inr (cookies, text)), sent req st)
  | URLError => (Crash "URLError", sent req st)
  end.
Proof. reflexivity. Qed.

Lemma truthy_of_opt (o : option string) :
  truthy (of_opt o) = false ↔ o = None ∨ o = Some "".
Proof.
  destruct o as [s|]; simpl.
  - rewrite negb_false_iff, String.eqb_eq.
    split; [intros ->; by right | intros [?|?]; congruence].
  - split; [by left | reflexivity].
Qed.

Lemma truthy_VStr (s : string) : s ≠ "" → truthy (VStr s) = true.
Proof.
  intros Hs. simpl. apply negb_true_iff, String.eqb_neq, Hs.
Qed.

Lemma truthy_VDict_lookup (d : gmap string value) k v :
  d !! k = Some v → truthy (VDict d) = true.
Proof.
  intros Hk. simpl. apply negb_true_iff, Nat.eqb_neq.
  intros Hsize. apply map_size_empty_iff in Hsize. subst d.
  by rewrite lookup_empty in Hk.
Qed.

Lemma run_v1_request self method path data w st :
  TickTickV1._request self method path data w st =
  let req := v1_request self method path data in
  match server w (trace st) req with
  | HTTPError code body => (Exit 1, complained (v1_error code body) (sent req st))
  | Response _ NoText => (Ret (VDict ∅), sent req st)
  | Response _ (JsonText v) => (Ret v, sent req st)
  | Response _ BadText => (Crash "ValueError", sent req st)
  | URLError => (Crash "URLError", sent req st)
  end.
Proof.
  unfold TickTickV1._request. rewrite run_bind, run_urlopen.
  fold (v1_request self method path data). cbv zeta.
  destruct (server w _ _) as [code body|cookies [|v|]|]; reflexivity.
Qed.

(** Every V1 call sends exactly one request. *)
Lemma trace_v1_request self method path data w st :
  trace (TickTickV1._request self method path data w st).2
    = trace st ++ [v1_request self method path data].
Proof.
  rewrite run_v1_request. cbv zeta.
  destruct (server w _ _) as [code body|cookies [|v|]|]; reflexivity.
Qed.

Lemma run_v2_request self method path data w st :
  TickTickV2._request self method path data w st =
  let req := v2_request self method path data in
  match server w (trace st) req with
  | HTTPError code body => (Exit 1, complained (v2_error code body) (sent req st))
  | Response _ NoText => (Ret (VDict ∅), sent req st)
  | Response _ (JsonText v) => (Ret v, sent req st)
  | Response _ BadText => (Crash "ValueError", sent req st)
  | URLError => (Crash "URLError", sent req st)
  end.
Proof.
  unfold TickTickV2._request. rewrite run_bind, run_urlopen.
  fold (v2_request self method path data). cbv zeta.
  destruct (server w _ _) as [code body|cookies [|v|]|]; reflexivity.
Qed.

Lemma trace_v2_request self method path data w st :
  trace (TickTickV2._request self method path data w st).2
    = trace st ++ [v2_request self method path data].
Proof.
  rewrite run_v2_request. cbv zeta.
  destruct (server w _ _) as [code body|cookies [|v|]|]; reflexivity.
Qed.

(** ** The priority table *)

(** C5. The priority table sends none, low, medium, high to 0, 1, 3, 5;
    these four names and four ordinals are all there is in the two
    tables; an ordinal is the image of a name exactly when the reverse
    table sends it back to that name; so going through both tables, in
    either order, gives back what one started from. *)
Theorem priority_bijection :
  (PRIORITY_MAP !!.) <$> PRIORITY_NAMES = Some <$> PRIORITY_ORDINALS
  ∧ dom PRIORITY_MAP = list_to_set PRIORITY_NAMES
  ∧ dom PRIORITY_REVERSE = list_to_set PRIORITY_ORDINALS
  ∧ (∀ s n, PRIORITY_MAP !! s = Some n ↔ PRIORITY_REVERSE !! n = Some s)
  ∧ Forall (λ s, PRIORITY_MAP !! s ≫= (PRIORITY_REVERSE !!.) = Some s) PRIORITY_NAMES
  ∧ Forall (λ n, PRIORITY_REVERSE !! n ≫= (PRIORITY_MAP !!.) = Some n) PRIORITY_ORDINALS.
Proof.
  split; [reflexivity|].
  split.
  { unfold PRIORITY_MAP, PRIORITY_NAMES.
    rewrite !dom_insert_L, dom_empty_L. simpl. set_solver. }
  split.
  { unfold PRIORITY_REVERSE, PRIORITY_ORDINALS.
    rewrite !dom_insert_L, dom_empty_L. simpl. set_solver. }
  split.
  { intros s n. unfold PRIORITY_MAP, PRIORITY_REVERSE. split; intros H.
    - rewrite !lookup_insert_Some, lookup_empty in H.
      destruct H as [[<- <-]|[_ [[<- <-]|[_ [[<- <-]|[_ [[<- <-]|[_ H]]]]]]]];
        try reflexivity; discriminate.
    - rewrite !lookup_insert_Some, lookup_empty in H.
      destruct H as [[<- <-]|[_ [[<- <-]|[_ [[<- <-]|[_ [[<- <-]|[_ H]]]]]]]];
        try reflexivity; discriminate. }
  split; repeat constructor.
Qed.

(** ** Construction *)

(** C6. With no access token, and with the user name or the password
    missing, constructing the client prints the configuration diagnostic
    and exits with status 1; no request has been sent and no random byte
    drawn.  The same holds for [create_client_from_env]. *)
Theorem init_without_credentials w st (access_token username password : option string) :
  missing access_token →
  missing username ∨ missing password →
  TickTickClient.__init__ access_token username password w st
    = (Exit 1, complained NO_CREDENTIALS st)
  ∧ create_client_from_env (Environ access_token username password) w st
    = (Exit 1, complained NO_CREDENTIALS st)
  ∧ trace (complained NO_CREDENTIALS st) = trace st.
Proof.
  intros Htok Hpair.
  apply truthy_of_opt in Htok.
  assert (truthy (of_opt username) && truthy (of_opt password) = false) as Hv2.
  { apply andb_false_iff.
    destruct Hpair as [H|H]; apply truthy_of_opt in H; auto. }
  assert (TickTickClient.__init__ access_token username password w st
          = (Exit 1, complained NO_CREDENTIALS st)) as Hinit.
  { unfold TickTickClient.__init__.
    rewrite Htok, Hv2. reflexivity. }
  split; [exact Hinit|]. split; [exact Hinit|]. reflexivity.
Qed.

Lemma init_without_credentials_witness :
  let w := World (λ _ _, URLError) (λ _, Byte.x00) 0 (λ s, s) in
  TickTickClient.__init__ (Some "") (Some "me@example.com") None w initial
    = (Exit 1, complained NO_CREDENTIALS initial)
  ∧ create_client_from_env (Environ (Some "") (Some "me@example.com") None) w initial
    = (Exit 1, complained NO_CREDENTIALS initial)
  ∧ trace (complained NO_CREDENTIALS initial) = trace initial.
Proof.
  intros w.
  apply (init_without_credentials w initial (Some "") (Some "me@example.com") None).
  - right. reflexivity.
  - right. left. reflexivity.
Defined.

(** ** Partial update of a task *)

Section update_task.
Context (w : world) (st : state).
Context (self : TickTickClient.t) (task_id : string) (kwargs : gmap string value).

(** Without a truthy [projectId] nothing is fetched or sent. *)
Lemma update_task_falsy_project :
  truthy (default VNone (kwargs !! "projectId")) = false →
  TickTickClient.update_task self task_id kwargs w st
    = (Exit 1, complained (match TickTickClient.v1 self with
                           | Some _ => NEEDS_PROJECT
                           | None => NEEDS_V1
                           end) st).
Proof.
  intros Hfalsy. unfold TickTickClient.update_task.
  destruct (TickTickClient.v1 self) as [c1|]; [|reflexivity].
  rewrite Hfalsy. reflexivity.
Qed.

(** C9. When [projectId] is not among the fields supplied,
    [update_task] fails: it prints a diagnostic and exits with status 1,
    and the trace of requests is what it was, so the task has not been
    fetched and nothing has been submitted. *)
Theorem update_task_requires_projectId :
  kwargs !! "projectId" = None →
  ∃ msg,
    TickTickClient.update_task self task_id kwargs w st
      = (Exit 1, complained msg st)
    ∧ trace (complained msg st) = trace st.
Proof.
  intros Habsent. eexists. split; [|reflexivity].
  apply update_task_falsy_project. by rewrite Habsent.
Qed.

Context (c1 : TickTickV1.t) (pid : string) (existing : gmap string value).

(** C1. With a V1 client and a project id among the fields [kwargs],
    when the server answers the fetch with the task record [existing],
    [update_task] sends exactly two requests: the fetch, then the
    submission of [kwargs] laid over [existing].  In the submitted
    record every field of [kwargs] has the value [kwargs] gives it and
    every field of [existing] that [kwargs] does not mention keeps its
    value, and it has no other field. *)
Theorem update_task_merges cookies :
  TickTickClient.v1 self = Some c1 →
  kwargs !! "projectId" = Some (VStr pid) →
  pid ≠ "" →
  server w (trace st) (fetch_request task_id c1 pid) = Response cookies (JsonText (VDict existing)) →
  ∃ submitted,
    trace (TickTickClient.update_task self task_id kwargs w st).2
      = trace st ++ [(fetch_request task_id c1 pid); submit_request task_id c1 submitted]
    ∧ TickTickClient.update_task self task_id kwargs w st
      = TickTickV1._request c1 "POST" ("/task/" +:+ quote task_id) (VDict submitted)
          w (sent (fetch_request task_id c1 pid) st)
    ∧ submitted = kwargs ∪ existing
    ∧ (∀ k v, kwargs !! k = Some v → submitted !! k = Some v)
    ∧ (∀ k v, existing !! k = Some v → kwargs !! k = None → submitted !! k = Some v)
    ∧ (∀ k, is_Some (submitted !! k) → is_Some (kwargs !! k) ∨ is_Some (existing !! k)).
Proof.
  intros Hv1 Hpid Hne Hfetch. exists (kwargs ∪ existing).
  assert (TickTickClient.update_task self task_id kwargs w st
          = TickTickV1._request c1 "POST" ("/task/" +:+ quote task_id)
              (VDict (kwargs ∪ existing)) w (sent (fetch_request task_id c1 pid) st)) as Hrun.
  { unfold TickTickClient.update_task. rewrite Hv1, Hpid.
    change (default VNone (Some (VStr pid))) with (VStr pid).
    rewrite (truthy_VStr pid Hne). cbn [negb].
    rewrite run_bind.
    change (TickTickV1.get_task c1 (VStr pid) (VStr task_id) w st)
      with (TickTickV1._request c1 "GET"
              ("/project/" +:+ quote pid +:+ "/task/" +:+ quote task_id) VNone w st).
    rewrite run_v1_request. cbv zeta.
    change (v1_request c1 "GET" _ VNone) with (fetch_request task_id c1 pid).
    rewrite Hfetch. reflexivity. }
  split; [|split; [exact Hrun|]].
  - rewrite Hrun, trace_v1_request. unfold v1_request.
    rewrite (truthy_VDict_lookup _ "projectId" (VStr pid))
      by apply lookup_union_Some_l, Hpid.
    unfold sent. cbn [trace]. by rewrite <- app_assoc.
  - split; [reflexivity|]. split; [|split].
    + intros k v Hk. by apply lookup_union_Some_l.
    + intros k v Hk Hnone. rewrite lookup_union_r; done.
    + intros k [v Hk]. apply lookup_union_Some_raw in Hk as [Hk|[_ Hk]]; eauto.
Qed.

End update_task.

Lemma update_task_requires_projectId_witness :
  ∃ msg,
    TickTickClient.update_task v1_only "t1" {["title" := VStr "final"]}
      one_task_world initial = (Exit 1, complained msg initial)
    ∧ trace (complained msg initial) = trace initial.
Proof.
  apply (update_task_requires_projectId one_task_world initial v1_only "t1"
           {["title" := VStr "final"]}).
  reflexivity.
Defined.

Lemma update_task_merges_witness :
  ∃ submitted,
    trace (TickTickClient.update_task v1_only "t1" retitle one_task_world initial).2
      = trace initial ++ [fetch_request "t1" (TickTickV1.Build "secret") "p1";
                          submit_request "t1" (TickTickV1.Build "secret") submitted]
    ∧ TickTickClient.update_task v1_only "t1" retitle one_task_world initial
      = TickTickV1._request (TickTickV1.Build "secret") "POST" ("/task/" +:+ quote "t1")
          (VDict submitted) one_task_world
          (sent (fetch_request "t1" (TickTickV1.Build "secret") "p1") initial)
    ∧ submitted = retitle ∪ stored_task
    ∧ (∀ k v, retitle !! k = Some v → submitted !! k = Some v)
    ∧ (∀ k v, stored_task !! k = Some v → retitle !! k = None → submitted !! k = Some v)
    ∧ (∀ k, is_Some (submitted !! k) → is_Some (retitle !! k) ∨ is_Some (stored_task !! k)).
Proof.
  apply (update_task_merges one_task_world initial v1_only "t1" retitle
           (TickTickV1.Build "secret") "p1" stored_task []).
  - reflexivity.
  - reflexivity.
  - discriminate.
  - reflexivity.
Defined.

(** The attachment survives a change of title. *)
Example update_task_keeps_attachments :
  (TickTickClient.update_task v1_only "t1" retitle one_task_world initial).1
  = Ret (VDict (<["title" := VStr "final"]> stored_task)).
Proof. vm_compute. reflexivity. Qed.

(** ** Which interface serves a listing *)

Create HintDb py discriminated.

Lemma quiet_ret {A} (a : A) : quiet (mret a : Py A).
Proof. by intros w st. Qed.

Lemma quiet_raise {A} exn : quiet (raise exn : Py A).
Proof. by intros w st. Qed.

Lemma quiet_bind {A B} (m : Py A) (f : A → Py B) :
  quiet m → (∀ a, quiet (f a)) → quiet (m ≫= f).
Proof.
  intros Hm Hf w st. rewrite run_bind.
  specialize (Hm w st). destruct (m w st) as [[a|c|e] st']; simpl in Hm; subst st'.
  - apply Hf.
  - reflexivity.
  - reflexivity.
Qed.

Lemma quiet_py_get v key dflt : quiet (py_get v key dflt).
Proof. destruct v; by intros w st. Qed.

Lemma quiet_py_item v key : quiet (py_item v key).
Proof.
  destruct v as [| | | | |d]; try by intros w st.
  simpl. destruct (d !! key); by intros w st.
Qed.

Lemma quiet_py_iter v : quiet (py_iter v).
Proof. destruct v; by intros w st. Qed.

Lemma quiet_py_quote v : quiet (py_quote v).
Proof. destruct v; by intros w st. Qed.

Lemma quiet_py_filter test xs : (∀ x, quiet (test x)) → quiet (py_filter test xs).
Proof.
  intros Htest. induction xs as [|x xs IH]; simpl.
  - apply quiet_ret.
  - apply quiet_bind; [apply Htest|]. intros keep.
    apply quiet_bind; [apply IH|]. intros rest. apply quiet_ret.
Qed.

#[export] Hint Resolve quiet_ret quiet_raise quiet_bind quiet_py_get quiet_py_item
  quiet_py_iter quiet_py_quote quiet_py_filter : py.

(** A quiet continuation does not change what was sent. *)
Lemma bind_quiet_state {A B} (m : Py A) (f : A → Py B) w st :
  (∀ a, quiet (f a)) → ((m ≫= f) w st).2 = (m w st).2.
Proof.
  intros Hf. rewrite run_bind.
  destruct (m w st) as [[a|c|e] st']; [apply Hf|reflexivity|reflexivity].
Qed.

Lemma only_sends_quiet p {A} (m : Py A) : quiet m → only_sends p m.
Proof.
  intros Hm w st. exists []. rewrite Hm, app_nil_r. by split.
Qed.

Lemma only_sends_bind p {A B} (m : Py A) (f : A → Py B) :
  only_sends p m → (∀ a, only_sends p (f a)) → only_sends p (m ≫= f).
Proof.
  intros Hm Hf w st. rewrite run_bind.
  destruct (Hm w st) as (reqs & Htrace & Hall).
  destruct (m w st) as [[a|c|e] st']; simpl in Htrace; [|by eauto..].
  destruct (Hf a w st') as (reqs' & Htrace' & Hall').
  exists (reqs ++ reqs'). split.
  - by rewrite Htrace', Htrace, app_assoc.
  - by apply Forall_app.
Qed.

Lemma only_sends_except p {A} (body handler : Py A) :
  only_sends p body → only_sends p handler →
  only_sends p (except_SystemExit body handler).
Proof.
  intros Hbody Hhandler w st. unfold except_SystemExit.
  destruct (Hbody w st) as (reqs & Htrace & Hall).
  destruct (body w st) as [[a|c|e] st']; simpl in Htrace; [by eauto| |by eauto].
  destruct (Hhandler w st') as (reqs' & Htrace' & Hall').
  exists (reqs ++ reqs'). split.
  - by rewrite Htrace', Htrace, app_assoc.
  - by apply Forall_app.
Qed.

Lemma only_sends_v1_request self method path data :
  only_sends is_v1 (TickTickV1._request self method path data).
Proof.
  intros w st. eexists. split; [apply trace_v1_request|].
  by repeat constructor.
Qed.

Lemma only_sends_get_project_data self id :
  only_sends is_v1 (TickTickV1.get_project_data self id).
Proof.
  apply only_sends_bind.
  - apply only_sends_quiet, quiet_py_quote.
  - intros pid. apply only_sends_v1_request.
Qed.

Lemma only_sends_collect_tasks c1 projects all_tasks :
  only_sends is_v1 (TickTickClient.collect_tasks c1 projects all_tasks).
Proof.
  revert all_tasks. induction projects as [|p projects IH]; intros all_tasks; simpl.
  - apply only_sends_quiet, quiet_ret.
  - apply only_sends_bind; [|intros all_tasks'; apply IH].
    apply only_sends_except; [|apply only_sends_quiet, quiet_ret].
    apply only_sends_bind; [apply only_sends_quiet, quiet_py_item|]. intros id.
    apply only_sends_bind; [apply only_sends_get_project_data|]. intros pd.
    apply only_sends_quiet. auto 10 with py.
Qed.

Lemma trace_get_project_data c1 id w st :
  trace (TickTickV1.get_project_data c1 (VStr id) w st).2
    = trace st ++ [data_request c1 id].
Proof. apply trace_v1_request. Qed.

Lemma trace_sync c2 w st :
  trace (TickTickV2.sync c2 w st).2 = trace st ++ [sync_request c2].
Proof. apply trace_v2_request. Qed.

(** C2, as stated, fails: with both backends and no project scope,
    [list_tasks] sends one request, the V2 sync, and answers from the
    snapshot; no request goes to the official interface. *)
Lemma unscoped_listing_with_both_uses_sync :
  let r := TickTickClient.list_tasks both None snapshot_world initial in
  r.1 = Ret (VList [VDict stored_task])
  ∧ trace r.2 = [sync_request a_session]
  ∧ ¬ Exists (λ req, is_v1 req = true) (trace r.2).
Proof.
  assert (TickTickClient.list_tasks both None snapshot_world initial
          = (Ret (VList [VDict stored_task]), sent (sync_request a_session) initial))
    as Hrun by (vm_compute; reflexivity).
  cbv zeta. rewrite Hrun. split; [reflexivity|]. split; [reflexivity|].
  intros Hex. apply Exists_exists in Hex as (req & Hin & Hv1).
  apply list_elem_of_singleton in Hin. subst req. discriminate Hv1.
Qed.

(** C2, amended.  Project listing goes to V1 whenever there is a V1
    client and to the V2 sync only when there is none.  Task listing for
    a given project does the same.  Task listing without a project goes
    to the V2 sync whenever there is a V2 client, with or without V1, and
    to V1 (the project list, then V1 requests only) when there is none. *)
Theorem listing_dispatch w st :
  (∀ c1 v2,
     trace (TickTickClient.list_projects (TickTickClient.Build (Some c1) v2) w st).2
       = trace st ++ [list_request c1])
  ∧ (∀ c2,
     trace (TickTickClient.list_projects (TickTickClient.Build None (Some c2)) w st).2
       = trace st ++ [sync_request c2])
  ∧ (∀ c1 v2 pid, pid ≠ "" →
     trace (TickTickClient.list_tasks (TickTickClient.Build (Some c1) v2) (Some pid) w st).2
       = trace st ++ [data_request c1 pid])
  ∧ (∀ c2 project_id,
     trace (TickTickClient.list_tasks (TickTickClient.Build None (Some c2)) project_id w st).2
       = trace st ++ [sync_request c2])
  ∧ (∀ v1 c2 project_id, missing project_id →
     trace (TickTickClient.list_tasks (TickTickClient.Build v1 (Some c2)) project_id w st).2
       = trace st ++ [sync_request c2])
  ∧ (∀ c1 project_id, missing project_id →
     ∃ reqs,
       trace (TickTickClient.list_tasks (TickTickClient.Build (Some c1) None) project_id w st).2
         = trace st ++ list_request c1 :: reqs
       ∧ Forall (λ req, is_v1 req = true) reqs).
Proof.
  assert (∀ v1 c2 project_id,
    (if truthy (of_opt project_id) then v1 else None) = None →
    trace (TickTickClient.list_tasks (TickTickClient.Build v1 (Some c2)) project_id w st).2
      = trace st ++ [sync_request c2]) as Hsync.
  { intros v1 c2 project_id Hnone. unfold TickTickClient.list_tasks.
    cbn [TickTickClient.v1 TickTickClient.v2]. rewrite Hnone.
    rewrite bind_quiet_state; [apply trace_sync|].
    intros data. apply quiet_bind; [apply quiet_py_get|]. intros bean.
    apply quiet_bind; [apply quiet_py_get|]. intros tasks.
    destruct (truthy (of_opt project_id)); [|apply quiet_ret].
    apply quiet_bind; [apply quiet_py_iter|]. intros ts.
    apply quiet_bind; [|intros kept; apply quiet_ret].
    apply quiet_py_filter. intros t.
    apply quiet_bind; [apply quiet_py_get|]. intros pid. apply quiet_ret. }
  repeat split.
  - intros c1 v2. apply trace_v1_request.
  - intros c2. unfold TickTickClient.list_projects.
    cbn [TickTickClient.v1 TickTickClient.v2].
    rewrite bind_quiet_state; [apply trace_sync|].
    intros data. apply quiet_py_get.
  - intros c1 v2 pid Hne. unfold TickTickClient.list_tasks.
    cbn [TickTickClient.v1 of_opt]. rewrite (truthy_VStr pid Hne).
    rewrite bind_quiet_state; [apply trace_get_project_data|].
    intros data. apply quiet_py_get.
  - intros c2 project_id. apply Hsync. by destruct (truthy _).
  - intros v1 c2 project_id Hmissing. apply Hsync.
    apply truthy_of_opt in Hmissing. by rewrite Hmissing.
  - intros c1 project_id Hmissing. unfold TickTickClient.list_tasks.
    apply truthy_of_opt in Hmissing. rewrite Hmissing.
    cbn [TickTickClient.v1 TickTickClient.v2].
    rewrite run_bind. unfold TickTickV1.list_projects.
    pose proof (trace_v1_request c1 "GET" "/project" VNone w st) as Hfirst.
    fold (list_request c1) in Hfirst.
    destruct (TickTickV1._request c1 "GET" "/project" VNone w st) as [[projects|c|e] st'];
      simpl in Hfirst; [|by exists []..].
    assert (only_sends is_v1
              (py_iter projects ≫= λ ps,
                 TickTickClient.collect_tasks c1 ps [] ≫= λ all_tasks,
                   mret (VList all_tasks))) as Hrest.
    { apply only_sends_bind; [apply only_sends_quiet, quiet_py_iter|]. intros ps.
      apply only_sends_bind; [apply only_sends_collect_tasks|]. intros all_tasks.
      apply only_sends_quiet, quiet_ret. }
    destruct (Hrest w st') as (reqs & Htrace & Hall).
    exists reqs. split; [|exact Hall].
    rewrite Htrace, Hfirst. by rewrite <- app_assoc.
Qed.

Lemma listing_dispatch_witness :
  trace (TickTickClient.list_tasks both (Some "p1") snapshot_world initial).2
    = trace initial ++ [data_request (TickTickV1.Build "secret") "p1"]
  ∧ trace (TickTickClient.list_tasks both (Some "") snapshot_world initial).2
    = trace initial ++ [sync_request a_session]
  ∧ ∃ reqs,
      trace (TickTickClient.list_tasks v1_only None snapshot_world initial).2
        = trace initial ++ list_request (TickTickV1.Build "secret") :: reqs
      ∧ Forall (λ req, is_v1 req = true) reqs.
Proof.
  destruct (listing_dispatch snapshot_world initial)
    as (_ & _ & Hscoped & _ & Hunscoped & Hfallback).
  split; [|split].
  - apply (Hscoped (TickTickV1.Build "secret") (Some a_session) "p1"). discriminate.
  - apply (Hunscoped (Some (TickTickV1.Build "secret")) a_session (Some "")).
    right. reflexivity.
  - apply (Hfallback (TickTickV1.Build "secret") None). left. reflexivity.
Defined.

(** ** Listing all tasks through V1 alone *)

Section fallback.
Context (w : world) (c1 : TickTickV1.t).
Context (answer : gmap string value → response).

Lemma flat_map_succeeded projects :
  flat_map (λ p, fetched_tasks (answer p)) (succeeded answer projects)
  = flat_map (λ p, fetched_tasks (answer p)) projects.
Proof.
  induction projects as [|p projects IH]; [reflexivity|].
  unfold succeeded in *. simpl.
  destruct (answer p) eqn:Hp; simpl; rewrite ?Hp; simpl; by rewrite IH.
Qed.

Lemma collect_tasks_enumerable projects all_tasks st :
  Forall (enumerable w c1 answer) projects →
  TickTickClient.collect_tasks c1 (VDict <$> projects) all_tasks w st
  = (Ret (all_tasks ++ flat_map (λ p, fetched_tasks (answer p)) projects),
     State (trace st ++ (data_request c1 ∘ project_id_of <$> projects))
           (stderr st ++ omap (λ p, fetch_diagnostic (answer p)) projects)
           (stdout st) (rng st)).
Proof.
  intros Hall. revert all_tasks st.
  induction Hall as [|p projects ([id Hid] & Hanswer & Hserver) _ IH];
    intros all_tasks st.
  - simpl. rewrite !app_nil_r. by destruct st.
  - cbn [fmap list_fmap TickTickClient.collect_tasks].
    rewrite run_bind.
    assert (except_SystemExit
              (py_item (VDict p) "id" ≫= λ id,
                 TickTickV1.get_project_data c1 id ≫= λ pd,
                   py_get pd "tasks" (VList []) ≫= λ tasks,
                     py_iter tasks ≫= λ more, mret (all_tasks ++ more))
              (mret all_tasks) w st
            = (Ret (all_tasks ++ fetched_tasks (answer p)),
               State (trace st ++ [data_request c1 (project_id_of p)])
                     (stderr st ++ from_option (λ msg, [msg]) [] (fetch_diagnostic (answer p)))
                     (stdout st) (rng st))) as ->.
    { unfold except_SystemExit. rewrite run_bind. cbn [py_item]. rewrite Hid.
      rewrite run_ret, run_bind.
      change (TickTickV1.get_project_data c1 (VStr id) w st)
        with (TickTickV1._request c1 "GET" ("/project/" +:+ quote id +:+ "/data") VNone w st).
      rewrite run_v1_request. cbv zeta.
      specialize (Hserver (trace st)). unfold project_id_of in *. rewrite Hid in *.
      unfold data_request in Hserver. rewrite Hserver.
      destruct (answer p) as [code body|cookies [|[| | | | |pd]|]|]; try done.
      - rewrite run_ret. unfold complained, sent, data_request.
        cbn [trace stderr stdout rng fetched_tasks fetch_diagnostic from_option].
        by rewrite app_nil_r.
      - unfold sent, data_request.
        cbn [py_get py_iter fetched_tasks fetch_diagnostic from_option].
        rewrite lookup_empty. cbn [default from_option].
        py_run. by rewrite !app_nil_r.
      - simpl in Hanswer. unfold sent, data_request.
        cbn [py_get fetched_tasks fetch_diagnostic from_option].
        destruct (pd !! "tasks") as [[| | | |ts|]|]; try done;
          cbn [default from_option]; py_run; by rewrite ?app_nil_r. }
    rewrite IH. cbn [trace stderr stdout rng fmap list_fmap omap list_omap flat_map compose].
    f_equal.
    + by rewrite <- app_assoc.
    + f_equal.
      * by rewrite <- app_assoc.
      * rewrite <- app_assoc. f_equal.
        by destruct (fetch_diagnostic (answer p)).
Qed.

End fallback.

(** C4. With a V1 client only and no project scope, when the server
    answers the project list with [projects] and answers each project's
    fetch either with an HTTP error or with its data, [list_tasks]
    requests the list and then every project in order, prints one
    diagnostic per failing project without exiting, and returns the task
    lists of the projects whose fetch succeeded, concatenated in order. *)
Theorem unscoped_listing_skips_failures w st c1 answer cookies
    (projects : list (gmap string value)) :
  server w (trace st) (list_request c1)
    = Response cookies (JsonText (VList (VDict <$> projects))) →
  Forall (enumerable w c1 answer) projects →
  TickTickClient.list_tasks (TickTickClient.Build (Some c1) None) None w st
  = (Ret (VList (flat_map (λ p, fetched_tasks (answer p)) (succeeded answer projects))),
     State (trace st ++ list_request c1 :: (data_request c1 ∘ project_id_of <$> projects))
           (stderr st ++ omap (λ p, fetch_diagnostic (answer p)) projects)
           (stdout st) (rng st)).
Proof.
  intros Hlist Hall. unfold TickTickClient.list_tasks.
  cbn [of_opt truthy TickTickClient.v1 TickTickClient.v2].
  rewrite run_bind. unfold TickTickV1.list_projects.
  rewrite run_v1_request. cbv zeta. fold (list_request c1). rewrite Hlist.
  rewrite run_bind. cbn [py_iter]. rewrite run_ret, run_bind.
  rewrite (collect_tasks_enumerable w c1 answer projects [] _ Hall).
  rewrite run_ret, flat_map_succeeded. unfold sent. cbn [trace stderr stdout rng].
  by rewrite <- app_assoc.
Qed.

Lemma unscoped_listing_skips_failures_witness :
  TickTickClient.list_tasks v1_only None two_projects_world initial
  = (Ret (VList [T1; T2]),
     State [list_request secret; data_request secret "p1"; data_request secret "p2"]
           [v1_error 500 "unavailable"] [] 0%nat).
Proof.
  apply (unscoped_listing_skips_failures two_projects_world initial secret
           two_projects_answer [] [P1; P2]).
  - reflexivity.
  - repeat constructor; by eexists.
Defined.

(** ** Login *)

Lemma scan_csrf_device self cookies :
  TickTickV2._device_id (TickTickV2.scan_csrf self cookies) = TickTickV2._device_id self.
Proof.
  unfold TickTickV2.scan_csrf. revert self.
  induction cookies as [|header cookies IH]; intros self; [reflexivity|].
  simpl. rewrite IH. by destruct (contains _ header).
Qed.

Section login.
Context (w : world) (self : TickTickV2.t) (payload : value).

(** One turn of the loop on an endpoint that answers with an HTTP error. *)
Lemma login_loop_http_error endpoint todo last_error st code body :
  server w (trace st) (TickTickV2.login_request self payload endpoint)
    = HTTPError code body →
  TickTickV2._login_loop self payload (endpoint :: todo) last_error w st
  = TickTickV2._login_loop self payload todo (Some (login_error code body)) w
      (sent (TickTickV2.login_request self payload endpoint) st).
Proof.
  intros Hfail. cbn [TickTickV2._login_loop].
  rewrite run_bind, run_urlopen, Hfail. reflexivity.
Qed.

(** One turn of the loop on an endpoint that hands out a session token. *)
Lemma login_loop_token endpoint todo last_error st cookies result token :
  server w (trace st) (TickTickV2.login_request self payload endpoint)
    = Response cookies (JsonText (VDict result)) →
  result !! "token" = Some token →
  truthy token = true →
  TickTickV2._login_loop self payload (endpoint :: todo) last_error w st
  = (Ret (logged_in self cookies result token),
     sent (TickTickV2.login_request self payload endpoint) st).
Proof.
  intros Hok Htoken Htruthy. cbn [TickTickV2._login_loop].
  rewrite run_bind, run_urlopen, Hok. py_run.
  rewrite Htoken. change (default VNone (Some token)) with token. rewrite Htruthy.
  unfold logged_in. by rewrite scan_csrf_device.
Qed.

(** When every endpoint still to try answers with an HTTP error, whatever
    was requested before, the loop tries them all, in order, and the
    message carries the error of the last one. *)
Lemma login_loop_all_fail (code : string → Z) (body : string → string) todo last_error st :
  (∀ history endpoint, endpoint ∈ todo →
     server w history (TickTickV2.login_request self payload endpoint)
       = HTTPError (code endpoint) (body endpoint)) →
  TickTickV2._login_loop self payload todo last_error w st
  = (Exit 1,
     State (trace st ++ (TickTickV2.login_request self payload <$> todo))
           (stderr st ++ [LOGIN_FAILED (TickTickV2.show_error
              (from_option (λ e, Some (login_error (code e) (body e))) last_error
                           (last todo)))])
           (stdout st) (rng st)).
Proof.
  revert last_error st. induction todo as [|endpoint todo IH]; intros last_error st Hfail.
  - simpl. rewrite app_nil_r. reflexivity.
  - rewrite (login_loop_http_error _ _ _ _ (code endpoint) (body endpoint))
      by (apply Hfail; left).
    rewrite IH by (intros; apply Hfail; by right).
    unfold sent. cbn [trace stderr stdout rng fmap list_fmap].
    rewrite <- app_assoc. cbn [app].
    replace (last (endpoint :: todo)) with
      (from_option Some (Some endpoint) (last todo)); [by destruct (last todo)|].
    destruct todo as [|next todo]; [reflexivity|].
    rewrite last_cons_cons. destruct (last (next :: todo)) eqn:Hlast; [reflexivity|].
    by apply last_None in Hlast.
Qed.

End login.

(** C3. [_login] tries [/user/signon] first.  If it hands out a session
    token, login stops there.  If it answers with an HTTP error,
    [/user/signin] is tried next: when that one hands out a token, login
    succeeds after these two requests and nothing is printed; when it
    answers with an HTTP error too, the process prints one message, which
    carries the error of [/user/signin], and exits with status 1. *)
Theorem login_tries_endpoints_in_order w st self username password :
  let payload := login_payload username password in
  let signon := TickTickV2.login_request self payload "/user/signon" in
  let signin := TickTickV2.login_request self payload "/user/signin" in
  TickTickV2.endpoints = ["/user/signon"; "/user/signin"]
  ∧ (∀ cookies result token,
       server w (trace st) signon = Response cookies (JsonText (VDict result)) →
       result !! "token" = Some token → truthy token = true →
       TickTickV2._login self username password w st
       = (Ret (logged_in self cookies result token), sent signon st))
  ∧ (∀ code body cookies result token,
       server w (trace st) signon = HTTPError code body →
       server w (trace st ++ [signon]) signin
         = Response cookies (JsonText (VDict result)) →
       result !! "token" = Some token → truthy token = true →
       TickTickV2._login self username password w st
       = (Ret (logged_in self cookies result token), sent signin (sent signon st)))
  ∧ (∀ code1 body1 code2 body2,
       server w (trace st) signon = HTTPError code1 body1 →
       server w (trace st ++ [signon]) signin = HTTPError code2 body2 →
       TickTickV2._login self username password w st
       = (Exit 1, complained (LOGIN_FAILED (login_error code2 body2))
                    (sent signin (sent signon st)))).
Proof.
  intros payload signon signin. split; [reflexivity|].
  unfold TickTickV2._login, TickTickV2.endpoints. fold (login_payload username password).
  fold payload. split; [|split].
  - intros cookies result token Hok Htoken Htruthy.
    by apply login_loop_token.
  - intros code body cookies result token Hfail Hok Htoken Htruthy.
    rewrite (login_loop_http_error w self payload _ _ _ _ code body Hfail).
    by apply (login_loop_token w self payload _ _ _ (sent signon st)).
  - intros code1 body1 code2 body2 Hfail1 Hfail2.
    rewrite (login_loop_http_error w self payload _ _ _ _ code1 body1 Hfail1).
    rewrite (login_loop_http_error w self payload _ _ _ (sent signon st) code2 body2 Hfail2).
    reflexivity.
Qed.

Lemma login_tries_endpoints_in_order_witness :
  let payload := login_payload "me@example.com" "hunter2" in
  let signon := TickTickV2.login_request fresh_session payload "/user/signon" in
  let signin := TickTickV2.login_request fresh_session payload "/user/signin" in
  TickTickV2._login fresh_session "me@example.com" "hunter2" signon_world initial
  = (Ret (logged_in fresh_session ["_csrf_token=c5rf; Path=/"] granted (VStr "s3ss10n")),
     sent signon initial)
  ∧ TickTickV2._login fresh_session "me@example.com" "hunter2" signin_world initial
  = (Ret (logged_in fresh_session [] granted (VStr "s3ss10n")),
     sent signin (sent signon initial))
  ∧ TickTickV2._login fresh_session "me@example.com" "hunter2" locked_world initial
  = (Exit 1, complained (LOGIN_FAILED (login_error 401 "wrong password"))
               (sent signin (sent signon initial))).
Proof.
  intros payload signon signin. split; [|split].
  - destruct (login_tries_endpoints_in_order signon_world initial fresh_session
                "me@example.com" "hunter2") as (_ & Hfirst & _).
    apply Hfirst; reflexivity.
  - destruct (login_tries_endpoints_in_order signin_world initial fresh_session
                "me@example.com" "hunter2") as (_ & _ & Hsecond & _).
    apply (Hsecond 404 "no such endpoint"); reflexivity.
  - destruct (login_tries_endpoints_in_order locked_world initial fresh_session
                "me@example.com" "hunter2") as (_ & _ & _ & Hnone).
    apply (Hnone 404 "no such endpoint"); reflexivity.
Defined.

(** An endpoint that answers 200 without a session token records no
    error: the loop goes on with [last_error] as it was. *)
Lemma login_loop_no_token w self payload endpoint todo last_error st cookies result :
  server w (trace st) (TickTickV2.login_request self payload endpoint)
    = Response cookies (JsonText (VDict result)) →
  truthy (default VNone (result !! "token")) = false →
  TickTickV2._login_loop self payload (endpoint :: todo) last_error w st
  = TickTickV2._login_loop
      (logged_in self cookies result (default VNone (result !! "token")))
      payload todo last_error w
      (sent (TickTickV2.login_request self payload endpoint) st).
Proof.
  intros Hok Hfalsy. cbn [TickTickV2._login_loop].
  rewrite run_bind, run_urlopen, Hok. py_run. rewrite Hfalsy.
  unfold logged_in. by rewrite scan_csrf_device.
Qed.

Example login_without_token :
  (TickTickV2._login fresh_session "me@example.com" "hunter2" tokenless_world initial).1
    = Exit 1
  ∧ stderr (TickTickV2._login fresh_session "me@example.com" "hunter2"
              tokenless_world initial).2
    = [LOGIN_FAILED (login_error 404 "no such endpoint")].
Proof. vm_compute. by split. Qed.

(** ** The identifier of an uploaded attachment *)

Lemma str_app_cons c (s1 s2 : string) : String c s1 +:+ s2 = String c (s1 +:+ s2).
Proof. reflexivity. Qed.

Lemma str_app_nil_r (s : string) : s +:+ "" = s.
Proof. induction s as [|c s IH]; [reflexivity|]. by rewrite str_app_cons, IH. Qed.

Lemma str_app_assoc (s1 s2 s3 : string) : (s1 +:+ s2) +:+ s3 = s1 +:+ (s2 +:+ s3).
Proof. induction s1 as [|c s1 IH]; [reflexivity|]. by rewrite !str_app_cons, IH. Qed.

Lemma str_length_app (s1 s2 : string) :
  String.length (s1 +:+ s2) = (String.length s1 + String.length s2)%nat.
Proof.
  induction s1 as [|c s1 IH]; [reflexivity|].
  rewrite str_app_cons. cbn [String.length]. by rewrite IH.
Qed.

Lemma hex_value_from_app acc s1 s2 :
  hex_value_from acc (s1 +:+ s2) = hex_value_from acc s1 ≫= λ a, hex_value_from a s2.
Proof.
  revert acc. induction s1 as [|c s1 IH]; intros acc; [reflexivity|].
  rewrite str_app_cons. cbn [hex_value_from].
  destruct (hex_digit_value c); [apply IH|reflexivity].
Qed.

Lemma hex_digit_value_hex_digit (d : N) :
  (d < 16)%N → hex_digit_value (hex_digit false d) = Some d.
Proof.
  intros Hd. rewrite <- (N2Nat.id d). assert (N.to_nat d < 16)%nat as Hk by lia.
  revert Hk. generalize (N.to_nat d) as k. clear d Hd. intros k Hk.
  do 16 (destruct k as [|k]; [reflexivity|]). lia.
Qed.

Lemma length_hex_fixed upper w n : String.length (hex_fixed upper w n) = w.
Proof.
  revert n. induction w as [|w IH]; intros n; [reflexivity|].
  cbn [hex_fixed]. rewrite str_length_app, IH. cbn. lia.
Qed.

(** Reading back [w] fixed digits gives the number modulo [16^w]. *)
Lemma hex_value_from_hex_fixed acc w n :
  hex_value_from acc (hex_fixed false w n)
  = Some (acc * 16 ^ N.of_nat w + n mod 16 ^ N.of_nat w)%N.
Proof.
  revert acc n. induction w as [|w IH]; intros acc n.
  - cbn. rewrite N.mod_1_r. f_equal. lia.
  - cbn [hex_fixed]. rewrite hex_value_from_app, IH. cbn [mbind option_bind hex_value_from].
    rewrite hex_digit_value_hex_digit by (apply N.mod_upper_bound; lia).
    f_equal. rewrite Nat2N.inj_succ, N.pow_succ_r'.
    rewrite (N.Div0.mod_mul_r n 16 (16 ^ N.of_nat w)). lia.
Qed.

Lemma hex_value_hex_fixed w n :
  (n < 16 ^ N.of_nat w)%N → hex_value (hex_fixed false w n) = Some n.
Proof.
  intros Hn. unfold hex_value. rewrite hex_value_from_hex_fixed.
  rewrite N.mod_small by done. f_equal; lia.
Qed.

Lemma zeros_snoc k : zeros k +:+ "0" = zeros (S k).
Proof.
  induction k as [|k IH]; [reflexivity|].
  cbn [zeros] in *. by rewrite str_app_cons, IH.
Qed.

Lemma hex_fixed_0 upper k : hex_fixed upper k 0 = zeros k.
Proof.
  induction k as [|k IH]; [reflexivity|].
  cbn [hex_fixed]. change (0 / 16)%N with 0%N. rewrite IH.
  rewrite <- zeros_snoc. by destruct upper.
Qed.

(** The digits of a number that fits in [d] digits, written on [k + d]
    digits, are [k] zeros and then the [d] digits. *)
Lemma hex_fixed_pad upper k d n :
  (n < 16 ^ N.of_nat d)%N →
  hex_fixed upper (k + d) n = zeros k +:+ hex_fixed upper d n.
Proof.
  revert n. induction d as [|d IH]; intros n Hn.
  - rewrite Nat.add_0_r. cbn in Hn. assert (n = 0%N) as -> by lia.
    rewrite hex_fixed_0. cbn. by rewrite str_app_nil_r.
  - rewrite Nat.add_succ_r. cbn [hex_fixed].
    rewrite IH, str_app_assoc; [reflexivity|].
    rewrite Nat2N.inj_succ, N.pow_succ_r' in Hn.
    apply N.Div0.div_lt_upper_bound. lia.
Qed.

Lemma format_x_digits (n : N) :
  (n < 16 ^ 8)%N →
  ∃ d, (d ≤ 8)%nat ∧ format_x n = hex_fixed false d n ∧ (n < 16 ^ N.of_nat d)%N.
Proof.
  intros Hn. exists (S (N.to_nat (N.log2 n / 4))). split; [|split; [reflexivity|]].
  - destruct (decide (n = 0%N)) as [->|Hpos]; [vm_compute; lia|].
    assert (N.log2 n < 32)%N as Hlog.
    { apply N.log2_lt_pow2; [lia|]. change (2 ^ 32)%N with (16 ^ 8)%N. lia. }
    assert (N.log2 n / 4 < 8)%N by (apply N.Div0.div_lt_upper_bound; lia).
    lia.
  - destruct (decide (n = 0%N)) as [->|Hpos]; [reflexivity|].
    rewrite Nat2N.inj_succ, N2Nat.id.
    replace 16%N with (2 ^ 4)%N by reflexivity. rewrite <- N.pow_mul_r.
    apply N.log2_lt_pow2; [lia|].
    pose proof (N.Div0.mod_le (N.log2 n) 4).
    pose proof (N.div_mod (N.log2 n) 4 ltac:(lia)).
    pose proof (N.mod_upper_bound (N.log2 n) 4 ltac:(lia)). lia.
Qed.

(** Below [2^32] the timestamp is written on exactly eight digits. *)
Lemma format_08x_range (z : Z) :
  0 ≤ z < 2 ^ 32 → format_08x z = hex_fixed false 8 (Z.to_N z).
Proof.
  intros [Hlo Hhi]. unfold format_08x.
  destruct (Z.ltb_spec z 0) as [|_]; [lia|].
  destruct (format_x_digits (Z.to_N z)) as (d & Hd & -> & Hfit).
  { change (16 ^ 8)%N with (Z.to_N (2 ^ 32)). lia. }
  rewrite length_hex_fixed.
  replace 8%nat with ((8 - d) + d)%nat at 2 by lia.
  by rewrite hex_fixed_pad.
Qed.

Lemma hexlify_length bs : String.length (hexlify bs) = (2 * length bs)%nat.
Proof.
  induction bs as [|b bs IH]; [reflexivity|].
  cbn [hexlify]. rewrite str_length_app, length_hex_fixed, IH. cbn [length]. lia.
Qed.

Lemma lower_hex_hex_fixed acc w n : is_Some (hex_value_from acc (hex_fixed false w n)).
Proof. rewrite hex_value_from_hex_fixed. by eexists. Qed.

Lemma lower_hex_hexlify acc bs : is_Some (hex_value_from acc (hexlify bs)).
Proof.
  revert acc. induction bs as [|b bs IH]; intros acc; [by eexists|].
  cbn [hexlify]. rewrite hex_value_from_app, hex_value_from_hex_fixed. apply IH.
Qed.

(** C7.  The identifier is meant to have 24 hexadecimal characters, eight
    of them for the timestamp: the comment above its construction says so.
    The code misses this once the clock reads [2^32] seconds:
    [format(..., '08x')] pads to eight digits and cuts nothing, so the
    timestamp takes nine digits and the identifier has 25 characters. *)
Lemma attachment_id_after_2106 :
  let id := "100000000" +:+ "0000000000000000" in
  (TickTickV2.attachment_id year_2106_world initial).1 = Ret id
  ∧ String.length id = 25%nat
  ∧ String.length id ≠ 24%nat.
Proof. vm_compute. repeat split. discriminate. Qed.

(** X23.  For a clock between 0 and [2^32 - 1], the identifier is eight
    characters that spell the timestamp in lowercase hexadecimal, followed
    by the sixteen lowercase hexadecimal characters of the next eight
    random bytes: 24 characters in all.  Eight random bytes are drawn and
    nothing is sent or printed. *)
Theorem attachment_id_format w st :
  0 ≤ clock w < 2 ^ 32 →
  ∃ timestamp_hex random_hex,
    TickTickV2.attachment_id w st
      = (Ret (timestamp_hex +:+ random_hex),
         State (trace st) (stderr st) (stdout st) (rng st + 8))
    ∧ String.length timestamp_hex = 8%nat
    ∧ hex_value timestamp_hex = Some (Z.to_N (clock w))
    ∧ random_hex = hexlify (entropy w <$> seq (rng st) 8)
    ∧ String.length random_hex = 16%nat
    ∧ String.length (timestamp_hex +:+ random_hex) = 24%nat
    ∧ lower_hex (timestamp_hex +:+ random_hex).
Proof.
  intros Hrange.
  exists (hex_fixed false 8 (Z.to_N (clock w))), (hexlify (entropy w <$> seq (rng st) 8)).
  assert (String.length (hexlify (entropy w <$> seq (rng st) 8)) = 16%nat) as Hrandom.
  { by rewrite hexlify_length, length_fmap, length_seq. }
  split; [|split; [|split; [|split; [|split; [|split]]]]].
  - unfold TickTickV2.attachment_id. rewrite run_bind. unfold time_time.
    rewrite (format_08x_range _ Hrange). reflexivity.
  - apply length_hex_fixed.
  - apply hex_value_hex_fixed. change (16 ^ N.of_nat 8)%N with (Z.to_N (2 ^ 32)). lia.
  - reflexivity.
  - exact Hrandom.
  - rewrite str_length_app, length_hex_fixed, Hrandom. reflexivity.
  - unfold lower_hex, hex_value. rewrite hex_value_from_app, hex_value_from_hex_fixed.
    apply lower_hex_hexlify.
Qed.

Lemma attachment_id_format_witness :
  ∃ timestamp_hex random_hex,
    TickTickV2.attachment_id counting_world initial
      = (Ret (timestamp_hex +:+ random_hex), State [] [] [] 8)
    ∧ String.length timestamp_hex = 8%nat
    ∧ hex_value timestamp_hex = Some 1793750400%N
    ∧ random_hex = "0001020304050607"
    ∧ String.length random_hex = 16%nat
    ∧ String.length (timestamp_hex +:+ random_hex) = 24%nat
    ∧ lower_hex (timestamp_hex +:+ random_hex).
Proof.
  apply (attachment_id_format counting_world initial). vm_compute. by split.
Defined.

Example attachment_id_example :
  (TickTickV2.attachment_id counting_world initial).1 = Ret "6aea75800001020304050607".
Proof. vm_compute. reflexivity. Qed.

(** ** Creating a tag *)

(** C8. The record [create_tag] builds has the name as given under
    [label], the lowercased name under [name] and, when a parent is
    given, the lowercased parent under [parent]; with a V2 client this
    record is what the one request of [create_tag] adds. *)
Theorem create_tag_lowercases w st (name : string) (color parent : option string) :
  ∃ tag,
    TickTickClient.new_tag name color parent w st = (Ret tag, st)
    ∧ tag !! "label" = Some (VStr name)
    ∧ tag !! "name" = Some (VStr (str_lower w name))
    ∧ tag !! "parent" = tag_parent w parent
    ∧ ∀ v1 c2,
        trace (TickTickClient.create_tag (TickTickClient.Build v1 (Some c2))
                 name color parent w st).2
        = trace st ++ [tag_request c2 tag].
Proof.
  set (base := (<["label" := VStr name]> (<["name" := VStr (str_lower w name)]>
                 (<["sortType" := VStr "project"]> ∅)) : gmap string value)).
  set (coloured := if truthy (of_opt color)
                   then <["color" := of_opt color]> base else base).
  assert (coloured !! "label" = Some (VStr name)
          ∧ coloured !! "name" = Some (VStr (str_lower w name))
          ∧ coloured !! "parent" = None) as (Hlabel & Hname & Hparent).
  { unfold coloured. by destruct (truthy (of_opt color)). }
  assert (∀ tag : gmap string value,
    TickTickClient.new_tag name color parent w st = (Ret tag, st) →
    ∀ v1 c2,
      trace (TickTickClient.create_tag (TickTickClient.Build v1 (Some c2))
               name color parent w st).2
      = trace st ++ [tag_request c2 tag]) as Hsend.
  { intros tag Htag v1 c2. unfold TickTickClient.create_tag.
    cbn [TickTickClient.v2]. rewrite run_bind, Htag.
    unfold TickTickV2.batch_tag. apply trace_v2_request. }
  destruct parent as [p|]; [destruct (String.eqb_spec p "") as [->|Hne]|].
  - exists coloured. split; [reflexivity|]. split; [done|]. split; [done|].
    split; [done|]. by apply Hsend.
  - exists (<["parent" := VStr (str_lower w p)]> coloured).
    assert (TickTickClient.new_tag name color (Some p) w st
            = (Ret (<["parent" := VStr (str_lower w p)]> coloured), st)) as Htag.
    { unfold TickTickClient.new_tag. cbn [of_opt].
      rewrite (truthy_VStr p Hne). reflexivity. }
    split; [exact Htag|]. split; [by rewrite lookup_insert_ne|].
    split; [by rewrite lookup_insert_ne|]. split; [|by apply Hsend].
    rewrite lookup_insert_eq. cbn [tag_parent].
    by destruct (String.eqb_spec p "").
  - exists coloured. split; [reflexivity|]. split; [done|]. split; [done|].
    split; [done|]. by apply Hsend.
Qed.

Example create_tag_example :
  trace (TickTickClient.create_tag both "Deep Work" None (Some "Focus")
           tagging_world initial).2
  = [tag_request a_session
       (<["label" := VStr "Deep Work"]> (<["name" := VStr "deep work"]>
          (<["sortType" := VStr "project"]> {["parent" := VStr "focus"]})))].
Proof. vm_compute. reflexivity. Qed.

(** ** The status filter of the task listing *)

Lemma py_filter_records (test : value → Py bool) (keep : gmap string value → bool) ts w st :
  (∀ t st', test (VDict t) w st' = (Ret (keep t), st')) →
  py_filter test (VDict <$> ts) w st = (Ret (VDict <$> List.filter keep ts), st).
Proof.
  intros Htest. induction ts as [|t ts IH]; [reflexivity|].
  cbn [fmap list_fmap py_filter List.filter].
  rewrite run_bind, Htest, run_bind, IH, run_ret.
  by destruct (keep t).
Qed.

Lemma with_status_records n ts w st :
  with_status n (VList (VDict <$> ts)) w st
  = (Ret (VList (VDict <$>
        List.filter (λ t, py_eq_int (default (VInt 0) (t !! "status")) n) ts)), st).
Proof.
  unfold with_status. rewrite run_bind. cbn [py_iter]. rewrite run_ret, run_bind.
  rewrite (py_filter_records _
             (λ t, py_eq_int (default (VInt 0) (t !! "status")) n)); reflexivity.
Qed.

(** C10. On a list of task records, the filter [pending] keeps, in
    order, exactly the records whose [status] is 0 or absent, and the
    filter [completed] exactly those whose [status] is 2; a record without
    [status] is therefore in the first result and not in the second. *)
Theorem status_filter_absent_is_open w st (ts : list (gmap string value)) :
  status_filter (Some "pending") (VList (VDict <$> ts)) w st
    = (Ret (VList (VDict <$> pending ts)), st)
  ∧ status_filter (Some "completed") (VList (VDict <$> ts)) w st
    = (Ret (VList (VDict <$> completed ts)), st)
  ∧ ∀ t, t ∈ ts → t !! "status" = None → t ∈ pending ts ∧ t ∉ completed ts.
Proof.
  split; [|split].
  - change (status_filter (Some "pending")) with (with_status 0).
    rewrite with_status_records. unfold pending.
    rewrite (List.filter_ext _ (λ t, status_absent t || status_is 0 t)); [reflexivity|].
    intros t. unfold status_absent, status_is. by destruct (t !! "status").
  - change (status_filter (Some "completed")) with (with_status 2).
    rewrite with_status_records. unfold completed.
    rewrite (List.filter_ext _ (status_is 2)); [reflexivity|].
    intros t. unfold status_is. by destruct (t !! "status").
  - intros t Hin Habsent. unfold pending, completed.
    rewrite !list_elem_of_In, !List.filter_In.
    unfold status_absent, status_is. rewrite Habsent. split.
    + split; [by apply list_elem_of_In|reflexivity].
    + intros [_ Hfalse]. discriminate.
Qed.

Lemma status_filter_absent_is_open_witness :
  status_filter (Some "pending") (VList (VDict <$> [T3; T4; T5])) tagging_world initial
    = (Ret (VList (VDict <$> [T3; T4])), initial)
  ∧ status_filter (Some "completed") (VList (VDict <$> [T3; T4; T5])) tagging_world initial
    = (Ret (VList (VDict <$> [T5])), initial)
  ∧ T3 ∈ pending [T3; T4; T5] ∧ T3 ∉ completed [T3; T4; T5].
Proof.
  destruct (status_filter_absent_is_open tagging_world initial [T3; T4; T5])
    as (Hpending & Hcompleted & Habsent).
  split; [exact Hpending|]. split; [exact Hcompleted|].
  apply Habsent; [left|reflexivity].
Defined.

(** ** Percent-encoding of identifiers *)

Lemma hex_fixed_2 upper n :
  hex_fixed upper 2 n
  = String (hex_digit upper ((n / 16) mod 16)%N) (String (hex_digit upper (n mod 16)%N) "").
Proof. reflexivity. Qed.

Lemma quote_step_escaped c rest :
  always_safe c = false →
  unquote (String "%" (hex_fixed true 2 (N_of_ascii c) +:+ rest)) = String c (unquote rest).
Proof.
  rewrite hex_fixed_2.
  destruct c as [[] [] [] [] [] [] [] []]; intros Hsafe;
    first [discriminate Hsafe | reflexivity].
Qed.

Lemma quote_step_safe c rest :
  always_safe c = true → unquote (String c rest) = String c (unquote rest).
Proof.
  destruct c as [[] [] [] [] [] [] [] []]; intros Hsafe;
    first [discriminate Hsafe | by destruct rest as [|h [|l s']]].
Qed.

Lemma quote_escape_safe c :
  str_forall path_safe (String "%" (hex_fixed true 2 (N_of_ascii c))) = true.
Proof.
  rewrite hex_fixed_2. by destruct c as [[] [] [] [] [] [] [] []].
Qed.

Lemma str_forall_app test s1 s2 :
  str_forall test (s1 +:+ s2) = str_forall test s1 && str_forall test s2.
Proof.
  induction s1 as [|c s1 IH]; [reflexivity|].
  rewrite str_app_cons. cbn [str_forall]. by rewrite IH, andb_assoc.
Qed.

Lemma unquote_quote (s : string) : unquote (quote s) = s.
Proof.
  induction s as [|c s IH]; [reflexivity|].
  cbn [quote]. destruct (always_safe c) eqn:Hsafe.
  - by rewrite quote_step_safe, IH.
  - by rewrite quote_step_escaped, IH.
Qed.

Lemma path_safe_quote (s : string) : str_forall path_safe (quote s) = true.
Proof.
  induction s as [|c s IH]; [reflexivity|].
  cbn [quote]. destruct (always_safe c) eqn:Hsafe.
  - cbn [str_forall]. unfold path_safe at 1. by rewrite Hsafe, IH.
  - change (String "%" (hex_fixed true 2 (N_of_ascii c) +:+ quote s))
      with (String "%" (hex_fixed true 2 (N_of_ascii c)) +:+ quote s).
    by rewrite str_forall_app, quote_escape_safe, IH.
Qed.

Lemma quote_inj s1 s2 : quote s1 = quote s2 → s1 = s2.
Proof.
  intros Heq. by rewrite <- (unquote_quote s1), <- (unquote_quote s2), Heq.
Qed.

(** X1. Decoding a quoted string gives the string back, so [quote] never
    maps two identifiers to the same text; and a quoted string holds only
    unreserved characters and [%]: no [/], [?], [#], [&], [=] or space. *)
Theorem quote_round_trip (s : string) :
  unquote (quote s) = s ∧ str_forall path_safe (quote s) = true.
Proof. split; [apply unquote_quote|apply path_safe_quote]. Qed.

Lemma str_forall_impl (p q : ascii → bool) s :
  (∀ c, p c = true → q c = true) → str_forall p s = true → str_forall q s = true.
Proof.
  intros Hpq. induction s as [|c s IH]; [done|].
  cbn [str_forall]. rewrite !andb_true_iff. intros [Hc Hs]. auto.
Qed.

Lemma not_slash_quote s : str_forall not_slash (quote s) = true.
Proof.
  apply (str_forall_impl path_safe); [|apply path_safe_quote].
  intros c. unfold not_slash. destruct (Ascii.eqb_spec c "/") as [->|]; [|done].
  by vm_compute.
Qed.

(** A text without [/] in front of a [/] is determined by the whole. *)
Lemma app_slash_inj a a' b b' :
  str_forall not_slash a = true → str_forall not_slash a' = true →
  a +:+ String "/" b = a' +:+ String "/" b' → a = a' ∧ b = b'.
Proof.
  revert a'. induction a as [|c a IH]; intros [|c' a'] Ha Ha' Heq.
  - by injection Heq as ->.
  - rewrite str_app_cons in Heq. injection Heq as <- _. discriminate Ha'.
  - rewrite str_app_cons in Heq. injection Heq as -> _. discriminate Ha.
  - rewrite !str_app_cons in Heq. injection Heq as -> Heq.
    cbn [str_forall] in Ha, Ha'. rewrite andb_true_iff in Ha, Ha'.
    destruct (IH a') as [-> ->]; [tauto..|done|done].
Qed.

Lemma task_path_inj pid tid pid' tid' :
  "/project/" +:+ quote pid +:+ "/task/" +:+ quote tid
  = "/project/" +:+ quote pid' +:+ "/task/" +:+ quote tid' →
  pid = pid' ∧ tid = tid'.
Proof.
  intros Heq. apply (inj (String.app "/project/")) in Heq.
  change ("/task/" +:+ quote tid) with (String "/" ("task/" +:+ quote tid)) in Heq.
  change ("/task/" +:+ quote tid') with (String "/" ("task/" +:+ quote tid')) in Heq.
  apply app_slash_inj in Heq as [Hpid Htid]; [|apply not_slash_quote..].
  apply (inj (String.app "task/")) in Htid.
  split; by apply quote_inj.
Qed.

Lemma complete_path_inj pid tid pid' tid' :
  "/project/" +:+ quote pid +:+ "/task/" +:+ quote tid +:+ "/complete"
  = "/project/" +:+ quote pid' +:+ "/task/" +:+ quote tid' +:+ "/complete" →
  pid = pid' ∧ tid = tid'.
Proof.
  intros Heq. apply (inj (String.app "/project/")) in Heq.
  change ("/task/" +:+ quote tid +:+ "/complete")
    with (String "/" ("task/" +:+ quote tid +:+ "/complete")) in Heq.
  change ("/task/" +:+ quote tid' +:+ "/complete")
    with (String "/" ("task/" +:+ quote tid' +:+ "/complete")) in Heq.
  apply app_slash_inj in Heq as [Hpid Htid]; [|apply not_slash_quote..].
  apply (inj (String.app "task/")) in Htid.
  apply app_slash_inj in Htid as [Htid _]; [|apply not_slash_quote..].
  split; by apply quote_inj.
Qed.

(** X2. Two fetches, two completions or two deletions of a task send the
    same request only when they name the same project and the same task:
    no identifier, whatever characters it holds, reaches the path of
    another. *)
Theorem task_requests_determine_ids w st c1 (pid tid pid' tid' : string) :
  (trace (TickTickV1.get_task c1 (VStr pid) (VStr tid) w st).2
     = trace (TickTickV1.get_task c1 (VStr pid') (VStr tid') w st).2 →
   pid = pid' ∧ tid = tid')
  ∧ (trace (TickTickV1.complete_task c1 (VStr pid) (VStr tid) w st).2
     = trace (TickTickV1.complete_task c1 (VStr pid') (VStr tid') w st).2 →
   pid = pid' ∧ tid = tid')
  ∧ (trace (TickTickV1.delete_task c1 (VStr pid) (VStr tid) w st).2
     = trace (TickTickV1.delete_task c1 (VStr pid') (VStr tid') w st).2 →
   pid = pid' ∧ tid = tid').
Proof.
  assert (∀ method path path',
    trace (TickTickV1._request c1 method path VNone w st).2
      = trace (TickTickV1._request c1 method path' VNone w st).2 →
    path = path') as Hpath.
  { intros method path path'. rewrite !trace_v1_request. intros Heq.
    apply app_inv_head in Heq. injection Heq as Heq. exact Heq. }
  split; [|split]; intros Heq.
  - by apply task_path_inj, (Hpath "GET").
  - by apply complete_path_inj, (Hpath "POST").
  - by apply task_path_inj, (Hpath "DELETE").
Qed.

Lemma task_requests_determine_ids_witness :
  "p/1" = "p/1" ∧ "t 1" = "t 1".
Proof.
  apply (task_requests_determine_ids one_task_world initial secret "p/1" "t 1" "p/1" "t 1").
  reflexivity.
Defined.

(** ** What construction sends and yields *)

Lemma login_request_anonymous self payload endpoint :
  truthy (TickTickV2.session_token self) = false →
  TickTickV2.login_request self payload endpoint
  = anonymous_login (TickTickV2._device_id self) payload endpoint.
Proof.
  intros Hfalsy. unfold TickTickV2.login_request, TickTickV2._headers, anonymous_login.
  by rewrite Hfalsy.
Qed.

Section login_outcome.
Context (device_id : string) (payload : value) (endpoint : string) (todo : list string).
Context (st : state).

Lemma login_outcome_stop (o : outcome TickTickV2.t) :
  (∀ self', o ≠ Ret self') →
  login_outcome device_id payload (endpoint :: todo) st
    (o, sent (anonymous_login device_id payload endpoint) st).
Proof.
  intros Ho. exists 1%nat. split; [cbn [length]; lia|].
  split; [reflexivity|]. split; [reflexivity|]. split; [reflexivity|].
  intros self' Hself'. by destruct (Ho self').
Qed.

Lemma login_outcome_ret self' :
  truthy (TickTickV2.session_token self') = true →
  TickTickV2._device_id self' = device_id →
  login_outcome device_id payload (endpoint :: todo) st
    (Ret self', sent (anonymous_login device_id payload endpoint) st).
Proof.
  intros Htoken Hdevice. exists 1%nat. split; [cbn [length]; lia|].
  split; [reflexivity|]. split; [reflexivity|]. split; [reflexivity|].
  intros self0 [= <-]. by split; [|split; [|split]].
Qed.

Lemma login_outcome_next r :
  login_outcome device_id payload todo
    (sent (anonymous_login device_id payload endpoint) st) r →
  login_outcome device_id payload (endpoint :: todo) st r.
Proof.
  intros (n & Hn & Htrace & Hrng & Hout & Hret).
  exists (S n). split; [cbn [length]; lia|]. split.
  { rewrite Htrace. unfold sent. cbn [trace take fmap list_fmap].
    by rewrite <- app_assoc. }
  split; [exact Hrng|]. split; [exact Hout|].
  intros self' Hself'. destruct (Hret self' Hself') as (? & ? & ? & ?).
  split; [done|]. split; [done|]. split; [lia|done].
Qed.

End login_outcome.

(** The loop, started without a session token, ends as [login_outcome]
    says. *)
Lemma login_loop_invariant w payload device_id todo :
  ∀ self last_error st,
    truthy (TickTickV2.session_token self) = false →
    TickTickV2._device_id self = device_id →
    login_outcome device_id payload todo st
      (TickTickV2._login_loop self payload todo last_error w st).
Proof.
  induction todo as [|endpoint todo IH]; intros self last_error st Hfalsy Hdevice.
  - exists 0%nat. split; [done|]. split; [cbn; by rewrite app_nil_r|].
    split; [done|]. split; [done|]. intros self' Hret. discriminate.
  - cbn [TickTickV2._login_loop]. rewrite run_bind, run_urlopen.
    rewrite (login_request_anonymous self payload endpoint Hfalsy), Hdevice.
    destruct (server w (trace st) _) as [code body|cookies text|].
    + apply login_outcome_next, IH; done.
    + py_run. destruct text as [|result|].
      * by apply login_outcome_stop.
      * destruct result as [| | | | |result]; try by apply login_outcome_stop.
        destruct (truthy (default VNone (result !! "token"))) eqn:Htoken.
        -- apply login_outcome_ret; [exact Htoken|].
           cbn [TickTickV2._device_id]. by rewrite scan_csrf_device.
        -- apply login_outcome_next, IH; [exact Htoken|].
           cbn [TickTickV2._device_id]. by rewrite scan_csrf_device.
      * by apply login_outcome_stop.
    + by apply login_outcome_stop.
Qed.

(** Construction, step by step: V1 is built without any effect, V2 draws
    ten random bytes for the device identifier and logs in. *)
Lemma run_client_init w st (access_token username password : option string) :
  TickTickClient.__init__ access_token username password w st =
  let v1 := if truthy (of_opt access_token)
            then Some (TickTickV1.Build (default "" access_token)) else None in
  if truthy (of_opt username) && truthy (of_opt password) then
    match TickTickV2._login (TickTickV2.Build VNone VNone VNone (device_id_at w st))
            (default "" username) (default "" password) w
            (State (trace st) (stderr st) (stdout st) (rng st + 10)) with
    | (Ret c2, st') => (Ret (TickTickClient.Build v1 (Some c2)), st')
    | (Exit c, st') => (Exit c, st')
    | (Crash e, st') => (Crash e, st')
    end
  else
    match v1 with
    | Some _ => (Ret (TickTickClient.Build v1 None), st)
    | None => (Exit 1, complained NO_CREDENTIALS st)
    end.
Proof.
  unfold TickTickClient.__init__, TickTickV1.__init__, TickTickV2.__init__.
  cbv zeta. rewrite run_bind.
  destruct (truthy (of_opt access_token)) eqn:Htoken;
    destruct (truthy (of_opt username)) eqn:Huser;
    destruct (truthy (of_opt password)) eqn:Hpass;
    cbn [negb andb orb]; rewrite ?run_bind, ?run_ret; cbn [negb andb orb];
    rewrite ?run_bind, ?run_ret; try reflexivity.
  - unfold token_hex at 1. fold (device_id_at w st).
    by destruct (TickTickV2._login _ _ _ w _) as [[c2|c|e] st'].
  - unfold token_hex at 1. fold (device_id_at w st).
    by destruct (TickTickV2._login _ _ _ w _) as [[c2|c|e] st'].
Qed.

Lemma device_id_at_format w st :
  String.length (device_id_at w st) = 24%nat ∧ lower_hex (device_id_at w st).
Proof.
  unfold device_id_at. split.
  - rewrite str_length_app, hexlify_length, length_fmap, length_seq. reflexivity.
  - unfold lower_hex, hex_value. rewrite hex_value_from_app. apply lower_hex_hexlify.
Qed.

Lemma login_of_fresh_session w st device_id username password :
  login_outcome device_id (login_payload username password) TickTickV2.endpoints st
    (TickTickV2._login (TickTickV2.Build VNone VNone VNone device_id)
       username password w st).
Proof. by apply login_loop_invariant. Qed.

(** X3. A client that [__init__] returns has a V1 backend exactly when
    an access token was given, a V2 backend exactly when a user name and a
    password were given, and at least one of the two; its V2 backend holds
    a session token and a device identifier of 24 lowercase hexadecimal
    characters, [65a0] followed by the ten random bytes drawn first. *)
Theorem client_init_invariant w st (access_token username password : option string)
    client st' :
  TickTickClient.__init__ access_token username password w st = (Ret client, st') →
  TickTickClient.v1 client
    = (if truthy (of_opt access_token)
       then Some (TickTickV1.Build (default "" access_token)) else None)
  ∧ (is_Some (TickTickClient.v2 client)
     ↔ truthy (of_opt username) && truthy (of_opt password) = true)
  ∧ (is_Some (TickTickClient.v1 client) ∨ is_Some (TickTickClient.v2 client))
  ∧ ∀ c2, TickTickClient.v2 client = Some c2 →
      truthy (TickTickV2.session_token c2) = true
      ∧ TickTickV2._device_id c2 = device_id_at w st
      ∧ String.length (TickTickV2._device_id c2) = 24%nat
      ∧ lower_hex (TickTickV2._device_id c2).
Proof.
  rewrite run_client_init. cbv zeta.
  destruct (truthy (of_opt username) && truthy (of_opt password)) eqn:Hcreds.
  - pose proof (login_of_fresh_session w
                  (State (trace st) (stderr st) (stdout st) (rng st + 10))
                  (device_id_at w st) (default "" username) (default "" password))
      as (n & _ & _ & _ & _ & Hret).
    destruct (TickTickV2._login _ _ _ w _) as [[c2|c|e] st2]; intros [= <- <-].
    destruct (Hret c2 eq_refl) as (Htoken & Hdevice & _ & _).
    cbn [TickTickClient.v1 TickTickClient.v2].
    split; [reflexivity|]. split; [by split; [|eexists]|]. split; [right; by eexists|].
    intros c2' [= <-]. rewrite Hdevice.
    split; [done|]. split; [done|]. apply device_id_at_format.
  - destruct (truthy (of_opt access_token)); intros [= <- <-].
    cbn [TickTickClient.v1 TickTickClient.v2].
    split; [reflexivity|]. split; [by split; [intros [? [=]]|]|].
    split; [left; by eexists|]. intros c2 [=].
Qed.

Lemma client_init_invariant_witness :
  let w := signon_world in
  let client :=
    TickTickClient.Build (Some secret)
      (Some (logged_in (TickTickV2.Build VNone VNone VNone (device_id_at w initial))
               ["_csrf_token=c5rf; Path=/"] granted (VStr "s3ss10n"))) in
  TickTickClient.v1 client = Some (TickTickV1.Build "secret")
  ∧ (is_Some (TickTickClient.v2 client) ↔ true && true = true)
  ∧ (is_Some (TickTickClient.v1 client) ∨ is_Some (TickTickClient.v2 client))
  ∧ ∀ c2, TickTickClient.v2 client = Some c2 →
      truthy (TickTickV2.session_token c2) = true
      ∧ TickTickV2._device_id c2 = device_id_at w initial
      ∧ String.length (TickTickV2._device_id c2) = 24%nat
      ∧ lower_hex (TickTickV2._device_id c2).
Proof.
  intros w client.
  apply (client_init_invariant w initial (Some "secret") (Some "me@example.com")
           (Some "hunter2") client
           (sent (anonymous_login (device_id_at w initial)
                    (login_payload "me@example.com" "hunter2") "/user/signon")
              (State [] [] [] 10))).
  vm_compute. reflexivity.
Defined.

(** X4. Whatever the server does, construction sends at most two
    requests, all of them login POSTs without a session cookie, to
    [/user/signon] and then [/user/signin]; it never contacts the official
    interface and prints nothing on the output.  Without a user name and a
    password it sends nothing and draws no random byte; with them it draws
    exactly ten. *)
Theorem client_init_requests w st (access_token username password : option string) :
  let r := TickTickClient.__init__ access_token username password w st in
  let with_v2 := truthy (of_opt username) && truthy (of_opt password) in
  ∃ n,
    (n ≤ if with_v2 then 2 else 0)%nat
    ∧ trace r.2
      = trace st ++ (anonymous_login (device_id_at w st)
                       (login_payload (default "" username) (default "" password))
                     <$> take n ["/user/signon"; "/user/signin"])
    ∧ Forall (λ req, is_v1 req = false) (drop (length (trace st)) (trace r.2))
    ∧ stdout r.2 = stdout st
    ∧ rng r.2 = (rng st + if with_v2 then 10 else 0)%nat.
Proof.
  cbv zeta. rewrite run_client_init. cbv zeta.
  assert (∀ n (l : list string),
    Forall (λ req, is_v1 req = false)
      (drop (length (trace st))
         (trace st ++ (anonymous_login (device_id_at w st)
                         (login_payload (default "" username) (default "" password))
                       <$> take n l)))) as Hv2.
  { intros n l. rewrite drop_app_length. apply Forall_fmap, Forall_true. done. }
  destruct (truthy (of_opt username) && truthy (of_opt password)) eqn:Hcreds.
  - pose proof (login_of_fresh_session w
                  (State (trace st) (stderr st) (stdout st) (rng st + 10))
                  (device_id_at w st) (default "" username) (default "" password))
      as (n & Hn & Htrace & Hrng & Hout & _).
    exists n. split; [exact Hn|].
    destruct (TickTickV2._login _ _ _ w _) as [[c2|c|e] st2];
      cbn [fst snd trace rng stdout] in *;
      (split; [exact Htrace|]); rewrite Htrace; (split; [apply Hv2|]); by split.
  - exists 0%nat. split; [done|].
    destruct (truthy (of_opt access_token)); cbn [fst snd trace rng stdout complained];
      rewrite Nat.add_0_r, app_nil_r; (split; [done|]);
      (split; [by rewrite drop_all|]); by split.
Qed.

(** X5. An endpoint that answers 200 without a session token records no
    error.  When both endpoints do so, the one message of the failed login
    reads [None]; when [/user/signon] answered with an HTTP error before,
    the message carries that error, the last one recorded. *)
Theorem login_without_token_reports_last_recorded w st self username password
    cookies result :
  let payload := login_payload username password in
  let signon := TickTickV2.login_request self payload "/user/signon" in
  let token := default VNone (result !! "token") in
  truthy token = false →
  (∀ code body,
     server w (trace st) signon = HTTPError code body →
     server w (trace st ++ [signon]) (TickTickV2.login_request self payload "/user/signin")
       = Response cookies (JsonText (VDict result)) →
     TickTickV2._login self username password w st
     = (Exit 1, complained (LOGIN_FAILED (login_error code body))
                  (sent (TickTickV2.login_request self payload "/user/signin")
                     (sent signon st))))
  ∧ (∀ cookies1 result1,
     server w (trace st) signon = Response cookies1 (JsonText (VDict result1)) →
     truthy (default VNone (result1 !! "token")) = false →
     let self1 := logged_in self cookies1 result1 (default VNone (result1 !! "token")) in
     server w (trace st ++ [signon]) (TickTickV2.login_request self1 payload "/user/signin")
       = Response cookies (JsonText (VDict result)) →
     TickTickV2._login self username password w st
     = (Exit 1, complained (LOGIN_FAILED "None")
                  (sent (TickTickV2.login_request self1 payload "/user/signin")
                     (sent signon st)))).
Proof.
  intros payload signon token Hfalsy.
  unfold TickTickV2._login, TickTickV2.endpoints. fold (login_payload username password).
  fold payload. split.
  - intros code body Hfail Hok.
    rewrite (login_loop_http_error w self payload _ _ _ _ code body Hfail).
    rewrite (login_loop_no_token w self payload _ _ _ (sent signon st) cookies result Hok Hfalsy).
    reflexivity.
  - intros cookies1 result1 Hok1 Hfalsy1.
    set (self1 := logged_in self cookies1 result1 (default VNone (result1 !! "token"))).
    intros Hok.
    rewrite (login_loop_no_token w self payload _ _ _ _ cookies1 result1 Hok1 Hfalsy1).
    fold self1.
    rewrite (login_loop_no_token w self1 payload _ _ _ (sent signon st) cookies result Hok Hfalsy).
    reflexivity.
Qed.

Lemma login_without_token_reports_last_recorded_witness :
  let payload := login_payload "me@example.com" "hunter2" in
  let signon := TickTickV2.login_request fresh_session payload "/user/signon" in
  let signin := TickTickV2.login_request fresh_session payload "/user/signin" in
  TickTickV2._login fresh_session "me@example.com" "hunter2" tokenless_world initial
  = (Exit 1, complained (LOGIN_FAILED (login_error 404 "no such endpoint"))
               (sent signin (sent signon initial)))
  ∧ TickTickV2._login fresh_session "me@example.com" "hunter2" empty_answers_world initial
  = (Exit 1, complained (LOGIN_FAILED "None") (sent signin (sent signon initial))).
Proof.
  intros payload signon signin. split.
  - pose proof (login_without_token_reports_last_recorded tokenless_world initial
                  fresh_session "me@example.com" "hunter2" [] ∅) as Hcases.
    cbv zeta in Hcases. destruct (Hcases eq_refl) as [Hfirst _].
    apply (Hfirst 404 "no such endpoint"); reflexivity.
  - pose proof (login_without_token_reports_last_recorded empty_answers_world initial
                  fresh_session "me@example.com" "hunter2" [] ∅) as Hcases.
    cbv zeta in Hcases. destruct (Hcases eq_refl) as [_ Hsecond].
    exact (Hsecond [] ∅ eq_refl eq_refl eq_refl).
Defined.

(** ** Which backend an operation needs *)

Lemma only_sends_v2_request self method path data :
  only_sends is_internal (TickTickV2._request self method path data).
Proof.
  intros w st. eexists. split; [apply trace_v2_request|].
  by repeat constructor.
Qed.

Lemma quiet_error_exit_trace {A} p (msg : string) : only_sends p (_error_exit msg : Py A).
Proof. intros w st. exists []. by rewrite app_nil_r. Qed.

Lemma quiet_lower s : quiet (lower s).
Proof. by intros w st. Qed.

Lemma quiet_py_lower v : quiet (TickTickClient.py_lower v).
Proof. destruct v; by intros w st. Qed.

Lemma quiet_search_test q t : quiet (TickTickClient.search_test q t).
Proof.
  unfold TickTickClient.search_test.
  apply quiet_bind; [apply quiet_py_get|]. intros title.
  apply quiet_bind; [apply quiet_py_lower|]. intros ltitle.
  destruct (contains q ltitle); [apply quiet_ret|].
  apply quiet_bind; [apply quiet_py_get|]. intros content.
  apply quiet_bind; [apply quiet_py_lower|]. intros lcontent.
  destruct (contains q lcontent); [apply quiet_ret|].
  apply quiet_bind; [apply quiet_py_get|]. intros desc.
  apply quiet_bind; [apply quiet_py_lower|]. intros ldesc. apply quiet_ret.
Qed.

Lemma quiet_py_update v kwargs : quiet (TickTickClient.py_update v kwargs).
Proof. destruct v; by intros w st. Qed.

Lemma quiet_new_tag name color parent : quiet (TickTickClient.new_tag name color parent).
Proof.
  unfold TickTickClient.new_tag.
  apply quiet_bind; [apply quiet_lower|]. intros lname.
  destruct (truthy (of_opt parent)); [|apply quiet_ret].
  apply quiet_bind; [apply quiet_lower|]. intros lparent. apply quiet_ret.
Qed.

Lemma only_sends_v1_quoted p (f : string → Py value) v :
  (∀ s, only_sends p (f s)) → only_sends p (py_quote v ≫= f).
Proof.
  intros Hf. apply only_sends_bind; [apply only_sends_quiet, quiet_py_quote|exact Hf].
Qed.

(** X6. Project and task operations belong to the official interface:
    without a V1 client each of them prints that it needs V1, under its own
    name, and exits with status 1 without sending anything, whether or not
    there is a session; with a V1 client every request they send goes to
    the official interface. *)
Theorem v1_operations_need_v1 w st (v2 : option TickTickV2.t) (c1 : TickTickV1.t)
    (project_id task_id : value) (id : string) (kwargs : gmap string value) :
  Forall (λ '(name, operation),
            operation w st = (Exit 1, complained (name +:+ " 需要 V1 認證") st))
         (v1_operations (TickTickClient.Build None v2) project_id task_id id kwargs)
  ∧ Forall (λ '(name, operation), only_sends is_v1 operation)
         (v1_operations (TickTickClient.Build (Some c1) v2) project_id task_id id kwargs).
Proof.
  split.
  - repeat constructor.
  - unfold v1_operations. repeat apply Forall_cons_2; [..|apply Forall_nil_2];
      cbn [TickTickClient.get_project TickTickClient.get_project_data
           TickTickClient.create_project TickTickClient.update_project
           TickTickClient.delete_project TickTickClient.get_task
           TickTickClient.create_task TickTickClient.update_task
           TickTickClient.complete_task TickTickClient.delete_task TickTickClient.v1].
    + apply only_sends_v1_quoted. intros pid. apply only_sends_v1_request.
    + apply only_sends_get_project_data.
    + apply only_sends_v1_request.
    + apply only_sends_v1_quoted. intros pid. apply only_sends_v1_request.
    + apply only_sends_v1_quoted. intros pid. apply only_sends_v1_request.
    + apply only_sends_v1_quoted. intros pid.
      apply only_sends_v1_quoted. intros tid. apply only_sends_v1_request.
    + apply only_sends_v1_request.
    + destruct (negb _); [apply quiet_error_exit_trace|].
      apply only_sends_bind.
      { apply only_sends_v1_quoted. intros pid.
        apply only_sends_v1_quoted. intros tid. apply only_sends_v1_request. }
      intros existing. apply only_sends_bind;
        [apply only_sends_quiet, quiet_py_update|].
      intros merged. apply only_sends_v1_quoted. intros tid. apply only_sends_v1_request.
    + apply only_sends_v1_quoted. intros pid.
      apply only_sends_v1_quoted. intros tid. apply only_sends_v1_request.
    + apply only_sends_v1_quoted. intros pid.
      apply only_sends_v1_quoted. intros tid. apply only_sends_v1_request.
Qed.

Lemma only_sends_v2_request_query self method path data params :
  only_sends is_internal (TickTickV2._request_query self method path data params).
Proof.
  intros w st. unfold TickTickV2._request_query. cbv zeta.
  rewrite run_bind, run_urlopen.
  match goal with |- context [server w (trace st) ?req] => exists [req] end.
  split; [|by repeat constructor].
  destruct (server w _ _) as [code body|cookies [|v|]|]; reflexivity.
Qed.

Lemma only_sends_sync c2 : only_sends is_internal (TickTickV2.sync c2).
Proof. apply only_sends_v2_request. Qed.

(** X7. Search, completed tasks, tags and sync belong to the internal
    interface: without a V2 client each of them prints that it needs V2,
    under the name of its command, and exits with status 1 without sending
    anything, whether or not there is an access token; with a V2 client
    every request they send goes to the internal interface. *)
Theorem v2_operations_need_v2 w st (v1 : option TickTickV1.t) (c2 : TickTickV2.t)
    (query name : string) (scope color parent : option string) (limit : Z) :
  Forall (λ '(command, operation),
            operation w st
            = (Exit 1, complained (command +:+ " 需要 V2 認證 (USERNAME+PASSWORD)") st))
         (v2_operations (TickTickClient.Build v1 None) query name scope color parent limit)
  ∧ Forall (λ '(command, operation), only_sends is_internal operation)
         (v2_operations (TickTickClient.Build v1 (Some c2))
            query name scope color parent limit).
Proof.
  split.
  - repeat constructor.
  - unfold v2_operations. repeat apply Forall_cons_2; [..|apply Forall_nil_2];
      cbn [TickTickClient.search_tasks TickTickClient.get_completed_tasks
           TickTickClient.list_tags TickTickClient.create_tag TickTickClient.sync
           TickTickClient.v2].
    + apply only_sends_bind; [apply only_sends_sync|]. intros data.
      apply only_sends_quiet.
      apply quiet_bind; [apply quiet_py_get|]. intros bean.
      apply quiet_bind; [apply quiet_py_get|]. intros tasks.
      apply quiet_bind; [apply quiet_lower|]. intros q.
      apply quiet_bind; [apply quiet_py_iter|]. intros ts.
      apply quiet_bind; [|intros kept; apply quiet_ret].
      apply quiet_py_filter. intros t. apply quiet_search_test.
    + unfold TickTickV2.get_completed_tasks. cbv zeta.
      destruct (truthy (of_opt scope)); [|apply only_sends_v2_request_query].
      apply only_sends_bind; [apply only_sends_quiet, quiet_py_quote|].
      intros pid. apply only_sends_v2_request_query.
    + unfold TickTickV2.list_tags.
      apply only_sends_bind; [apply only_sends_sync|]. intros data.
      apply only_sends_quiet, quiet_py_get.
    + apply only_sends_bind; [apply only_sends_quiet, quiet_new_tag|].
      intros tag. apply only_sends_v2_request.
    + apply only_sends_sync.
Qed.

(** ** Listings and search from the sync snapshot *)

Lemma run_get {B} d key dflt (f : value → Py B) w st :
  (py_get (VDict d) key dflt ≫= f) w st = f (default dflt (d !! key)) w st.
Proof. reflexivity. Qed.

Lemma run_iter {B} l (f : list value → Py B) w st :
  (py_iter (VList l) ≫= f) w st = f l w st.
Proof. reflexivity. Qed.

Lemma run_lower {B} s (f : string → Py B) w st :
  (lower s ≫= f) w st = f (str_lower w s) w st.
Proof. reflexivity. Qed.

Section snapshot.
Context (w : world) (st st1 : state) (c2 : TickTickV2.t).
Context (data bean : gmap string value) (ts : list (gmap string value)).
Context (Hsync : TickTickV2.sync c2 w st = (Ret (VDict data), st1)).

Lemma run_after_sync {A} (f : value → Py A) :
  (TickTickV2.sync c2 ≫= f) w st = f (VDict data) w st1.
Proof using Hsync. by rewrite run_bind, Hsync. Qed.

Lemma in_project_test pid t st' :
  (py_get (VDict t) "projectId" VNone ≫= λ p, mret (py_eq_str p pid)) w st'
  = (Ret (in_project pid t), st').
Proof. reflexivity. Qed.

Lemma run_listing_from_snapshot (v1 : option TickTickV1.t) pid :
  data !! "syncTaskBean" = Some (VDict bean) →
  bean !! "update" = Some (VList (VDict <$> ts)) →
  pid ≠ "" →
  TickTickClient.list_tasks (TickTickClient.Build None (Some c2)) (Some pid) w st
    = (Ret (VList (VDict <$> List.filter (in_project pid) ts)), st1)
  ∧ TickTickClient.list_tasks (TickTickClient.Build v1 (Some c2)) None w st
    = (Ret (VList (VDict <$> ts)), st1).
Proof using Hsync.
  intros Hbean Hupdate Hpid. unfold TickTickClient.list_tasks.
  cbn [TickTickClient.v1 TickTickClient.v2 of_opt]. rewrite (truthy_VStr pid Hpid).
  cbn [truthy]. rewrite !run_after_sync, !run_get, Hbean.
  change (default (VDict ∅) (Some (VDict bean))) with (VDict bean).
  rewrite !run_get, Hupdate.
  change (default (VList []) (Some (VList (VDict <$> ts)))) with (VList (VDict <$> ts)).
  split; [|reflexivity].
  rewrite run_iter, run_bind.
  rewrite (py_filter_records _ (in_project pid) ts w st1); [reflexivity|].
  intros t st'. reflexivity.
Qed.

(** X8. With no V1 client, listing the tasks of a project returns the
    tasks of the snapshot whose [projectId] is that project, in the order
    of the snapshot; listing without a project returns the whole snapshot,
    whether or not there is a V1 client.  One request, the sync, is sent. *)
Theorem listing_from_snapshot (v1 : option TickTickV1.t) pid :
  data !! "syncTaskBean" = Some (VDict bean) →
  bean !! "update" = Some (VList (VDict <$> ts)) →
  pid ≠ "" →
  TickTickClient.list_tasks (TickTickClient.Build None (Some c2)) (Some pid) w st
    = (Ret (VList (VDict <$> List.filter (in_project pid) ts)), st1)
  ∧ TickTickClient.list_tasks (TickTickClient.Build v1 (Some c2)) None w st
    = (Ret (VList (VDict <$> ts)), st1).
Proof using Hsync. apply run_listing_from_snapshot. Qed.

(** X9. A section missing from the snapshot reads as empty: without
    [projectProfiles] the project list is empty, without [syncTaskBean]
    the task list and every search are empty, without [tags] the tag list
    is empty.  Nothing fails. *)
Theorem listings_default_to_empty (v1 : option TickTickV1.t) :
  (data !! "projectProfiles" = None →
   TickTickClient.list_projects (TickTickClient.Build None (Some c2)) w st
     = (Ret (VList []), st1))
  ∧ (data !! "syncTaskBean" = None →
     ∀ project_id query,
       TickTickClient.list_tasks (TickTickClient.Build None (Some c2)) project_id w st
         = (Ret (VList []), st1)
       ∧ TickTickClient.search_tasks (TickTickClient.Build v1 (Some c2)) query w st
         = (Ret (VList []), st1))
  ∧ (data !! "tags" = None →
     TickTickClient.list_tags (TickTickClient.Build v1 (Some c2)) w st
       = (Ret (VList []), st1)).
Proof using Hsync.
  split; [|split].
  - intros Hnone. unfold TickTickClient.list_projects.
    cbn [TickTickClient.v1 TickTickClient.v2].
    rewrite run_after_sync. cbn [py_get]. by rewrite Hnone.
  - intros Hnone project_id query. split.
    + unfold TickTickClient.list_tasks. cbn [TickTickClient.v1 TickTickClient.v2].
      replace (if truthy (of_opt project_id) then None else None)
        with (@None TickTickV1.t) by (by destruct (truthy _)).
      rewrite run_after_sync, !run_get, Hnone.
      change (default (VDict ∅) None) with (VDict (∅ : gmap string value)).
      rewrite run_get, lookup_empty.
      by destruct (truthy (of_opt project_id)).
    + unfold TickTickClient.search_tasks. cbn [TickTickClient.v2].
      rewrite run_after_sync, !run_get, Hnone.
      change (default (VDict ∅) None) with (VDict (∅ : gmap string value)).
      by rewrite run_get, lookup_empty.
  - intros Hnone. unfold TickTickClient.list_tags, TickTickV2.list_tags.
    cbn [TickTickClient.v2]. rewrite run_after_sync. cbn [py_get]. by rewrite Hnone.
Qed.

Lemma run_field {B} t key (f : string → Py B) st' :
  textual key t = true →
  (py_get (VDict t) key (VStr "") ≫= λ v, TickTickClient.py_lower v ≫= f) w st'
  = f (str_lower w (text_of key t)) w st'.
Proof using Type.
  unfold textual, text_of. rewrite run_get.
  destruct (t !! key) as [[| | |s| |]|]; intros Htext;
    first [discriminate Htext | reflexivity].
Qed.

Lemma search_test_searchable q t st' :
  searchable t = true →
  TickTickClient.search_test q (VDict t) w st' = (Ret (matches w q t), st').
Proof using Type.
  unfold searchable, matches, TickTickClient.search_test.
  rewrite !andb_true_iff. intros [[Htitle Hcontent] Hdesc].
  rewrite (run_field _ _ _ _ Htitle).
  destruct (contains q (str_lower w (text_of "title" t))); [reflexivity|].
  rewrite (run_field _ _ _ _ Hcontent).
  destruct (contains q (str_lower w (text_of "content" t))); [reflexivity|].
  by rewrite (run_field _ _ _ _ Hdesc).
Qed.

(** X10. When the title, content and description of every task of the
    snapshot are strings or absent, a search returns, in the order of the
    snapshot, the tasks in which the lowercased query occurs in the
    lowercased title, content or description. *)
Theorem search_finds_matches (v1 : option TickTickV1.t) query :
  data !! "syncTaskBean" = Some (VDict bean) →
  bean !! "update" = Some (VList (VDict <$> ts)) →
  forallb searchable ts = true →
  TickTickClient.search_tasks (TickTickClient.Build v1 (Some c2)) query w st
    = (Ret (VList (VDict <$> List.filter (matches w (str_lower w query)) ts)), st1).
Proof using Hsync.
  intros Hbean Hupdate Hsearchable. unfold TickTickClient.search_tasks.
  cbn [TickTickClient.v2]. rewrite run_after_sync, !run_get, Hbean.
  change (default (VDict ∅) (Some (VDict bean))) with (VDict bean).
  rewrite run_get, Hupdate.
  change (default (VList []) (Some (VList (VDict <$> ts)))) with (VList (VDict <$> ts)).
  rewrite run_lower, run_iter, run_bind.
  assert (py_filter (TickTickClient.search_test (str_lower w query)) (VDict <$> ts) w st1
          = (Ret (VDict <$> List.filter (matches w (str_lower w query)) ts), st1)) as ->;
    [|reflexivity].
  clear Hupdate. induction ts as [|t ts' IH]; [reflexivity|].
  cbn [forallb] in Hsearchable. apply andb_true_iff in Hsearchable as [Ht Hts'].
  cbn [fmap list_fmap py_filter List.filter].
  rewrite run_bind, (search_test_searchable _ _ _ Ht), run_bind, (IH Hts'), run_ret.
  by destruct (matches w (str_lower w query) t).
Qed.

End snapshot.

Section search_edges.
Context (w : world).

Lemma run_field_cases {B} t key (f : string → Py B) st :
  (py_get (VDict t) key (VStr "") ≫= λ v, TickTickClient.py_lower v ≫= f) w st
  = if textual key t then f (str_lower w (text_of key t)) w st
    else (Crash "AttributeError", st).
Proof.
  unfold textual, text_of. rewrite run_get.
  by destruct (t !! key) as [[| | |s| |]|].
Qed.

(** The test of one task returns or raises [AttributeError], nothing else. *)
Lemma search_test_outcome q t st :
  (∃ found, TickTickClient.search_test q (VDict t) w st = (Ret found, st))
  ∨ TickTickClient.search_test q (VDict t) w st = (Crash "AttributeError", st).
Proof.
  unfold TickTickClient.search_test. rewrite run_field_cases.
  destruct (textual "title" t); [|by right].
  destruct (contains q _); [left; by eexists|].
  rewrite run_field_cases. destruct (textual "content" t); [|by right].
  destruct (contains q _); [left; by eexists|].
  rewrite run_field_cases. destruct (textual "desc" t); [|by right].
  left. by eexists.
Qed.

Lemma search_test_bad_title q t st :
  textual "title" t = false →
  TickTickClient.search_test q (VDict t) w st = (Crash "AttributeError", st).
Proof.
  intros Hbad. unfold TickTickClient.search_test. by rewrite run_field_cases, Hbad.
Qed.

Lemma search_test_title_matches q t st :
  title_matches w q t = true →
  TickTickClient.search_test q (VDict t) w st = (Ret true, st).
Proof.
  unfold title_matches. rewrite andb_true_iff. intros [Htext Hmatch].
  unfold TickTickClient.search_test. by rewrite run_field_cases, Htext, Hmatch.
Qed.

Lemma search_filter_bad_title q ts st :
  existsb (λ t, negb (textual "title" t)) ts = true →
  py_filter (TickTickClient.search_test q) (VDict <$> ts) w st
  = (Crash "AttributeError", st).
Proof.
  induction ts as [|t ts IH]; [discriminate|].
  cbn [existsb fmap list_fmap py_filter]. intros Hbad. rewrite run_bind.
  destruct (textual "title" t) eqn:Htitle.
  - cbn [negb orb] in Hbad.
    destruct (search_test_outcome q t st) as [[found ->]| ->]; [|reflexivity].
    by rewrite run_bind, (IH Hbad).
  - by rewrite (search_test_bad_title q t st Htitle).
Qed.

Lemma search_filter_title_matches q ts st :
  forallb (title_matches w q) ts = true →
  py_filter (TickTickClient.search_test q) (VDict <$> ts) w st = (Ret (VDict <$> ts), st).
Proof.
  induction ts as [|t ts IH]; [reflexivity|].
  cbn [forallb fmap list_fmap py_filter]. rewrite andb_true_iff. intros [Ht Hts].
  by rewrite run_bind, (search_test_title_matches q t st Ht), run_bind, (IH Hts).
Qed.

(** X11. The test of a search stops at the first field that matches and
    fails on a field that is not a string.  So, first, when some task of
    the snapshot has a title that is present but not a string (a JSON
    null, say), the whole search ends in [AttributeError] and returns
    nothing; and second, tasks found by their title are returned whatever
    their content and description hold. *)
Theorem search_on_malformed_fields st st1 c2 (v1 : option TickTickV1.t)
    (data bean : gmap string value) (ts : list (gmap string value)) query :
  TickTickV2.sync c2 w st = (Ret (VDict data), st1) →
  data !! "syncTaskBean" = Some (VDict bean) →
  bean !! "update" = Some (VList (VDict <$> ts)) →
  (existsb (λ t, negb (textual "title" t)) ts = true →
   TickTickClient.search_tasks (TickTickClient.Build v1 (Some c2)) query w st
     = (Crash "AttributeError", st1))
  ∧ (forallb (title_matches w (str_lower w query)) ts = true →
     TickTickClient.search_tasks (TickTickClient.Build v1 (Some c2)) query w st
       = (Ret (VList (VDict <$> ts)), st1)).
Proof.
  intros Hsync Hbean Hupdate.
  assert (TickTickClient.search_tasks (TickTickClient.Build v1 (Some c2)) query w st
          = (py_filter (TickTickClient.search_test (str_lower w query)) (VDict <$> ts)
               ≫= λ kept, mret (VList kept)) w st1) as ->.
  { unfold TickTickClient.search_tasks. cbn [TickTickClient.v2].
    rewrite (run_after_sync w st st1 c2 data Hsync), !run_get, Hbean.
    change (default (VDict ∅) (Some (VDict bean))) with (VDict bean).
    rewrite run_get, Hupdate. reflexivity. }
  split; intros Hts; rewrite run_bind.
  - by rewrite (search_filter_bad_title _ _ _ Hts).
  - by rewrite (search_filter_title_matches _ _ _ Hts).
Qed.

End search_edges.

Lemma listing_from_snapshot_witness :
  TickTickClient.list_tasks v2_only (Some "p1") (tasks_world [noted_task; plain_task]) initial
    = (Ret (VList [VDict noted_task]), after_sync)
  ∧ TickTickClient.list_tasks both None (tasks_world [noted_task; plain_task]) initial
    = (Ret (VList [VDict noted_task; VDict plain_task]), after_sync).
Proof.
  apply (listing_from_snapshot (tasks_world [noted_task; plain_task]) initial after_sync
           a_session (tasks_data [noted_task; plain_task])
           (tasks_bean [noted_task; plain_task]) [noted_task; plain_task]
           eq_refl (Some secret) "p1"); [reflexivity|reflexivity|discriminate].
Defined.

Lemma listings_default_to_empty_witness :
  TickTickClient.list_projects v2_only empty_snapshot_world initial
    = (Ret (VList []), after_sync)
  ∧ TickTickClient.list_tasks v2_only (Some "p1") empty_snapshot_world initial
    = (Ret (VList []), after_sync)
  ∧ TickTickClient.search_tasks both "rent" empty_snapshot_world initial
    = (Ret (VList []), after_sync)
  ∧ TickTickClient.list_tags both empty_snapshot_world initial
    = (Ret (VList []), after_sync).
Proof.
  destruct (listings_default_to_empty empty_snapshot_world initial after_sync a_session ∅
              eq_refl (Some secret)) as (Hprojects & Htasks & Htags).
  split; [by apply Hprojects|].
  destruct (Htasks eq_refl (Some "p1") "rent") as [Hlist Hsearch].
  split; [exact Hlist|]. split; [exact Hsearch|]. by apply Htags.
Defined.

Lemma search_finds_matches_witness :
  TickTickClient.search_tasks both "Rent" (tasks_world [T3; plain_task]) initial
    = (Ret (VList [VDict plain_task]), after_sync).
Proof.
  apply (search_finds_matches (tasks_world [T3; plain_task]) initial after_sync
           a_session (tasks_data [T3; plain_task]) (tasks_bean [T3; plain_task])
           [T3; plain_task] eq_refl (Some secret) "Rent"); reflexivity.
Defined.

Lemma search_on_malformed_fields_witness :
  TickTickClient.search_tasks both "rent" (tasks_world [plain_task; untitled_task]) initial
    = (Crash "AttributeError", after_sync)
  ∧ TickTickClient.search_tasks both "CALL" (tasks_world [noted_task]) initial
    = (Ret (VList [VDict noted_task]), after_sync).
Proof.
  split.
  - destruct (search_on_malformed_fields (tasks_world [plain_task; untitled_task])
                initial after_sync a_session (Some secret)
                (tasks_data [plain_task; untitled_task])
                (tasks_bean [plain_task; untitled_task])
                [plain_task; untitled_task] "rent" eq_refl eq_refl eq_refl) as [Hcrash _].
    by apply Hcrash.
  - destruct (search_on_malformed_fields (tasks_world [noted_task])
                initial after_sync a_session (Some secret)
                (tasks_data [noted_task]) (tasks_bean [noted_task])
                [noted_task] "CALL" eq_refl eq_refl eq_refl) as [_ Hfound].
    by apply Hfound.
Defined.

(** ** Updating a task from the command line *)

(** [update_task] after its two checks: the fetch, the merge, the
    submission. *)
Lemma run_update_task w st self task_id kwargs c1 pid :
  TickTickClient.v1 self = Some c1 →
  kwargs !! "projectId" = Some (VStr pid) →
  pid ≠ "" →
  TickTickClient.update_task self task_id kwargs w st
  = match server w (trace st) (fetch_request task_id c1 pid) with
    | HTTPError code body =>
        (Exit 1, complained (v1_error code body) (sent (fetch_request task_id c1 pid) st))
    | Response _ NoText =>
        TickTickV1._request c1 "POST" ("/task/" +:+ quote task_id) (VDict (kwargs ∪ ∅))
          w (sent (fetch_request task_id c1 pid) st)
    | Response _ (JsonText (VDict existing)) =>
        TickTickV1._request c1 "POST" ("/task/" +:+ quote task_id)
          (VDict (kwargs ∪ existing)) w (sent (fetch_request task_id c1 pid) st)
    | Response _ (JsonText _) =>
        (Crash "AttributeError", sent (fetch_request task_id c1 pid) st)
    | Response _ BadText => (Crash "ValueError", sent (fetch_request task_id c1 pid) st)
    | URLError => (Crash "URLError", sent (fetch_request task_id c1 pid) st)
    end.
Proof.
  intros Hv1 Hpid Hne. unfold TickTickClient.update_task. rewrite Hv1, Hpid.
  change (default VNone (Some (VStr pid))) with (VStr pid).
  rewrite (truthy_VStr pid Hne). cbn [negb]. rewrite run_bind.
  change (TickTickV1.get_task c1 (VStr pid) (VStr task_id) w st)
    with (TickTickV1._request c1 "GET"
            ("/project/" +:+ quote pid +:+ "/task/" +:+ quote task_id) VNone w st).
  rewrite run_v1_request. cbv zeta.
  change (v1_request c1 "GET" _ VNone) with (fetch_request task_id c1 pid).
  destruct (server w (trace st) _) as [code body|cookies [|[| | | | |existing]|]|];
    reflexivity.
Qed.

(** X12. What [update_task] does when the fetch does not deliver a
    record.  On an HTTP error it exits with the V1 diagnostic and submits
    nothing.  On an answer that is not a JSON object it ends in
    [AttributeError] and submits nothing.  On an empty body it goes on
    with an empty record: what it submits is the caller's fields alone. *)
Theorem update_task_without_record w st self task_id (kwargs : gmap string value) c1 pid :
  TickTickClient.v1 self = Some c1 →
  kwargs !! "projectId" = Some (VStr pid) →
  pid ≠ "" →
  let fetch := fetch_request task_id c1 pid in
  (∀ code body,
     server w (trace st) fetch = HTTPError code body →
     TickTickClient.update_task self task_id kwargs w st
       = (Exit 1, complained (v1_error code body) (sent fetch st)))
  ∧ (∀ cookies v,
     server w (trace st) fetch = Response cookies (JsonText v) →
     (∀ existing, v ≠ VDict existing) →
     TickTickClient.update_task self task_id kwargs w st
       = (Crash "AttributeError", sent fetch st))
  ∧ (∀ cookies,
     server w (trace st) fetch = Response cookies NoText →
     trace (TickTickClient.update_task self task_id kwargs w st).2
       = trace st ++ [fetch; submit_request task_id c1 kwargs]).
Proof.
  intros Hv1 Hpid Hne fetch.
  rewrite (run_update_task w st self task_id kwargs c1 pid Hv1 Hpid Hne). fold fetch.
  split; [|split].
  - by intros code body ->.
  - intros cookies v -> Hv. destruct v as [| | | | |existing]; try reflexivity.
    by destruct (Hv existing).
  - intros cookies ->. rewrite (right_id_L ∅ (∪)), trace_v1_request.
    unfold v1_request.
    rewrite (truthy_VDict_lookup kwargs "projectId" (VStr pid) Hpid).
    unfold sent. cbn [trace]. by rewrite <- app_assoc.
Qed.

Lemma update_task_without_record_witness :
  let fetch := fetch_request "t1" secret "p1" in
  TickTickClient.update_task v1_only "t1" retitle missing_world initial
    = (Exit 1, complained (v1_error 404 "task not found") (sent fetch initial))
  ∧ TickTickClient.update_task v1_only "t1" retitle listing_world initial
    = (Crash "AttributeError", sent fetch initial)
  ∧ trace (TickTickClient.update_task v1_only "t1" retitle silent_world initial).2
    = trace initial ++ [fetch; submit_request "t1" secret retitle].
Proof.
  intros fetch. split; [|split].
  - pose proof (update_task_without_record missing_world initial v1_only "t1" retitle
                  secret "p1" eq_refl eq_refl ltac:(discriminate)) as Hcases.
    cbv zeta in Hcases. destruct Hcases as (Herror & _ & _).
    by apply Herror.
  - pose proof (update_task_without_record listing_world initial v1_only "t1" retitle
                  secret "p1" eq_refl eq_refl ltac:(discriminate)) as Hcases.
    cbv zeta in Hcases. destruct Hcases as (_ & Hlist & _).
    by apply (Hlist [] (VList [VStr "no record"])).
  - pose proof (update_task_without_record silent_world initial v1_only "t1" retitle
                  secret "p1" eq_refl eq_refl ltac:(discriminate)) as Hcases.
    cbv zeta in Hcases. destruct Hcases as (_ & _ & Hempty).
    by apply (Hempty []).
Defined.

Lemma lookup_put_arg_eq key arg f (m : gmap string value) :
  put_arg key arg f m !! key = updated_field arg f (m !! key).
Proof.
  unfold put_arg, updated_field. destruct (truthy (of_opt arg)); [|done].
  by rewrite lookup_insert_eq.
Qed.

Lemma lookup_put_arg_ne key arg f (m : gmap string value) k :
  key ≠ k → put_arg key arg f m !! k = m !! k.
Proof.
  intros Hne. unfold put_arg. destruct (truthy (of_opt arg)); [|done].
  by rewrite lookup_insert_ne.
Qed.

Lemma updated_field_union arg f (kwargs existing : gmap string value) k :
  kwargs !! k = updated_field arg f None →
  (kwargs ∪ existing) !! k = updated_field arg f (existing !! k).
Proof.
  unfold updated_field. destruct (truthy (of_opt arg)); intros Hk.
  - by apply lookup_union_Some_l.
  - by rewrite lookup_union_r.
Qed.

(** The fields of the [kwargs] of [task-update]. *)
Lemma task_update_kwargs_fields args :
  let kwargs := task_update_kwargs args in
  kwargs !! "id" = Some (VStr (tu_task_id args))
  ∧ kwargs !! "projectId" = Some (VStr (tu_project args))
  ∧ kwargs !! "title" = updated_field (tu_title args) VStr None
  ∧ kwargs !! "content"
    = updated_field (tu_content args) (λ s, VStr (unescape_newlines s)) None
  ∧ kwargs !! "priority" = updated_field (tu_priority args) priority_of None
  ∧ kwargs !! "dueDate" = updated_field (tu_due args) VStr None
  ∧ kwargs !! "startDate" = updated_field (tu_start args) VStr None
  ∧ ∀ k, k ∉ UPDATE_FIELDS → kwargs !! k = None.
Proof.
  cbv zeta. unfold task_update_kwargs. cbv zeta.
  repeat split;
    try (rewrite ?lookup_put_arg_eq, ?lookup_put_arg_ne by done;
         rewrite ?lookup_put_arg_eq, ?lookup_put_arg_ne by done;
         rewrite ?lookup_put_arg_eq, ?lookup_put_arg_ne by done;
         rewrite ?lookup_put_arg_eq, ?lookup_put_arg_ne by done;
         rewrite ?lookup_put_arg_eq, ?lookup_put_arg_ne by done; done).
  intros k Hk. unfold UPDATE_FIELDS in Hk.
  rewrite !not_elem_of_cons in Hk. destruct Hk as (? & ? & ? & ? & ? & ? & ? & _).
  rewrite !lookup_put_arg_ne by done.
  by rewrite !lookup_insert_ne, lookup_empty by done.
Qed.

(** X13. [task-update] changes only what it is told to.  With a V1
    client, a project given and the task fetched as [existing], the record
    it submits has the task and project identifiers of the command line;
    each of title, content, priority, due date and start date comes from
    its option when the option is given and not empty, and from [existing]
    otherwise; every other field of [existing] (attachments, reminders,
    sub-tasks, ...) is submitted unchanged. *)
Theorem cmd_task_update_frame w st env args self st0 c1 cookies
    (existing : gmap string value) :
  create_client_from_env env w st = (Ret self, st0) →
  TickTickClient.v1 self = Some c1 →
  tu_project args ≠ "" →
  server w (trace st0) (fetch_request (tu_task_id args) c1 (tu_project args))
    = Response cookies (JsonText (VDict existing)) →
  ∃ submitted,
    trace (cmd_task_update env args w st).2
      = trace st0 ++ [fetch_request (tu_task_id args) c1 (tu_project args);
                      submit_request (tu_task_id args) c1 submitted]
    ∧ (∀ k, k ∉ UPDATE_FIELDS → submitted !! k = existing !! k)
    ∧ submitted !! "id" = Some (VStr (tu_task_id args))
    ∧ submitted !! "projectId" = Some (VStr (tu_project args))
    ∧ submitted !! "title" = updated_field (tu_title args) VStr (existing !! "title")
    ∧ submitted !! "content"
      = updated_field (tu_content args) (λ s, VStr (unescape_newlines s))
          (existing !! "content")
    ∧ submitted !! "priority"
      = updated_field (tu_priority args) priority_of (existing !! "priority")
    ∧ submitted !! "dueDate" = updated_field (tu_due args) VStr (existing !! "dueDate")
    ∧ submitted !! "startDate"
      = updated_field (tu_start args) VStr (existing !! "startDate").
Proof.
  intros Hclient Hv1 Hproject Hfetch.
  destruct (task_update_kwargs_fields args)
    as (Hid & Hpid & Htitle & Hcontent & Hpriority & Hdue & Hstart & Hother).
  exists (task_update_kwargs args ∪ existing). split.
  - unfold cmd_task_update. rewrite run_bind, Hclient, run_bind.
    rewrite (run_update_task w st0 self _ _ c1 (tu_project args) Hv1 Hpid Hproject), Hfetch.
    pose proof (trace_v1_request c1 "POST" ("/task/" +:+ quote (tu_task_id args))
                  (VDict (task_update_kwargs args ∪ existing)) w
                  (sent (fetch_request (tu_task_id args) c1 (tu_project args)) st0))
      as Htrace.
    unfold v1_request in Htrace.
    rewrite (truthy_VDict_lookup _ "id" (VStr (tu_task_id args))) in Htrace
      by (by apply lookup_union_Some_l).
    destruct (TickTickV1._request c1 "POST" _ _ w _) as [[result|c|e] st2];
      cbn [snd trace _json_output] in *; rewrite Htrace; unfold sent; cbn [trace];
      by rewrite <- app_assoc.
  - split; [intros k Hk; by rewrite lookup_union_r by auto|].
    split; [by apply lookup_union_Some_l|]. split; [by apply lookup_union_Some_l|].
    repeat split; by apply updated_field_union.
Qed.

Lemma cmd_task_update_frame_witness :
  ∃ submitted,
    trace (cmd_task_update secret_env retitle_args one_task_world initial).2
      = trace initial ++ [fetch_request "t1" secret "p1";
                          submit_request "t1" secret submitted]
    ∧ (∀ k, k ∉ UPDATE_FIELDS → submitted !! k = stored_task !! k)
    ∧ submitted !! "id" = Some (VStr "t1")
    ∧ submitted !! "projectId" = Some (VStr "p1")
    ∧ submitted !! "title" = Some (VStr "final")
    ∧ submitted !! "content" = None
    ∧ submitted !! "priority" = None
    ∧ submitted !! "dueDate" = None
    ∧ submitted !! "startDate" = None.
Proof.
  apply (cmd_task_update_frame one_task_world initial secret_env retitle_args
           v1_only initial secret [] stored_task); [reflexivity|reflexivity|discriminate|reflexivity].
Defined.

(** X14. [task-update] with an empty project never reaches the server:
    once the client is built, with a V1 backend, the command prints that
    [update_task] needs a project and exits with status 1; nothing is
    fetched, submitted or printed on the output. *)
Theorem cmd_task_update_needs_project w st env args self st0 :
  create_client_from_env env w st = (Ret self, st0) →
  is_Some (TickTickClient.v1 self) →
  tu_project args = "" →
  cmd_task_update env args w st = (Exit 1, complained NEEDS_PROJECT st0).
Proof.
  intros Hclient [c1 Hv1] Hproject. unfold cmd_task_update.
  rewrite run_bind, Hclient, run_bind.
  rewrite update_task_falsy_project, Hv1; [reflexivity|].
  destruct (task_update_kwargs_fields args) as (_ & -> & _). by rewrite Hproject.
Qed.

Lemma cmd_task_update_needs_project_witness :
  cmd_task_update secret_env unscoped_args one_task_world initial
  = (Exit 1, complained NEEDS_PROJECT initial).
Proof.
  apply (cmd_task_update_needs_project one_task_world initial secret_env unscoped_args
           v1_only initial); [reflexivity|by eexists|reflexivity].
Defined.

(** ** Completing and deleting from the command line *)

Section reports.
Context (w : world) (st st0 : state) (env : environ).
Context (self : TickTickClient.t) (c1 : TickTickV1.t) (project_id task_id : string).
Context (Hclient : create_client_from_env env w st = (Ret self, st0)).
Context (Hv1 : TickTickClient.v1 self = Some c1).

Lemma run_report (operation : TickTickClient.t → Py value) (method path : string)
    (doc : value) :
  (∀ st', operation self w st' = TickTickV1._request c1 method path VNone w st') →
  let req := v1_request c1 method path VNone in
  (∀ code body,
     server w (trace st0) req = HTTPError code body →
     (create_client_from_env env ≫= λ client, operation client ≫= λ _, _json_output doc) w st
     = (Exit 1, complained (v1_error code body) (sent req st0)))
  ∧ (∀ cookies text,
     server w (trace st0) req = Response cookies text →
     readable text = true →
     (create_client_from_env env ≫= λ client, operation client ≫= λ _, _json_output doc) w st
     = (Ret (), printed doc (sent req st0))).
Proof using Hclient.
  intros Hrun req. split.
  - intros code body Hanswer.
    rewrite run_bind, Hclient, run_bind, Hrun, run_v1_request. cbv zeta.
    fold req. by rewrite Hanswer.
  - intros cookies text Hanswer Hreadable.
    rewrite run_bind, Hclient, run_bind, Hrun, run_v1_request. cbv zeta.
    fold req. rewrite Hanswer. by destruct text.
Qed.

(** X15. [task-complete] and [task-delete] report success only when the
    server accepted the request.  On an HTTP error the command prints the
    V1 diagnostic, exits with status 1 and prints nothing on the output;
    on an answer with an empty or JSON body it prints the success report
    naming the task, whatever the body holds. *)
Theorem completion_reported_on_success :
  ((∀ code body,
      server w (trace st0) (complete_request c1 project_id task_id) = HTTPError code body →
      cmd_task_complete env project_id task_id w st
      = (Exit 1, complained (v1_error code body)
                   (sent (complete_request c1 project_id task_id) st0)))
   ∧ (∀ cookies text,
      server w (trace st0) (complete_request c1 project_id task_id)
        = Response cookies text →
      readable text = true →
      cmd_task_complete env project_id task_id w st
      = (Ret (), printed (success_report "completed" task_id)
                   (sent (complete_request c1 project_id task_id) st0))))
  ∧ ((∀ code body,
      server w (trace st0) (delete_request c1 project_id task_id) = HTTPError code body →
      cmd_task_delete env project_id task_id w st
      = (Exit 1, complained (v1_error code body)
                   (sent (delete_request c1 project_id task_id) st0)))
   ∧ (∀ cookies text,
      server w (trace st0) (delete_request c1 project_id task_id)
        = Response cookies text →
      readable text = true →
      cmd_task_delete env project_id task_id w st
      = (Ret (), printed (success_report "deleted" task_id)
                   (sent (delete_request c1 project_id task_id) st0)))).
Proof using Hclient Hv1.
  split.
  - apply (run_report
             (λ client, TickTickClient.complete_task client (VStr project_id) (VStr task_id))
             "POST"
             ("/project/" +:+ quote project_id +:+ "/task/" +:+ quote task_id +:+ "/complete")
             (success_report "completed" task_id)).
    intros st'. unfold TickTickClient.complete_task. by rewrite Hv1.
  - apply (run_report
             (λ client, TickTickClient.delete_task client (VStr project_id) (VStr task_id))
             "DELETE" ("/project/" +:+ quote project_id +:+ "/task/" +:+ quote task_id)
             (success_report "deleted" task_id)).
    intros st'. unfold TickTickClient.delete_task. by rewrite Hv1.
Qed.

End reports.

Lemma completion_reported_on_success_witness :
  cmd_task_complete secret_env "p1" "t1" missing_world initial
    = (Exit 1, complained (v1_error 404 "task not found")
                 (sent (complete_request secret "p1" "t1") initial))
  ∧ cmd_task_complete secret_env "p1" "t1" silent_world initial
    = (Ret (), printed (success_report "completed" "t1")
                 (sent (complete_request secret "p1" "t1") initial))
  ∧ cmd_task_delete secret_env "p1" "t1" silent_world initial
    = (Ret (), printed (success_report "deleted" "t1")
                 (sent (delete_request secret "p1" "t1") initial)).
Proof.
  split; [|split].
  - destruct (completion_reported_on_success missing_world initial initial secret_env
                v1_only secret "p1" "t1" eq_refl eq_refl) as [[Herror _] _].
    by apply Herror.
  - destruct (completion_reported_on_success silent_world initial initial secret_env
                v1_only secret "p1" "t1" eq_refl eq_refl) as [[_ Hdone] _].
    by apply (Hdone [] NoText).
  - destruct (completion_reported_on_success silent_world initial initial secret_env
                v1_only secret "p1" "t1" eq_refl eq_refl) as [_ [_ Hdone]].
    by apply (Hdone [] NoText).
Defined.

(** ** Batches *)

Lemma lookup_put_if_eq key v (m : gmap string value) :
  TickTickV2.put_if key v m !! key = from_option Some (m !! key) (group v).
Proof.
  unfold TickTickV2.put_if, group. destruct (truthy v); [|done].
  by rewrite lookup_insert_eq.
Qed.

Lemma lookup_put_if_ne key v (m : gmap string value) k :
  key ≠ k → TickTickV2.put_if key v m !! k = m !! k.
Proof.
  intros Hne. unfold TickTickV2.put_if. destruct (truthy v); [|done].
  by rewrite lookup_insert_ne.
Qed.

(** X16. A batch carries the groups that are not empty, each under its
    own key and nothing else; [batch_task] and [batch_tag] build the same
    payload.  When all three groups are empty or absent the request is
    still sent, as a POST without a body. *)
Theorem batch_skips_empty_groups w st c2 (add update delete : value) :
  ∃ body,
    trace (TickTickV2.batch_task c2 add update delete w st).2
      = trace st ++ [batch_request c2 "/batch/task" body]
    ∧ trace (TickTickV2.batch_tag c2 add update delete w st).2
      = trace st ++ [batch_request c2 "/batch/tag" body]
    ∧ match body with
      | None => truthy add = false ∧ truthy update = false ∧ truthy delete = false
      | Some (VDict payload) =>
          truthy add || truthy update || truthy delete = true
          ∧ payload !! "add" = group add
          ∧ payload !! "update" = group update
          ∧ payload !! "delete" = group delete
          ∧ ∀ k, k ∉ ["add"; "update"; "delete"] → payload !! k = None
      | Some _ => False
      end.
Proof.
  set (payload := TickTickV2.put_if "delete" delete
                    (TickTickV2.put_if "update" update
                       (TickTickV2.put_if "add" add ∅))).
  exists (if truthy (VDict payload) then Some (VDict payload) else None).
  split; [apply trace_v2_request|]. split; [apply trace_v2_request|].
  assert (payload !! "add" = group add ∧ payload !! "update" = group update
          ∧ payload !! "delete" = group delete
          ∧ ∀ k, k ∉ ["add"; "update"; "delete"] → payload !! k = None)
    as (Hadd & Hupdate & Hdelete & Hother).
  { unfold payload. split; [|split; [|split]].
    - rewrite !lookup_put_if_ne, lookup_put_if_eq by done. by destruct (group add).
    - rewrite lookup_put_if_ne, lookup_put_if_eq, lookup_put_if_ne by done.
      by destruct (group update).
    - rewrite lookup_put_if_eq, !lookup_put_if_ne by done. by destruct (group delete).
    - intros k Hk. rewrite !not_elem_of_cons in Hk. destruct Hk as (? & ? & ? & _).
      by rewrite !lookup_put_if_ne, lookup_empty by done. }
  destruct (truthy (VDict payload)) eqn:Hpayload.
  - split; [|done].
    destruct (truthy add) eqn:Ha, (truthy update) eqn:Hu, (truthy delete) eqn:Hd;
      try reflexivity.
    exfalso. unfold payload, TickTickV2.put_if in Hpayload.
    rewrite Ha, Hu, Hd in Hpayload. discriminate Hpayload.
  - unfold group in *.
    destruct (truthy add) eqn:Ha;
      [by rewrite (truthy_VDict_lookup payload "add" add Hadd) in Hpayload|].
    destruct (truthy update) eqn:Hu;
      [by rewrite (truthy_VDict_lookup payload "update" update Hupdate) in Hpayload|].
    destruct (truthy delete) eqn:Hd;
      [by rewrite (truthy_VDict_lookup payload "delete" delete Hdelete) in Hpayload|].
    done.
Qed.

(** ** When the listing through V1 stops *)

Lemma collect_tasks_app c1 l1 l2 all_tasks w st :
  TickTickClient.collect_tasks c1 (l1 ++ l2) all_tasks w st
  = match TickTickClient.collect_tasks c1 l1 all_tasks w st with
    | (Ret gathered, st') => TickTickClient.collect_tasks c1 l2 gathered w st'
    | (Exit c, st') => (Exit c, st')
    | (Crash e, st') => (Crash e, st')
    end.
Proof.
  revert all_tasks st. induction l1 as [|p l1 IH]; intros all_tasks st; [reflexivity|].
  cbn [app TickTickClient.collect_tasks]. rewrite !run_bind.
  destruct (except_SystemExit _ _ w st) as [[gathered|c|e] st']; [apply IH|done|done].
Qed.

Lemma collect_tasks_without_id c1 (p : gmap string value) rest all_tasks w st :
  p !! "id" = None →
  TickTickClient.collect_tasks c1 (VDict p :: rest) all_tasks w st = (Crash "KeyError", st).
Proof.
  intros Hid. cbn [TickTickClient.collect_tasks]. rewrite run_bind.
  unfold except_SystemExit. rewrite run_bind. cbn [py_item]. by rewrite Hid.
Qed.

(** X17. Only a failed fetch of a project is skipped.  When the request
    for the list of projects itself is answered with an HTTP error, the
    listing exits with the V1 diagnostic after that one request.  When a
    project of the list has no [id], the listing ends in [KeyError] there:
    the projects before it have been fetched, the ones after it are not,
    and no task is returned. *)
Theorem unscoped_listing_stops w st c1 :
  (∀ code body,
     server w (trace st) (list_request c1) = HTTPError code body →
     TickTickClient.list_tasks (TickTickClient.Build (Some c1) None) None w st
     = (Exit 1, complained (v1_error code body) (sent (list_request c1) st)))
  ∧ (∀ answer cookies (fetched : list (gmap string value)) (p : gmap string value) rest,
     server w (trace st) (list_request c1)
       = Response cookies (JsonText (VList (VDict <$> fetched ++ p :: rest))) →
     Forall (enumerable w c1 answer) fetched →
     p !! "id" = None →
     TickTickClient.list_tasks (TickTickClient.Build (Some c1) None) None w st
     = (Crash "KeyError",
        State (trace st ++ list_request c1 :: (data_request c1 ∘ project_id_of <$> fetched))
              (stderr st ++ omap (λ p, fetch_diagnostic (answer p)) fetched)
              (stdout st) (rng st))).
Proof.
  split.
  - intros code body Hlist. unfold TickTickClient.list_tasks.
    cbn [of_opt truthy TickTickClient.v1 TickTickClient.v2].
    rewrite run_bind. unfold TickTickV1.list_projects.
    rewrite run_v1_request. cbv zeta. fold (list_request c1). by rewrite Hlist.
  - intros answer cookies fetched p rest Hlist Hfetched Hid.
    unfold TickTickClient.list_tasks.
    cbn [of_opt truthy TickTickClient.v1 TickTickClient.v2].
    rewrite run_bind. unfold TickTickV1.list_projects.
    rewrite run_v1_request. cbv zeta. fold (list_request c1). rewrite Hlist.
    rewrite run_iter, run_bind, fmap_app, collect_tasks_app.
    rewrite (collect_tasks_enumerable w c1 answer fetched [] _ Hfetched).
    cbn [fmap list_fmap]. rewrite (collect_tasks_without_id c1 p _ _ w _ Hid).
    unfold sent. cbn [trace stderr stdout rng]. by rewrite <- app_assoc.
Qed.

Lemma unscoped_listing_stops_witness :
  TickTickClient.list_tasks v1_only None missing_world initial
    = (Exit 1, complained (v1_error 404 "task not found")
                 (sent (list_request secret) initial))
  ∧ TickTickClient.list_tasks v1_only None nameless_world initial
    = (Crash "KeyError",
       State [list_request secret; data_request secret "p1"] [] [] 0%nat).
Proof.
  destruct (unscoped_listing_stops missing_world initial secret) as [Hlist _].
  destruct (unscoped_listing_stops nameless_world initial secret) as [_ Hkey].
  split; [by apply Hlist|].
  apply (Hkey two_projects_answer [] [P1] nameless [P2]); [reflexivity| |reflexivity].
  repeat constructor; by eexists.
Defined.

(** ** Creating a task from the command line *)

Lemma lookup_put_args_eq key x xs f (m : gmap string value) :
  put_args key (Some (x :: xs)) f m !! key = Some (f (x :: xs)).
Proof. unfold put_args. by rewrite lookup_insert_eq. Qed.

Lemma lookup_put_args_ne key arg f (m : gmap string value) k :
  key ≠ k → put_args key arg f m !! k = m !! k.
Proof.
  intros Hne. unfold put_args. destruct arg as [[|x xs]|]; [done| |done].
  by rewrite lookup_insert_ne.
Qed.

Lemma lookup_all_day (b : bool) (m : gmap string value) k :
  "isAllDay" ≠ k → (if b then <["isAllDay" := VBool true]> m else m) !! k = m !! k.
Proof. intros Hne. destruct b; [|done]. by rewrite lookup_insert_ne. Qed.

(** Looks a key up through the options of [task-create]. *)
Ltac through_options :=
  repeat first
    [ rewrite lookup_put_arg_ne by done
    | rewrite lookup_put_args_ne by done
    | rewrite lookup_all_day by done ].

Lemma priority_of_known p n :
  PRIORITY_MAP !! p = Some n →
  priority_of p = VInt n ∧ PRIORITY_REVERSE !! n = Some p ∧ p ≠ "".
Proof.
  intros Hp. unfold priority_of. rewrite Hp. split; [done|].
  unfold PRIORITY_MAP in Hp. rewrite !lookup_insert_Some, lookup_empty in Hp.
  destruct Hp as [[<- <-]|[_ [[<- <-]|[_ [[<- <-]|[_ [[<- <-]|[_ Hp]]]]]]]];
    try (by split); discriminate.
Qed.

(** X18. [task-create] posts one record to [/task].  The record has the
    title and the project of the command line; a priority name of the
    table is sent as its ordinal, which the reverse table maps back to the
    name; and the sub-tasks become the checklist items, in order, each
    open (status 0). *)
Theorem cmd_task_create_body w st env args self st0 c1 :
  create_client_from_env env w st = (Ret self, st0) →
  TickTickClient.v1 self = Some c1 →
  let kwargs := task_create_kwargs args in
  trace (cmd_task_create env args w st).2 = trace st0 ++ [create_request c1 kwargs]
  ∧ kwargs !! "title" = Some (VStr (tc_title args))
  ∧ kwargs !! "projectId" = Some (VStr (tc_project args))
  ∧ (∀ p n, tc_priority args = Some p → PRIORITY_MAP !! p = Some n →
       kwargs !! "priority" = Some (VInt n) ∧ PRIORITY_REVERSE !! n = Some p)
  ∧ (tc_priority args = None → kwargs !! "priority" = None)
  ∧ (∀ t ts, tc_subtask args = Some (t :: ts) →
       kwargs !! "items" = Some (VList (subtask_item <$> t :: ts)))
  ∧ (tc_subtask args = None → kwargs !! "items" = None).
Proof.
  intros Hclient Hv1 kwargs.
  assert (kwargs !! "title" = Some (VStr (tc_title args))) as Htitle.
  { unfold kwargs, task_create_kwargs. cbv zeta. by through_options. }
  split; [|split; [exact Htitle|split; [|split; [|split; [|split]]]]].
  - unfold cmd_task_create. rewrite run_bind, Hclient, run_bind.
    unfold TickTickClient.create_task. rewrite Hv1. fold kwargs.
    pose proof (trace_v1_request c1 "POST" "/task" (VDict kwargs) w st0) as Htrace.
    unfold v1_request in Htrace.
    rewrite (truthy_VDict_lookup _ _ _ Htitle) in Htrace.
    unfold TickTickV1.create_task.
    by destruct (TickTickV1._request c1 "POST" "/task" (VDict kwargs) w st0)
      as [[result|c|e] st2].
  - unfold kwargs, task_create_kwargs. cbv zeta. by through_options.
  - intros p n Hp Hn. destruct (priority_of_known p n Hn) as (Hof & Hback & Hne).
    split; [|exact Hback].
    unfold kwargs, task_create_kwargs. cbv zeta. through_options.
    rewrite lookup_put_arg_eq. unfold updated_field. rewrite Hp.
    cbn [of_opt]. by rewrite (truthy_VStr p Hne), <- Hof.
  - intros Hp. unfold kwargs, task_create_kwargs. cbv zeta. through_options.
    rewrite lookup_put_arg_eq. unfold updated_field. rewrite Hp. cbn [of_opt truthy].
    by through_options.
  - intros t ts Hsub. unfold kwargs, task_create_kwargs. cbv zeta. rewrite Hsub.
    by rewrite lookup_put_args_eq.
  - intros Hsub. unfold kwargs, task_create_kwargs. cbv zeta. rewrite Hsub.
    cbn [put_args]. by through_options.
Qed.

Lemma cmd_task_create_body_witness :
  let kwargs := task_create_kwargs chores_args in
  trace (cmd_task_create secret_env chores_args silent_world initial).2
    = trace initial ++ [create_request secret kwargs]
  ∧ kwargs !! "title" = Some (VStr "Chores")
  ∧ kwargs !! "priority" = Some (VInt 5) ∧ PRIORITY_REVERSE !! 5 = Some "high"
  ∧ kwargs !! "items" = Some (VList [subtask_item "sweep"; subtask_item "dust"]).
Proof.
  intros kwargs.
  pose proof (cmd_task_create_body silent_world initial secret_env chores_args v1_only
                initial secret eq_refl eq_refl) as Hbody.
  cbv zeta in Hbody. destruct Hbody as (Htrace & Htitle & _ & Hpriority & _ & Hitems & _).
  split; [exact Htrace|]. split; [exact Htitle|].
  split; [|split].
  - by apply (Hpriority "high" 5).
  - by apply (Hpriority "high" 5).
  - by apply (Hitems "sweep" ["dust"]).
Defined.

(** ** The CSRF token of a login *)

Lemma prefix_empty s : String.prefix "" s = true.
Proof. by destruct s. Qed.

Lemma prefix_app_self s t : String.prefix s (s +:+ t) = true.
Proof.
  induction s as [|c s IH]; [apply prefix_empty|].
  rewrite str_app_cons. cbn [String.prefix]. by destruct (ascii_dec c c).
Qed.

Lemma drop_str_app s t : drop_str (String.length s) (s +:+ t) = t.
Proof. induction s as [|c s IH]; [done|]. by rewrite str_app_cons. Qed.

(** A text that starts with the separator splits there. *)
Lemma split_once_at_start sep t : split_once sep (sep +:+ t) = Some ("", t).
Proof.
  destruct (sep +:+ t) eqn:Heq; cbn [split_once];
    rewrite <- Heq, prefix_app_self, drop_str_app; reflexivity.
Qed.

Lemma split_0_cons sep c s :
  String.prefix sep (String c s) = false →
  split_0 sep (String c s) = String c (split_0 sep s).
Proof.
  intros Hprefix. unfold split_0. cbn [split_once]. rewrite Hprefix.
  by destruct (split_once sep s) as [[before after]|].
Qed.

Lemma prefix_app_semicolon p s r :
  str_forall not_semicolon p = true →
  String.prefix p (s +:+ String ";" r) = String.prefix p s.
Proof.
  revert s. induction p as [|c p IH]; intros s Hp.
  - by destruct s.
  - cbn [str_forall] in Hp. apply andb_true_iff in Hp as [Hc Hp].
    destruct s as [|c' s].
    + change ("" +:+ String ";" r) with (String ";" r). cbn [String.prefix].
      destruct (ascii_dec c ";") as [->|Hne]; [discriminate Hc|done].
    + rewrite str_app_cons. cbn [String.prefix].
      destruct (ascii_dec c c'); [by apply IH|done].
Qed.

Lemma contains_cons_false sep c s :
  contains sep (String c s) = false →
  String.prefix sep (String c s) = false ∧ contains sep s = false.
Proof.
  unfold contains. cbn [split_once].
  destruct (String.prefix sep (String c s)); [discriminate|].
  by destruct (split_once sep s) as [[before after]|].
Qed.

Lemma split_0_not_found sep s : contains sep s = false → split_0 sep s = s.
Proof.
  unfold contains, split_0. by destruct (split_once sep s) as [[before after]|].
Qed.

Lemma no_semicolon_not_found s :
  str_forall not_semicolon s = true → contains ";" s = false.
Proof.
  induction s as [|c s IH]; [done|].
  cbn [str_forall]. rewrite andb_true_iff. intros [Hc Hs].
  unfold contains in *. cbn [split_once String.prefix].
  destruct (ascii_dec ";" c) as [<-|Hne]; [discriminate Hc|].
  by destruct (split_once ";" s) as [[before after]|]; [discriminate (IH Hs)|].
Qed.

(** The value of the cookie is what the two splits of [_login] keep. *)
Lemma csrf_value token attributes :
  str_forall not_semicolon token = true →
  contains CSRF token = false →
  cookie_attributes attributes = true →
  split_0 ";" (split_0 CSRF (token +:+ attributes)) = token.
Proof.
  intros Hsemi Hmarker Hattributes. destruct attributes as [|c r].
  - rewrite str_app_nil_r, (split_0_not_found _ _ Hmarker).
    by apply split_0_not_found, no_semicolon_not_found.
  - cbn [cookie_attributes] in Hattributes. apply Ascii.eqb_eq in Hattributes as ->.
    induction token as [|c token IH].
    + change ("" +:+ String ";" r) with (String ";" r).
      rewrite split_0_cons by reflexivity.
      change (String ";" (split_0 CSRF r)) with (";" +:+ split_0 CSRF r).
      unfold split_0 at 1. by rewrite split_once_at_start.
    + cbn [str_forall] in Hsemi. apply andb_true_iff in Hsemi as [Hc Hsemi].
      apply contains_cons_false in Hmarker as [Hprefix Hmarker].
      rewrite str_app_cons, split_0_cons.
      * rewrite split_0_cons; [by rewrite IH|].
        cbn [String.prefix]. destruct (ascii_dec ";" c) as [<-|]; [discriminate Hc|done].
      * rewrite <- str_app_cons, prefix_app_semicolon; done.
Qed.

Lemma scan_csrf_snoc self cookies header :
  TickTickV2.scan_csrf self (cookies ++ [header])
  = TickTickV2.scan_csrf (TickTickV2.scan_csrf self cookies) [header].
Proof. unfold TickTickV2.scan_csrf. by rewrite fold_left_app. Qed.

(** X19. From the [Set-Cookie] headers of a login, the client keeps the
    CSRF token of the last header that sets the cookie [_csrf_token]: its
    value up to the first semicolon, character for character.  Headers
    that do not mention the cookie change nothing. *)
Theorem csrf_token_of_headers self (before : list string) (token attributes : string) :
  str_forall not_semicolon token = true →
  contains CSRF token = false →
  cookie_attributes attributes = true →
  TickTickV2.csrf_token
    (TickTickV2.scan_csrf self (before ++ [csrf_cookie token attributes])) = VStr token
  ∧ (Forall (λ header, contains CSRF header = false) before →
     TickTickV2.scan_csrf self before = self).
Proof.
  intros Hsemi Hmarker Hattributes. split.
  - rewrite scan_csrf_snoc. unfold TickTickV2.scan_csrf at 1. cbn [fold_left].
    fold CSRF. unfold contains, split_1, csrf_cookie.
    rewrite split_once_at_start. cbn [TickTickV2.csrf_token].
    by rewrite csrf_value.
  - intros Hnone. unfold TickTickV2.scan_csrf.
    induction Hnone as [|header rest Hheader _ IH]; [done|].
    cbn [fold_left]. unfold CSRF in Hheader. by rewrite Hheader.
Qed.

Lemma csrf_token_of_headers_witness :
  TickTickV2.csrf_token
    (TickTickV2.scan_csrf fresh_session
       (["lang=en; Path=/"] ++ [csrf_cookie "c5rf-T0k3n" "; Path=/; Secure"]))
    = VStr "c5rf-T0k3n"
  ∧ (Forall (λ header, contains CSRF header = false) ["lang=en; Path=/"] →
     TickTickV2.scan_csrf fresh_session ["lang=en; Path=/"] = fresh_session).
Proof.
  apply (csrf_token_of_headers fresh_session ["lang=en; Path=/"] "c5rf-T0k3n"
           "; Path=/; Secure"); reflexivity.
Defined.

(** ** The listing and the summary of the command line *)

Section commands.
Context (w : world) (st st0 st1 : state) (env : environ).
Context (self : TickTickClient.t) (c2 : TickTickV2.t).
Context (data : gmap string value).
Context (Hclient : create_client_from_env env w st = (Ret self, st0)).
Context (Hv2 : TickTickClient.v2 self = Some c2).
Context (Hsync : TickTickV2.sync c2 w st0 = (Ret (VDict data), st1)).

Lemma run_section {B} key (f : Z → Py B) (d : gmap string value) st' :
  (py_get (VDict d) key (VList []) ≫= λ v, py_len v ≫= f) w st'
  = if listed key d then f (section_size key d) w st' else
      match d !! key with
      | Some (VDict inner) => f (Z.of_nat (size inner)) w st'
      | Some (VStr text) => f (Z.of_nat (length (utf8_chars text))) w st'
      | _ => (Crash "TypeError", st')
      end.
Proof using Type.
  unfold listed, section_size. rewrite run_get.
  by destruct (d !! key) as [[| | | | |]|].
Qed.

(** X20. [sync] computes its summary before it looks at [--full].  When
    the sections of the snapshot are lists or absent, the command prints
    the snapshot itself with [--full] and otherwise the summary: the inbox
    and the sizes of the four sections, an absent section counting as 0.
    When a section is a JSON null the command ends in [TypeError] and
    prints nothing, with [--full] too. *)
Theorem cmd_sync_summary (full : bool) :
  (listed "projectProfiles" data && listed "projectGroups" data && listed "tags" data
   = true →
   ∀ bean, data !! "syncTaskBean" = Some (VDict bean) → listed "update" bean = true →
   cmd_sync env full w st
   = (Ret (), printed (if full then VDict data else summary_of data) st1))
  ∧ (listed "projectProfiles" data && listed "projectGroups" data = true →
     data !! "tags" = Some VNone →
     cmd_sync env full w st = (Crash "TypeError", st1)).
Proof using Hclient Hv2 Hsync.
  assert (cmd_sync env full w st
          = (sync_summary (VDict data) ≫= λ summary,
               if full then _json_output (VDict data) else _json_output summary) w st1)
    as ->.
  { unfold cmd_sync. rewrite run_bind, Hclient, run_bind.
    unfold TickTickClient.sync. by rewrite Hv2, Hsync. }
  split.
  - rewrite !andb_true_iff. intros [[Hprofiles Hgroups] Htags] bean Hbean Hupdate.
    rewrite run_bind. unfold sync_summary. rewrite run_get.
    rewrite run_section, Hprofiles, run_section, Hgroups, run_section, Htags.
    rewrite run_get, Hbean. change (default (VDict ∅) (Some (VDict bean))) with (VDict bean).
    rewrite run_section, Hupdate, run_ret. unfold summary_of. rewrite Hbean.
    by destruct full.
  - rewrite !andb_true_iff. intros [Hprofiles Hgroups] Htags.
    rewrite run_bind. unfold sync_summary. rewrite run_get.
    rewrite run_section, Hprofiles, run_section, Hgroups, run_section.
    unfold listed. by rewrite Htags.
Qed.

(** X21. With a V2 client only, [tasks --project P --status pending]
    prints one document: the tasks of the snapshot that belong to [P] and
    whose status is 0 or absent, in the order of the snapshot; with
    [--status completed], those whose status is 2. *)
Theorem cmd_tasks_of_project (bean : gmap string value) (ts : list (gmap string value))
    (pid : string) :
  TickTickClient.v1 self = None →
  data !! "syncTaskBean" = Some (VDict bean) →
  bean !! "update" = Some (VList (VDict <$> ts)) →
  pid ≠ "" →
  cmd_tasks env (Some pid) (Some "pending") w st
    = (Ret (), printed (VList (VDict <$> pending (List.filter (in_project pid) ts))) st1)
  ∧ cmd_tasks env (Some pid) (Some "completed") w st
    = (Ret (), printed (VList (VDict <$> completed (List.filter (in_project pid) ts))) st1).
Proof using Hclient Hv2 Hsync.
  intros Hv1 Hbean Hupdate Hpid.
  assert (TickTickClient.list_tasks self (Some pid) w st0
          = (Ret (VList (VDict <$> List.filter (in_project pid) ts)), st1)) as Hlist.
  { replace self with (TickTickClient.Build None (Some c2))
      by (destruct self; cbn in *; by subst).
    by apply (run_listing_from_snapshot w st0 st1 c2 data bean ts Hsync None pid). }
  unfold cmd_tasks. rewrite !run_bind, Hclient, !run_bind, Hlist.
  change (status_filter (Some "pending")) with (with_status 0).
  change (status_filter (Some "completed")) with (with_status 2).
  rewrite !run_bind, !with_status_records. unfold pending, completed. split.
  - rewrite (List.filter_ext _ (λ t, status_absent t || status_is 0 t)); [reflexivity|].
    intros t. unfold status_absent, status_is. by destruct (t !! "status").
  - rewrite (List.filter_ext _ (status_is 2)); [reflexivity|].
    intros t. unfold status_is. by destruct (t !! "status").
Qed.

End commands.

Lemma cmd_sync_summary_witness :
  cmd_sync session_env false account_world initial
    = (Ret (), printed (summary_of account_data)
                 (sent (sync_request account_session) (signed_in account_world)))
  ∧ cmd_sync session_env true broken_account_world initial
    = (Crash "TypeError",
       sent (sync_request account_session) (signed_in broken_account_world)).
Proof.
  split.
  - destruct (cmd_sync_summary account_world initial (signed_in account_world)
                (sent (sync_request account_session) (signed_in account_world))
                session_env account_client account_session account_data
                eq_refl eq_refl eq_refl false) as [Hsummary _].
    by apply (Hsummary eq_refl (tasks_bean [noted_task; done_task; plain_task])).
  - destruct (cmd_sync_summary broken_account_world initial (signed_in broken_account_world)
                (sent (sync_request account_session) (signed_in broken_account_world))
                session_env account_client account_session
                (<["tags" := VNone]> account_data)
                eq_refl eq_refl eq_refl true) as [_ Hnull].
    by apply Hnull.
Defined.

Lemma cmd_tasks_of_project_witness :
  cmd_tasks session_env (Some "p1") (Some "pending") account_world initial
    = (Ret (), printed (VList [VDict noted_task])
                 (sent (sync_request account_session) (signed_in account_world)))
  ∧ cmd_tasks session_env (Some "p1") (Some "completed") account_world initial
    = (Ret (), printed (VList [VDict done_task])
                 (sent (sync_request account_session) (signed_in account_world))).
Proof.
  apply (cmd_tasks_of_project account_world initial (signed_in account_world)
           (sent (sync_request account_session) (signed_in account_world))
           session_env account_client account_session account_data
           eq_refl eq_refl eq_refl
           (tasks_bean [noted_task; done_task; plain_task])
           [noted_task; done_task; plain_task] "p1");
    [reflexivity|reflexivity|reflexivity|discriminate].
Defined.

(** ** Line feeds on the command line *)

Lemma unescape_cons c s :
  Ascii.eqb c "\" = false →
  unescape_newlines (String c s) = String c (unescape_newlines s).
Proof. intros Hc. cbn. rewrite Hc. by destruct s. Qed.

(** X22. The replacement applied to [--content] and [--desc] leaves a text
    without a backslash as it is, and turns a text in which every line
    feed is typed as a backslash and the letter n into the text meant: so
    every text without a backslash can be given on the command line. *)
Theorem unescape_newlines_round_trip (s : string) :
  no_backslash s = true →
  unescape_newlines s = s ∧ unescape_newlines (escape_newlines s) = s.
Proof.
  unfold no_backslash. induction s as [|c s IH]; [done|].
  cbn [str_forall]. rewrite andb_true_iff, negb_true_iff. intros [Hc Hs].
  destruct (IH Hs) as [IH1 IH2]. split.
  - by rewrite unescape_cons, IH1.
  - cbn [escape_newlines]. destruct (Ascii.eqb c "010") eqn:Hlf.
    + apply Ascii.eqb_eq in Hlf as ->.
      change (unescape_newlines (String "\" (String "n" (escape_newlines s))))
        with (String "010" (unescape_newlines (escape_newlines s))).
      by rewrite IH2.
    + by rewrite unescape_cons, IH2.
Qed.

Lemma unescape_newlines_round_trip_witness :
  unescape_newlines "milk, eggs" = "milk, eggs"
  ∧ unescape_newlines "milk\neggs" = String "m" (String "i" (String "l" (String "k"
      (String "010" "eggs")))).
Proof.
  split.
  - by apply (unescape_newlines_round_trip "milk, eggs").
  - by apply (unescape_newlines_round_trip
                (String "m" (String "i" (String "l" (String "k" (String "010" "eggs")))))).
Defined.
